(** * Tool search provider: catalog-to-vector mapping and query pipeline

    A shallow embedding of [server/src/tools_search.py].  Python values are
    embedded as the dynamic type [pyval]; dicts are insertion-ordered
    association lists, as in Python; exceptions are explicit results; the
    embedding service and the vector index are a state ([world]) with a log of
    the calls that reached them. *)

From Stdlib Require Import ZArith List String Ascii Bool Lia Floats.
From Stdlib Require Import DecimalString DecimalZ DecimalPos.
Import ListNotations.
Local Open Scope string_scope.
Local Open Scope Z_scope.

Set Implicit Arguments.
#[local] Set Warnings "-register-all".

(** ** Python values *)

(** A Python [str] is modelled by [string], read as a sequence of code points
    below 256; an [int] by [Z]; a [float] by a binary64 [float].  A code
    point from 256 on enters only through an escape of a JSON text, and is
    then written as the runtime says (see [PyRuntime]). *)
Inductive pyval : Type :=
| PNone
| PBool (b : bool)
| PInt (z : Z)
| PFloat (f : float)
| PStr (s : string)
| PList (items : list pyval)
| PDict (entries : list (string * pyval)).

(** Insertion-ordered dictionaries with string keys. *)
Module Dict.
Section WithValue.
Variable V : Type.

Definition t := list (string * V).

Fixpoint get (d : t) (k : string) : option V :=
  match d with
  | [] => None
  | (k', v) :: d' => if String.eqb k k' then Some v else get d' k
  end.

(** [d[k] = v]: an existing key keeps its position. *)
Fixpoint set (d : t) (k : string) (v : V) : t :=
  match d with
  | [] => [(k, v)]
  | (k', v') :: d' =>
      if String.eqb k k' then (k', v) :: d' else (k', v') :: set d' k v
  end.

Definition mem (d : t) (k : string) : bool :=
  match get d k with Some _ => true | None => false end.

Definition keys (d : t) : list string := map fst d.

End WithValue.
End Dict.

Abbreviation dict := (Dict.t pyval).

(** Truth value of a Python object, as tested by [if x] and [not x]. *)
Definition truthy (v : pyval) : bool :=
  match v with
  | PNone => false
  | PBool b => b
  | PInt z => negb (z =? 0)
  | PFloat f => negb (PrimFloat.eqb f 0%float)
  | PStr s => negb (String.eqb s "")
  | PList l => match l with [] => false | _ => true end
  | PDict d => match d with [] => false | _ => true end
  end.

(** [d.get(k)]: [None] for an absent key. *)
Definition py_get (d : dict) (k : string) : pyval :=
  match Dict.get d k with Some v => v | None => PNone end.

(** [d.get(k, default)]. *)
Definition py_get_default (d : dict) (k : string) (default : pyval) : pyval :=
  match Dict.get d k with Some v => v | None => default end.

Definition is_list (v : pyval) : bool :=
  match v with PList _ => true | _ => false end.

(** ** Errors *)

Inductive ErrorCode : Type :=
| UNKNOWN_ERROR | INITIALIZATION_ERROR | CONFIGURATION_ERROR | DEPENDENCY_ERROR
| VALIDATION_ERROR | EMBEDDING_ERROR | PINECONE_ERROR | UPSERT_ERROR
| QUERY_ERROR | DELETE_ERROR | FETCH_ERROR | FILE_LOAD_ERROR
| TOOLKIT_UPSERT_ERROR | TOOLKIT_QUERY_ERROR | TOOLKIT_DELETE_ERROR
| BATCH_UPSERT_ERROR | BATCH_DELETE_ERROR | STATS_ERROR.

(** The exception classes the code raises, catches by name, or receives from
    its libraries.  [KValidationError] (pydantic) and [KJSONDecodeError] are
    subclasses of [ValueError]; every class here is an [Exception]. *)
Inductive exn_class : Type :=
| KJSONDecodeError | KTypeError | KValueError | KValidationError
| KAttributeError | KServiceError.

Inductive exn : Type :=
| ToolSearchError (message : string) (error_code : ErrorCode)
| PyError (cls : exn_class) (text : string).

(** [str(e)] *)
Definition exn_str (e : exn) : string :=
  match e with
  | ToolSearchError m _ => m
  | PyError _ m => m
  end.

Inductive result (A : Type) : Type :=
| Ok (a : A)
| Raise (e : exn).
Arguments Ok {A} a.
Arguments Raise {A} e.

Definition rbind {A B} (r : result A) (k : A -> result B) : result B :=
  match r with Ok a => k a | Raise e => Raise e end.

(** ** Filter translator *)

(** [{"$in": values}], a scalar first wrapped into a one-element list. *)
Definition in_clause (v : pyval) : pyval :=
  PDict [("$in", if is_list v then v else PList [v])].

(** One [if x := filters.get(src): pinecone_filter[dst] = {"$in": ...}] block. *)
Definition add_membership (filters : dict) (src dst : string) (pf : dict) : dict :=
  let v := py_get filters src in
  if truthy v then Dict.set pf dst (in_clause v) else pf.

(** One iteration of the loop over the elements of [required_params]. *)
Definition add_required_param (pf : dict) (param : pyval) : dict :=
  if negb (Dict.mem pf "required_params") then
    Dict.set pf "required_params" (PDict [("$in", PList [param])])
  else
    let existing_filter := py_get pf "required_params" in
    [("$and", PList [ PDict [("required_params", existing_filter)];
                      PDict [("required_params", PDict [("$in", PList [param])])] ])].

Definition add_required_params (filters : dict) (pf : dict) : dict :=
  let v := py_get filters "required_params" in
  if truthy v then
    match v with
    | PList params => fold_left add_required_param params pf
    | _ => Dict.set pf "required_params" (PDict [("$in", PList [v])])
    end
  else pf.

Definition _build_pinecone_filter (filters : dict) : dict :=
  match filters with
  | [] => []
  | _ =>
      let pf := [] in
      let pf := add_membership filters "tool_name" "tool_name" pf in
      let pf := add_membership filters "toolkit" "toolkit_name" pf in
      let pf := add_membership filters "toolkit_id" "toolkit_id" pf in
      let pf := add_membership filters "chain" "chain" pf in
      add_required_params filters pf
  end.

(** The membership clauses a filter expression asserts: the entries of the
    top-level dict, an ["$and"] entry standing for the clauses of its
    operands. *)
Fixpoint asserted (f : pyval) : list (string * pyval) :=
  match f with
  | PDict entries =>
      (fix entries_clauses (es : list (string * pyval)) : list (string * pyval) :=
         match es with
         | [] => []
         | (k, c) :: es' =>
             ((if String.eqb k "$and" then
                match c with
                | PList operands =>
                    (fix operands_clauses (fs : list pyval) : list (string * pyval) :=
                       match fs with
                       | [] => []
                       | g :: fs' => (asserted g ++ operands_clauses fs')%list
                       end) operands
                | _ => []
                end
              else [(k, c)]) ++ entries_clauses es')%list
         end) entries
  | _ => []
  end.

(** The clause [{"$in": [p]}] on the field [required_params]. *)
Definition requires_param (p : pyval) : string * pyval :=
  ("required_params", PDict [("$in", PList [p])]).

(** ** The runtime's libraries

    What [json] and [pydantic] do outside the values this code produces is
    left open: how a float is printed and read, which non-canonical inputs
    pydantic's lax mode still converts into a [str], [bool] or [int] field,
    and how a code point from 256 on, which an escape of a JSON text can
    denote, is written among the strings of this model ([wide_chr]).
    Every statement below holds for each choice. *)
Class PyRuntime : Type := {
  float_repr : float -> string;
  float_of_literal : string -> float;
  wide_chr : N -> string;
  lax_str : pyval -> option string;
  lax_bool : pyval -> option bool;
  lax_int : pyval -> option Z
}.

(** ** json: the encoder *)

Module Json.
Local Open Scope char_scope.

Definition quote : ascii := "034".
Definition backslash : ascii := "092".

Definition hex_digit (n : N) : ascii :=
  match n with
  | 0%N => "0" | 1%N => "1" | 2%N => "2" | 3%N => "3" | 4%N => "4"
  | 5%N => "5" | 6%N => "6" | 7%N => "7" | 8%N => "8" | 9%N => "9"
  | 10%N => "a" | 11%N => "b" | 12%N => "c" | 13%N => "d" | 14%N => "e"
  | _ => "f"
  end.

(** [ESCAPE_ASCII]: a quote, a backslash and every character outside
    [' '..'~'] is escaped; the rest is copied. *)
Definition escape_char (c : ascii) : list ascii :=
  let n := N_of_ascii c in
  if N.eqb n 34 then [backslash; quote]
  else if N.eqb n 92 then [backslash; backslash]
  else if N.eqb n 10 then [backslash; "n"]
  else if N.eqb n 13 then [backslash; "r"]
  else if N.eqb n 9 then [backslash; "t"]
  else if N.eqb n 8 then [backslash; "b"]
  else if N.eqb n 12 then [backslash; "f"]
  else if (N.leb 32 n && N.leb n 126)%bool then [c]
  else [backslash; "u"; "0"; "0"; hex_digit (N.div n 16); hex_digit (N.modulo n 16)].

Definition encode_string (s : string) : list ascii :=
  (quote :: flat_map escape_char (list_ascii_of_string s) ++ [quote])%list.

(** [sep.join(parts)] *)
Fixpoint join (sep : list ascii) (parts : list (list ascii)) : list ascii :=
  match parts with
  | [] => []
  | [x] => x
  | x :: rest => (x ++ sep ++ join sep rest)%list
  end.

Definition item_separator : list ascii := [","; " "].
Definition key_separator : list ascii := [":"; " "].

Section Encoder.
Context {rt : PyRuntime}.

(** [json.dumps(v)] with the default separators [", "] and [": "]. *)
Fixpoint encode (v : pyval) : list ascii :=
  match v with
  | PNone => list_ascii_of_string "null"
  | PBool true => list_ascii_of_string "true"
  | PBool false => list_ascii_of_string "false"
  | PInt z => list_ascii_of_string (NilZero.string_of_int (Z.to_int z))
  | PFloat f => list_ascii_of_string (float_repr f)
  | PStr s => encode_string s
  | PList items =>
      ("[" :: join item_separator (map encode items) ++ ["]"])%list
  | PDict entries =>
      ("{" :: join item_separator
                (map (fun kv : string * pyval =>
                        let (k, x) := kv in
                        encode_string k ++ key_separator ++ encode x) entries)
           ++ ["}"])%list
  end.

Definition dumps (v : pyval) : string := string_of_list_ascii (encode v).
End Encoder.
End Json.

(** ** json: the decoder *)

Module JsonDecoder.
Import Json.
Local Open Scope char_scope.

Definition is_ws (c : ascii) : bool :=
  let n := N_of_ascii c in
  (N.eqb n 32 || N.eqb n 9 || N.eqb n 10 || N.eqb n 13)%bool.

Fixpoint skip_ws (s : list ascii) : list ascii :=
  match s with
  | c :: r => if is_ws c then skip_ws r else s
  | [] => []
  end.

Definition hex_value (c : ascii) : option N :=
  let n := N_of_ascii c in
  if (N.leb 48 n && N.leb n 57)%bool then Some (n - 48)%N
  else if (N.leb 97 n && N.leb n 102)%bool then Some (n - 87)%N
  else if (N.leb 65 n && N.leb n 70)%bool then Some (n - 55)%N
  else None.

Definition hex4 (a b c d : ascii) : option N :=
  match hex_value a, hex_value b, hex_value c, hex_value d with
  | Some x, Some y, Some z, Some w => Some (((x * 16 + y) * 16 + z) * 16 + w)%N
  | _, _, _, _ => None
  end.

(** The [BACKSLASH] table of one-letter escapes. *)
Definition unescape (e : ascii) : option ascii :=
  let n := N_of_ascii e in
  if N.eqb n 34 then Some quote
  else if N.eqb n 92 then Some backslash
  else if N.eqb n 47 then Some "/"
  else if N.eqb n 98 then Some (ascii_of_N 8)
  else if N.eqb n 102 then Some (ascii_of_N 12)
  else if N.eqb n 110 then Some (ascii_of_N 10)
  else if N.eqb n 114 then Some (ascii_of_N 13)
  else if N.eqb n 116 then Some (ascii_of_N 9)
  else None.

Definition prepend (c : ascii) (r : option (string * list ascii)) :
  option (string * list ascii) :=
  match r with
  | Some (s, rest) => Some (String c s, rest)
  | None => None
  end.

(** A high surrogate, [0xd800] to [0xdbff], and a low one, [0xdc00] to
    [0xdfff]. *)
Definition is_high_surrogate (n : N) : bool := (N.leb 55296 n && N.leb n 56319)%bool.
Definition is_low_surrogate (n : N) : bool := (N.leb 56320 n && N.leb n 57343)%bool.

(** The code point a surrogate pair stands for. *)
Definition join_surrogates (high low : N) : N :=
  (65536 + ((high - 55296) * 1024 + (low - 56320)))%N.

Section Strings.
Context {rt : PyRuntime}.

Definition prepend_wide (n : N) (r : option (string * list ascii)) :
  option (string * list ascii) :=
  match r with
  | Some (s, rest) => Some (String.append (wide_chr n) s, rest)
  | None => None
  end.

(** [scanstring] in strict mode, from just after the opening quote.  An
    escape of four hexadecimal digits denotes its code point, which from 256
    on is written as the runtime says; the escape of a high surrogate
    followed by the escape of a low one denotes the one code point of the
    pair, and a surrogate that stands alone denotes itself. *)
Fixpoint scanstring (s : list ascii) : option (string * list ascii) :=
  match s with
  | [] => None
  | c :: r =>
      if Ascii.eqb c quote then Some (EmptyString, r)
      else if Ascii.eqb c backslash then
        match r with
        | [] => None
        | e :: r1 =>
            if Ascii.eqb e "u" then
              match r1 with
              | h1 :: h2 :: h3 :: h4 :: r2 =>
                  match hex4 h1 h2 h3 h4 with
                  | Some n =>
                      if N.ltb n 256 then prepend (ascii_of_N n) (scanstring r2)
                      else if is_high_surrogate n then
                        match r2 with
                        | b :: u :: r3 =>
                            if (Ascii.eqb b backslash && Ascii.eqb u "u")%bool then
                              match r3 with
                              | g1 :: g2 :: g3 :: g4 :: r4 =>
                                  match hex4 g1 g2 g3 g4 with
                                  | Some m =>
                                      if is_low_surrogate m then
                                        prepend_wide (join_surrogates n m) (scanstring r4)
                                      else prepend_wide n (scanstring r2)
                                  | None => None
                                  end
                              | _ => None
                              end
                            else prepend_wide n (scanstring r2)
                        | _ => prepend_wide n (scanstring r2)
                        end
                      else prepend_wide n (scanstring r2)
                  | None => None
                  end
              | _ => None
              end
            else
              match unescape e with
              | Some ch => prepend ch (scanstring r1)
              | None => None
              end
        end
      else if N.ltb (N_of_ascii c) 32 then None
      else prepend c (scanstring r)
  end.
End Strings.

Definition is_digit (c : ascii) : bool :=
  let n := N_of_ascii c in (N.leb 48 n && N.leb n 57)%bool.

Fixpoint span_digits (s : list ascii) : list ascii * list ascii :=
  match s with
  | c :: r =>
      if is_digit c then let (ds, rest) := span_digits r in (c :: ds, rest)
      else ([], s)
  | [] => ([], [])
  end.

Definition digits_value (ds : list ascii) : Z :=
  fold_left (fun acc c => 10 * acc + Z.of_N (N_of_ascii c - 48)) ds 0%Z.

Fixpoint strip_prefix (p s : list ascii) : option (list ascii) :=
  match p, s with
  | [], _ => Some s
  | a :: p', b :: s' => if Ascii.eqb a b then strip_prefix p' s' else None
  | _ :: _, [] => None
  end.

(** The integer part of [NUMBER_RE]: an optional minus sign, then either
    a single zero or a digit from 1 to 9 followed by any digits. *)
Definition scan_integer (s : list ascii) : option (bool * list ascii * list ascii) :=
  let '(neg, s1) :=
    match s with
    | c :: r => if Ascii.eqb c "-" then (true, r) else (false, s)
    | [] => (false, s)
    end in
  match s1 with
  | c :: r =>
      if Ascii.eqb c "0" then Some (neg, [c], r)
      else if is_digit c then
        let (ds, rest) := span_digits r in Some (neg, c :: ds, rest)
      else None
  | [] => None
  end.

(** The optional fraction: a dot followed by at least one digit. *)
Definition scan_frac (s : list ascii) : list ascii * list ascii :=
  match s with
  | c :: r =>
      if Ascii.eqb c "." then
        match span_digits r with
        | ([], _) => ([], s)
        | (ds, rest) => (c :: ds, rest)
        end
      else ([], s)
  | [] => ([], s)
  end.

(** The optional exponent: e or E, an optional sign, at least one digit. *)
Definition scan_exp (s : list ascii) : list ascii * list ascii :=
  match s with
  | c :: r =>
      if (Ascii.eqb c "e" || Ascii.eqb c "E")%bool then
        let '(sign, r1) :=
          match r with
          | d :: r' =>
              if (Ascii.eqb d "-" || Ascii.eqb d "+")%bool then ([d], r') else ([], r)
          | [] => ([], r)
          end in
        match span_digits r1 with
        | ([], _) => ([], s)
        | (ds, rest) => (c :: sign ++ ds, rest)%list
        end
      else ([], s)
  | [] => ([], s)
  end.

Section Decoder.
Context {rt : PyRuntime}.

Definition scan_number (s : list ascii) : option (pyval * list ascii) :=
  match scan_integer s with
  | None => None
  | Some (neg, ds, r) =>
      let (frac, r1) := scan_frac r in
      let (exp, r2) := scan_exp r1 in
      match frac, exp with
      | [], [] =>
          Some (PInt (if neg then - digits_value ds else digits_value ds), r2)
      | _, _ =>
          let literal := ((if neg then ["-"] else []) ++ ds ++ frac ++ exp)%list in
          Some (PFloat (float_of_literal (string_of_list_ascii literal)), r2)
      end
  end.

Definition scan_constant (s : list ascii) : option (pyval * list ascii) :=
  match strip_prefix (list_ascii_of_string "NaN") s with
  | Some r => Some (PFloat nan, r)
  | None =>
      match strip_prefix (list_ascii_of_string "Infinity") s with
      | Some r => Some (PFloat infinity, r)
      | None =>
          match strip_prefix (list_ascii_of_string "-Infinity") s with
          | Some r => Some (PFloat neg_infinity, r)
          | None => None
          end
      end
  end.

Definition scan_atom (s : list ascii) : option (pyval * list ascii) :=
  match strip_prefix (list_ascii_of_string "null") s with
  | Some r => Some (PNone, r)
  | None =>
      match strip_prefix (list_ascii_of_string "true") s with
      | Some r => Some (PBool true, r)
      | None =>
          match strip_prefix (list_ascii_of_string "false") s with
          | Some r => Some (PBool false, r)
          | None =>
              match scan_number s with
              | Some x => Some x
              | None => scan_constant s
              end
          end
      end
  end.

(** [scan_once], [JSONArray] and [JSONObject].  [None] is a
    [JSONDecodeError].  The recursion follows the nesting of the text and
    is cut off by [fuel]. *)
Fixpoint scan_once (fuel : nat) (s : list ascii) : option (pyval * list ascii) :=
  match fuel with
  | O => None
  | S fuel' =>
      match s with
      | [] => None
      | c :: r =>
          if Ascii.eqb c quote then
            match scanstring r with
            | Some (str, rest) => Some (PStr str, rest)
            | None => None
            end
          else if Ascii.eqb c "{" then
            match skip_ws r with
            | c1 :: r1 =>
                if Ascii.eqb c1 "}" then Some (PDict [], r1)
                else if Ascii.eqb c1 quote then scan_members fuel' r1 []
                else None
            | [] => None
            end
          else if Ascii.eqb c "[" then
            match skip_ws r with
            | c1 :: r1 =>
                if Ascii.eqb c1 "]" then Some (PList [], r1)
                else scan_elements fuel' (c1 :: r1) []
            | [] => None
            end
          else scan_atom s
      end
  end

(** The loop of [JSONArray], at the start of a value; [values] holds the
    values read so far. *)
with scan_elements (fuel : nat) (s : list ascii) (values : list pyval) :
  option (pyval * list ascii) :=
  match fuel with
  | O => None
  | S fuel' =>
      match scan_once fuel' s with
      | None => None
      | Some (value, r) =>
          let values := (values ++ [value])%list in
          match skip_ws r with
          | c :: r1 =>
              if Ascii.eqb c "]" then Some (PList values, r1)
              else if Ascii.eqb c "," then scan_elements fuel' (skip_ws r1) values
              else None
          | [] => None
          end
      end
  end

(** The loop of [JSONObject], just after the opening quote of a key;
    [pairs] is the dict of the pairs read so far. *)
with scan_members (fuel : nat) (s : list ascii) (pairs : dict) :
  option (pyval * list ascii) :=
  match fuel with
  | O => None
  | S fuel' =>
      match scanstring s with
      | None => None
      | Some (key, r) =>
          match skip_ws r with
          | c :: r1 =>
              if Ascii.eqb c ":" then
                match scan_once fuel' (skip_ws r1) with
                | None => None
                | Some (value, r2) =>
                    let pairs := Dict.set pairs key value in
                    match skip_ws r2 with
                    | c2 :: r3 =>
                        if Ascii.eqb c2 "}" then Some (PDict pairs, r3)
                        else if Ascii.eqb c2 "," then
                          match skip_ws r3 with
                          | c3 :: r4 =>
                              if Ascii.eqb c3 quote then scan_members fuel' r4 pairs
                              else None
                          | [] => None
                          end
                        else None
                    | [] => None
                    end
                end
              else None
          | [] => None
          end
      end
  end.

(** [json.loads(s)]: one value, white space around it, nothing else. *)
Definition loads (s : string) : result pyval :=
  let text := list_ascii_of_string s in
  match scan_once (S (List.length text)) (skip_ws text) with
  | Some (v, rest) =>
      match skip_ws rest with
      | [] => Ok v
      | _ :: _ => Raise (PyError KJSONDecodeError "Extra data")
      end
  | None => Raise (PyError KJSONDecodeError "Expecting value")
  end.
End Decoder.
End JsonDecoder.

(** ** Entity model *)

Record ToolParameter : Type := {
  name : string;
  type : string;
  required : bool;
  param_description : option string
}.

Record Tool : Type := {
  action_id : Z;
  toolkit_id : Z;
  tool_name : string;
  description : string;
  parameters : list ToolParameter;
  toolkit : string
}.

Record Toolkit : Type := {
  tk_toolkit_id : Z;
  tk_name : string;
  tk_description : string;
  tools : list Tool
}.

(** [param.model_dump()] *)
Definition model_dump (p : ToolParameter) : pyval :=
  PDict [("name", PStr (name p));
         ("type", PStr (type p));
         ("required", PBool (required p));
         ("description",
          match param_description p with Some d => PStr d | None => PNone end)].

Section Codec.
Context {rt : PyRuntime}.

(** *** pydantic's field validators *)

Definition validate_str (v : pyval) : option string :=
  match v with PStr s => Some s | _ => lax_str v end.

Definition validate_bool (v : pyval) : option bool :=
  match v with PBool b => Some b | _ => lax_bool v end.

Definition validate_int (v : pyval) : option Z :=
  match v with PInt z => Some z | _ => lax_int v end.

(** A required field: a missing key is an error. *)
Definition required_field {A} (validate : pyval -> option A) (d : dict) (k : string) :
  option A :=
  match Dict.get d k with
  | Some v => validate v
  | None => None
  end.

(** [description: Optional[str] = None] *)
Definition optional_str_field (d : dict) (k : string) : option (option string) :=
  match Dict.get d k with
  | None | Some PNone => Some None
  | Some v => option_map Some (validate_str v)
  end.

Definition validation_error : exn :=
  PyError KValidationError "validation error for ToolParameter".

(** [ToolParameter( **param_dict )]: unpacking anything but a mapping is a
    [TypeError]; keys that are no field are ignored; a field that does not
    validate is a [ValidationError]. *)
Definition new_ToolParameter (param_dict : pyval) : result ToolParameter :=
  match param_dict with
  | PDict d =>
      match required_field validate_str d "name",
            required_field validate_str d "type",
            required_field validate_bool d "required",
            optional_str_field d "description" with
      | Some n, Some t, Some r, Some de =>
          Ok {| name := n; type := t; required := r; param_description := de |}
      | _, _, _, _ => Raise validation_error
      end
  | _ => Raise (PyError KTypeError "argument after ** must be a mapping")
  end.

(** [for x in v]: the items of a list, the characters of a string, the keys
    of a dict; anything else is not iterable. *)
Definition py_iter (v : pyval) : result (list pyval) :=
  match v with
  | PList l => Ok l
  | PStr s => Ok (map (fun c => PStr (String c EmptyString)) (list_ascii_of_string s))
  | PDict d => Ok (map (fun kv => PStr (fst kv)) d)
  | _ => Raise (PyError KTypeError "object is not iterable")
  end.

(** *** parse_tool_parameters *)

(** How the [try] block ends: it runs to its end, it executes a [return],
    or it raises. *)
Inductive completion : Type :=
| Completed
| Returned (value : list ToolParameter)
| Raised (e : exn).

(** The loop [for param_dict in params_data: parameters.append(...)] on the
    list [parameters], which outlives an exception. *)
Fixpoint append_parameters (params_data : list pyval) (parameters : list ToolParameter) :
  list ToolParameter * completion :=
  match params_data with
  | [] => (parameters, Completed)
  | param_dict :: rest =>
      match new_ToolParameter param_dict with
      | Ok p => append_parameters rest (parameters ++ [p])%list
      | Raise e => (parameters, Raised e)
      end
  end.

(** The body of the [try] block, from [parameters = []]. *)
Definition parse_body (parameters_str : pyval) (parameters : list ToolParameter) :
  list ToolParameter * completion :=
  let params_data :=
    match parameters_str with
    | PStr s => Some (JsonDecoder.loads s)
    | PList _ => Some (Ok parameters_str)
    | _ => None
    end in
  match params_data with
  | None => (parameters, Returned [])
  | Some (Raise e) => (parameters, Raised e)
  | Some (Ok data) =>
      match py_iter data with
      | Raise e => (parameters, Raised e)
      | Ok items => append_parameters items parameters
      end
  end.

(** [except (json.JSONDecodeError, TypeError, ValueError)] *)
Definition parse_handles (e : exn) : bool :=
  match e with
  | PyError (KJSONDecodeError | KTypeError | KValueError | KValidationError) _ => true
  | _ => false
  end.

Definition parse_tool_parameters (parameters_str : pyval) : result (list ToolParameter) :=
  if negb (truthy parameters_str) then Ok []
  else
    let (parameters, c) := parse_body parameters_str [] in
    match c with
    | Completed => Ok parameters
    | Returned v => Ok v
    | Raised e => if parse_handles e then Ok parameters else Raise e
    end.

(** *** Metadata codec *)

Definition build_tool_metadata (tool : Tool) : dict :=
  [("action_id", PInt (action_id tool));
   ("toolkit_id", PInt (toolkit_id tool));
   ("tool_name", PStr (tool_name tool));
   ("description", PStr (description tool));
   ("toolkit_name", PStr (toolkit tool));
   ("parameters", PStr (Json.dumps (PList (map model_dump (parameters tool)))))].

Definition tool_validation_error : exn :=
  PyError KValidationError "validation error for Tool".

(** [Tool(action_id=..., ...)] on values read from a metadata dict. *)
Definition new_Tool (action_id_ toolkit_id_ tool_name_ description_ : pyval)
  (parameters_ : list ToolParameter) (toolkit_ : pyval) : result Tool :=
  match validate_int action_id_, validate_int toolkit_id_,
        validate_str tool_name_, validate_str description_,
        validate_str toolkit_ with
  | Some a, Some k, Some n, Some d, Some tk =>
      Ok {| action_id := a; toolkit_id := k; tool_name := n; description := d;
            parameters := parameters_; toolkit := tk |}
  | _, _, _, _, _ => Raise tool_validation_error
  end.

Definition metadata_to_tool (metadata : dict) : result Tool :=
  rbind (parse_tool_parameters (py_get metadata "parameters")) (fun parameters_ =>
  new_Tool (py_get_default metadata "action_id" (PInt 0))
           (py_get_default metadata "toolkit_id" (PInt 0))
           (py_get_default metadata "tool_name" (PStr ""))
           (py_get_default metadata "description" (PStr ""))
           parameters_
           (py_get_default metadata "toolkit_name" (PStr ""))).
End Codec.

(** ** Strings *)

(** [str(n)] for an [int]. *)
Definition str_of_int (z : Z) : string := NilZero.string_of_int (Z.to_int z).

(** [c.lower()] on the code points below 256. *)
Definition lower_char (c : ascii) : ascii :=
  let n := N_of_ascii c in
  if (N.leb 65 n && N.leb n 90)%bool then ascii_of_N (n + 32)
  else if (N.leb 192 n && N.leb n 222 && negb (N.eqb n 215))%bool then ascii_of_N (n + 32)
  else c.

Fixpoint lower (s : string) : string :=
  match s with
  | EmptyString => EmptyString
  | String c s' => String (lower_char c) (lower s')
  end.

(** [needle in s] *)
Fixpoint contains (needle s : string) : bool :=
  if String.prefix needle s then true
  else match s with
       | EmptyString => false
       | String _ s' => contains needle s'
       end.

(** [s.startswith(p)] *)
Definition startswith (s p : string) : bool := String.prefix p s.

(** ** The services: embedding model and vector index *)

Definition vector : Type := list float.

(** One record of the index: [{"id": ..., "values": ..., "metadata": ...}]. *)
Record stored_vector : Type := {
  vec_id : string;
  vec_values : vector;
  vec_metadata : dict
}.

(** One entry of [query_response.matches]. *)
Record scored_match : Type := {
  match_metadata : dict;
  match_score : float
}.

(** The requests that reach a service. *)
Inductive call : Type :=
| EmbedQuery (text : string)
| EmbedDocuments (texts : list string)
| IndexUpsert (namespace : string) (vectors : list stored_vector)
| IndexQuery (namespace : string) (v : vector) (top_k : Z) (filter : option dict)
| IndexDelete (namespace : string) (ids : list string)
| IndexFetch (namespace : string) (ids : list string)
| DescribeIndexStats.

(** The state outside the process: the vectors of each namespace, the
    requests made so far (oldest first), and how many random numbers were
    drawn. *)
Record world : Type := {
  index : Dict.t (list stored_vector);
  log : list call;
  drawn : nat
}.

(** What the services do: the embedding of a text, the similarity the index
    computes, the order in which it returns candidates, which requests fail
    (by their position in the log, with the text of the exception), and the
    stream of random numbers. *)
Class Services : Type := {
  embed : string -> vector;
  similarity : vector -> vector -> float;
  rank : vector -> list stored_vector -> list stored_vector;
  fault : nat -> option string;
  random : nat -> float
}.

Fixpoint pyval_eqb (a b : pyval) : bool :=
  match a, b with
  | PNone, PNone => true
  | PBool x, PBool y => Bool.eqb x y
  | PInt x, PInt y => Z.eqb x y
  | PFloat x, PFloat y => PrimFloat.eqb x y
  | PStr x, PStr y => String.eqb x y
  | PList xs, PList ys =>
      (fix items_eqb (l1 l2 : list pyval) : bool :=
         match l1, l2 with
         | [], [] => true
         | x :: l1', y :: l2' => (pyval_eqb x y && items_eqb l1' l2')%bool
         | _, _ => false
         end) xs ys
  | PDict xs, PDict ys =>
      (fix entries_eqb (l1 l2 : list (string * pyval)) : bool :=
         match l1, l2 with
         | [], [] => true
         | (k1, x) :: l1', (k2, y) :: l2' =>
             (String.eqb k1 k2 && pyval_eqb x y && entries_eqb l1' l2')%bool
         | _, _ => false
         end) xs ys
  | _, _ => false
  end.

(** A membership clause [{"$in": values}] on the field [k] of a record: the
    field, or one of its elements when it is a list, is among the values. *)
Definition field_in (metadata : dict) (k : string) (clause : pyval) : bool :=
  match clause with
  | PDict [(op, PList values)] =>
      if String.eqb op "$in" then
        match Dict.get metadata k with
        | Some (PList xs) => existsb (fun x => existsb (pyval_eqb x) values) xs
        | Some x => existsb (pyval_eqb x) values
        | None => false
        end
      else false
  | _ => false
  end.

(** The index's filter grammar: the entries of a filter dict all hold, an
    entry being a membership clause on a field or ["$and"] over a list of
    filters. *)
Fixpoint eval_filter (f : pyval) (metadata : dict) : bool :=
  match f with
  | PDict entries =>
      (fix all_entries (es : list (string * pyval)) : bool :=
         match es with
         | [] => true
         | (k, c) :: es' =>
             ((if String.eqb k "$and" then
                 match c with
                 | PList operands =>
                     (fix all_operands (fs : list pyval) : bool :=
                        match fs with
                        | [] => true
                        | g :: fs' => (eval_filter g metadata && all_operands fs')%bool
                        end) operands
                 | _ => false
                 end
               else field_in metadata k c) && all_entries es')%bool
         end) entries
  | _ => false
  end.

Definition passes (filter : option dict) (v : stored_vector) : bool :=
  match filter with
  | None => true
  | Some f => eval_filter (PDict f) (vec_metadata v)
  end.

Definition namespace_vectors (idx : Dict.t (list stored_vector)) (namespace : string) :
  list stored_vector :=
  match Dict.get idx namespace with Some vs => vs | None => [] end.

(** Writing one record: a record with the same id is replaced where it is. *)
Fixpoint put_vector (vs : list stored_vector) (v : stored_vector) : list stored_vector :=
  match vs with
  | [] => [v]
  | u :: vs' => if String.eqb (vec_id u) (vec_id v) then v :: vs' else u :: put_vector vs' v
  end.

Definition index_after_upsert (idx : Dict.t (list stored_vector)) (namespace : string)
  (vectors : list stored_vector) : Dict.t (list stored_vector) :=
  Dict.set idx namespace (fold_left put_vector vectors (namespace_vectors idx namespace)).

Definition index_after_delete (idx : Dict.t (list stored_vector)) (namespace : string)
  (ids : list string) : Dict.t (list stored_vector) :=
  match Dict.get idx namespace with
  | Some vs =>
      Dict.set idx namespace
        (filter (fun v => negb (existsb (String.eqb (vec_id v)) ids)) vs)
  | None => idx
  end.

(** [describe_index_stats()]:
    [{"namespaces": {name: {"vector_count": n}, ...}}]. *)
Definition index_stats (idx : Dict.t (list stored_vector)) : pyval :=
  PDict [("namespaces",
          PDict (map (fun ns : string * list stored_vector =>
                        (fst ns, PDict [("vector_count", PInt (Z.of_nat (List.length (snd ns))))]))
                     idx))].

(** [fetch(ids, namespace).vectors]: the records found, by id. *)
Definition index_fetch (idx : Dict.t (list stored_vector)) (namespace : string)
  (ids : list string) : Dict.t stored_vector :=
  fold_left (fun found v =>
               if existsb (String.eqb (vec_id v)) ids then Dict.set found (vec_id v) v
               else found)
            (namespace_vectors idx namespace) [].

(** ** Computations that reach the services *)

Definition M (A : Type) : Type := world -> result A * world.

Definition ret {A} (a : A) : M A := fun w => (Ok a, w).

Definition raise {A} (e : exn) : M A := fun w => (Raise e, w).

Definition bind {A B} (m : M A) (k : A -> M B) : M B :=
  fun w => match m w with
           | (Ok a, w') => k a w'
           | (Raise e, w') => (Raise e, w')
           end.

(** [try: m  except Exception as e: handler(e)] *)
Definition try_except {A} (m : M A) (handler : exn -> M A) : M A :=
  fun w => match m w with
           | (Ok a, w') => (Ok a, w')
           | (Raise e, w') => handler e w'
           end.

Definition lift {A} (r : result A) : M A := fun w => (r, w).

Declare Scope m_scope.
Delimit Scope m_scope with M.
Notation "x <- m ;; k" := (bind m (fun x => k))
  (at level 61, m at next level, right associativity) : m_scope.
Notation "m ;;; k" := (bind m (fun _ => k))
  (at level 61, right associativity) : m_scope.

Definition record_call (c : call) (w : world) : world :=
  {| index := index w; log := (log w ++ [c])%list; drawn := drawn w |}.

Definition set_index (idx : Dict.t (list stored_vector)) (w : world) : world :=
  {| index := idx; log := log w; drawn := drawn w |}.

Section ServiceCalls.
Context {sv : Services}.

(** A request: it is logged, then it fails if the services say so, else it
    is answered from the state by [answer]. *)
Definition request {A} (c : call) (answer : world -> A * world) : M A :=
  fun w =>
    let w' := record_call c w in
    match fault (List.length (log w)) with
    | Some text => (Raise (PyError KServiceError text), w')
    | None => let (a, w'') := answer w' in (Ok a, w'')
    end.

Definition embed_query (text : string) : M vector :=
  request (EmbedQuery text) (fun w => (embed text, w)).

Definition embed_documents (texts : list string) : M (list vector) :=
  request (EmbedDocuments texts) (fun w => (map embed texts, w)).

Definition index_upsert (vectors : list stored_vector) (namespace : string) : M unit :=
  request (IndexUpsert namespace vectors)
          (fun w => (tt, set_index (index_after_upsert (index w) namespace vectors) w)).

(** The answer of the index to a query: the first [top_k] of the records of
    the namespace that pass the filter, in the order the index ranks them. *)
Definition query_answer (idx : Dict.t (list stored_vector)) (namespace : string)
  (v : vector) (top_k : Z) (filter : option dict) : list scored_match :=
  let candidates := List.filter (passes filter) (namespace_vectors idx namespace) in
  map (fun u => {| match_metadata := vec_metadata u;
                   match_score := similarity v (vec_values u) |})
      (firstn (Z.to_nat top_k) (rank v candidates)).

Definition index_query (v : vector) (top_k : Z) (filter : option dict) (namespace : string) :
  M (list scored_match) :=
  request (IndexQuery namespace v top_k filter)
          (fun w => (query_answer (index w) namespace v top_k filter, w)).

Definition index_delete (ids : list string) (namespace : string) : M unit :=
  request (IndexDelete namespace ids)
          (fun w => (tt, set_index (index_after_delete (index w) namespace ids) w)).

Definition index_fetch_call (ids : list string) (namespace : string) : M (Dict.t stored_vector) :=
  request (IndexFetch namespace ids) (fun w => (index_fetch (index w) namespace ids, w)).

Definition describe_index_stats : M pyval :=
  request DescribeIndexStats (fun w => (index_stats (index w), w)).

(** [np.random.rand(n).tolist()] *)
Definition random_rand (n : Z) : M vector :=
  fun w =>
    if n <? 0 then (Raise (PyError KValueError "negative dimensions are not allowed"), w)
    else (Ok (map random (seq (drawn w) (Z.to_nat n))),
          {| index := index w; log := log w; drawn := (drawn w + Z.to_nat n)%nat |}).
End ServiceCalls.

(** ** ToolSearchProvider *)

Definition DEFAULT_INDEX_NAME : string := "tools-search-v1".
Definition DEFAULT_NAMESPACE : string := "test".
Definition DEFAULT_BATCH_SIZE : Z := 100.
Definition DEFAULT_TOP_K : Z := 5.
Definition MAX_TOP_K : Z := 50.
Definition EMBEDDING_DIMENSION : Z := 1536.
Definition EMBEDDING_MODEL : string := "text-embedding-3-small".

(** The configuration set by the constructor. *)
Record ToolSearchProvider : Type := {
  index_name : string;
  embedding_model : string;
  embedding_dimension : Z
}.

Record ToolSearchRequest : Type := {
  query : string;
  top_k : Z;
  filters : option dict
}.

Record ToolSearchResponse : Type := {
  resp_tool_name : string;
  resp_action_id : Z;
  resp_toolkit_id : Z;
  resp_description : string;
  resp_parameters : list ToolParameter;
  score : float
}.

Definition _create_embedding_text (tool : Tool) : string :=
  let param_names := map name (parameters tool) in
  let param_str :=
    match param_names with
    | [] => "none"
    | _ => String.concat ", " param_names
    end in
  toolkit tool ++ " " ++ tool_name tool ++ " | " ++ description tool
    ++ " | params: " ++ param_str.

(** *** Score normalisation *)

(** Python's [min(a, b)] and [max(a, b)]: the first argument unless the
    second is strictly smaller (larger). *)
Definition py_min (a b : float) : float := if PrimFloat.ltb b a then b else a.
Definition py_max (a b : float) : float := if PrimFloat.ltb a b then b else a.

(** The integer nearest to [n / d], ties to the even one. *)
Definition round_half_even (n d : Z) : Z :=
  let q := n / d in
  let r := n mod d in
  if 2 * r <? d then q
  else if d <? 2 * r then q + 1
  else if Z.even q then q else q + 1.

(** [round(x, 4)]: the decimal with four places nearest to the exact value
    of [x] (ties to even), then the float nearest to that decimal, with the
    sign of [x].  A float whose exponent is not negative is an integer and is
    its own rounding; so are the infinities and NaN. *)
Definition round4 (x : float) : float :=
  match Prim2SF x with
  | S754_finite s m e =>
      if 0 <=? e then x
      else
        match round_half_even (Z.pos m * 10000) (2 ^ (- e)) with
        | Z.pos k =>
            SF2Prim (SFdiv prec emax (S754_finite s k 0) (S754_finite false 10000 0))
        | _ => if s then (-0)%float else 0%float
        end
  | _ => x
  end.

Definition _convert_distance_to_similarity (distance : float) : float :=
  let normalized_score := PrimFloat.div (PrimFloat.add distance 1) 2 in
  round4 (py_max 0 (py_min 1 normalized_score)).

(** *** Error classification *)

Definition is_tool_search_error (e : exn) : bool :=
  match e with ToolSearchError _ _ => true | PyError _ _ => false end.

(** The [except Exception as e] clause of the write and query paths: the kind
    is chosen by what the text of the exception mentions. *)
Definition classify (embedding_msg pinecone_msg other_msg : string) (other : ErrorCode)
  (e : exn) : exn :=
  let text := exn_str e in
  if contains "embedding" (lower text) then
    ToolSearchError (embedding_msg ++ text) EMBEDDING_ERROR
  else if contains "pinecone" (lower text) then
    ToolSearchError (pinecone_msg ++ text) PINECONE_ERROR
  else ToolSearchError (other_msg ++ text) other.

(** [except ToolSearchError: raise] followed by [except Exception as e]. *)
Definition reraise_or {A} (wrap : exn -> exn) (e : exn) : M A :=
  if is_tool_search_error e then raise e else raise (wrap e).

(** A lone [except Exception as e: raise ToolSearchError(...)]. *)
Definition wrap_all {A} (prefix : string) (code : ErrorCode) (e : exn) : M A :=
  raise (ToolSearchError (prefix ++ exn_str e) code).

(** *** Slices and ranges *)

(** [l[i:j]] for [0 <= i]. *)
Definition slice {A} (l : list A) (i j : nat) : list A := firstn (j - i) (skipn i l).

Fixpoint range_from (fuel : nat) (i stop step : nat) : list nat :=
  match fuel with
  | O => []
  | S fuel' => if (i <? stop)%nat then i :: range_from fuel' (i + step) stop step else []
  end.

(** [range(0, stop, step)]: a zero step is a [ValueError], a negative one
    gives the empty range. *)
Definition py_range0 (stop : nat) (step : Z) : result (list nat) :=
  if step =? 0 then Raise (PyError KValueError "range() arg 3 must not be zero")
  else if step <? 0 then Ok []
  else Ok (range_from stop 0 stop (Z.to_nat step)).

Section Provider.
Context {rt : PyRuntime} {sv : Services}.
Variable self : ToolSearchProvider.
Local Open Scope m_scope.

(** *** Post-filtering *)

(** Whether one result survives: [tool_name.startswith(name_prefix)] needs
    two strings. *)
Definition post_filter_keeps (filters_ : dict) (metadata : dict) : result bool :=
  let name_prefix := py_get filters_ "name_prefix" in
  if truthy name_prefix then
    match py_get_default metadata "tool_name" (PStr "") with
    | PStr tool_name_ =>
        match name_prefix with
        | PStr p => Ok (startswith tool_name_ p)
        | _ => Raise (PyError KTypeError "startswith first arg must be str")
        end
    | _ => Raise (PyError KAttributeError "object has no attribute 'startswith'")
    end
  else Ok true.

Fixpoint post_filter_loop (filters_ : dict) (results : list scored_match)
  (filtered_results : list scored_match) : result (list scored_match) :=
  match results with
  | [] => Ok filtered_results
  | r :: rest =>
      match post_filter_keeps filters_ (match_metadata r) with
      | Raise e => Raise e
      | Ok should_include =>
          post_filter_loop filters_ rest
            (if should_include then (filtered_results ++ [r])%list else filtered_results)
      end
  end.

Definition _apply_post_filters (results : list scored_match) (filters_ : dict) :
  result (list scored_match) :=
  match filters_ with
  | [] => Ok results
  | _ => post_filter_loop filters_ results []
  end.

(** *** Tools *)

Definition upsert_tool (tool : Tool) (namespace : string) : M string :=
  try_except
    (if action_id tool <=? 0 then
       raise (ToolSearchError "Invalid action_id" VALIDATION_ERROR)
     else
       let embedding_text := _create_embedding_text tool in
       embedding <- embed_query embedding_text ;;
       let metadata := build_tool_metadata tool in
       let vector_id := str_of_int (action_id tool) in
       index_upsert [{| vec_id := vector_id; vec_values := embedding;
                        vec_metadata := metadata |}] namespace ;;;
       ret vector_id)
    (reraise_or (classify "Failed to generate embedding: " "Pinecone operation failed: "
                          "Failed to upsert tool: " UPSERT_ERROR)).

(** The validation loop of [upsert_tools]. *)
Fixpoint validate_tools (tools_ : list Tool) : M unit :=
  match tools_ with
  | [] => ret tt
  | tool :: rest =>
      if action_id tool <=? 0 then
        raise (ToolSearchError ("Invalid action_id: " ++ str_of_int (action_id tool))
                               VALIDATION_ERROR)
      else validate_tools rest
  end.

(** One iteration of the batch loop: the ids it appends to [vector_ids]. *)
Definition upsert_batch (batch_tools : list Tool) (namespace : string) : M (list string) :=
  let embedding_texts := map _create_embedding_text batch_tools in
  embeddings <- embed_documents embedding_texts ;;
  let pairs := combine batch_tools embeddings in
  let batch_ids := map (fun te : Tool * vector => str_of_int (action_id (fst te))) pairs in
  let batch_vectors :=
    map (fun te : Tool * vector =>
           {| vec_id := str_of_int (action_id (fst te));
              vec_values := snd te;
              vec_metadata := build_tool_metadata (fst te) |}) pairs in
  index_upsert batch_vectors namespace ;;;
  ret batch_ids.

(** The batch loop over the start offsets, [vector_ids] accumulating. *)
Fixpoint upsert_batches (tools_ : list Tool) (batch_size : nat) (starts : list nat)
  (namespace : string) (vector_ids : list string) : M (list string) :=
  match starts with
  | [] => ret vector_ids
  | i :: rest =>
      let batch_tools := slice tools_ i (i + batch_size) in
      batch_ids <- upsert_batch batch_tools namespace ;;
      upsert_batches tools_ batch_size rest namespace (vector_ids ++ batch_ids)%list
  end.

Definition upsert_tools (tools_ : list Tool) (namespace : string) (batch_size : Z) :
  M (list string) :=
  try_except
    (match tools_ with
     | [] => ret []
     | _ =>
         validate_tools tools_ ;;;
         starts <- lift (py_range0 (List.length tools_) batch_size) ;;
         upsert_batches tools_ (Z.to_nat batch_size) starts namespace []
     end)
    (reraise_or (classify "Failed to generate embeddings: " "Pinecone batch operation failed: "
                          "Failed to upsert tools: " BATCH_UPSERT_ERROR)).

Definition delete_tool (action_id_ : Z) (namespace : string) : M bool :=
  try_except
    (let vector_id := str_of_int action_id_ in
     index_delete [vector_id] namespace ;;;
     ret true)
    (wrap_all "Failed to delete tool: " DELETE_ERROR).

Definition delete_tools (action_ids : list Z) (namespace : string) : M (list string) :=
  try_except
    (let vector_ids := map str_of_int action_ids in
     index_delete vector_ids namespace ;;;
     ret vector_ids)
    (wrap_all "Failed to delete tools: " BATCH_DELETE_ERROR).

Definition get_tool_by_id (action_id_ : Z) (namespace : string) : M (option Tool) :=
  try_except
    (if action_id_ <=? 0 then
       raise (ToolSearchError "Invalid action_id" VALIDATION_ERROR)
     else
       let vector_id := str_of_int action_id_ in
       vectors <- index_fetch_call [vector_id] namespace ;;
       match Dict.get vectors vector_id with
       | Some vector_data =>
           tool <- lift (metadata_to_tool (vec_metadata vector_data)) ;;
           ret (Some tool)
       | None => ret None
       end)
    (reraise_or (fun e => ToolSearchError ("Failed to get tool by ID: " ++ exn_str e)
                                          FETCH_ERROR)).

(** *** Queries *)

(** [ToolSearchResponse(tool_name=..., ...)] on values read from metadata. *)
Definition new_ToolSearchResponse (tool_name_ action_id_ toolkit_id_ description_ : pyval)
  (parameters_ : list ToolParameter) (score_ : float) : result ToolSearchResponse :=
  match validate_str tool_name_, validate_int action_id_,
        validate_int toolkit_id_, validate_str description_ with
  | Some n, Some a, Some k, Some d =>
      Ok {| resp_tool_name := n; resp_action_id := a; resp_toolkit_id := k;
            resp_description := d; resp_parameters := parameters_; score := score_ |}
  | _, _, _, _ => Raise (PyError KValidationError "validation error for ToolSearchResponse")
  end.

(** The response built for one match; [semantic] says whether a query
    embedding exists. *)
Definition build_response (semantic : bool) (match_data : scored_match) :
  result ToolSearchResponse :=
  let metadata := match_metadata match_data in
  let score_ := match_score match_data in
  rbind (parse_tool_parameters (py_get metadata "parameters")) (fun parameters_ =>
  let similarity_score :=
    if semantic then _convert_distance_to_similarity score_ else 1%float in
  new_ToolSearchResponse (py_get_default metadata "tool_name" (PStr ""))
                         (py_get_default metadata "action_id" (PInt 0))
                         (py_get_default metadata "toolkit_id" (PInt 0))
                         (py_get_default metadata "description" (PStr ""))
                         parameters_ similarity_score).

Fixpoint build_responses (semantic : bool) (matches : list scored_match)
  (results : list ToolSearchResponse) : result (list ToolSearchResponse) :=
  match matches with
  | [] => Ok results
  | match_data :: rest =>
      match build_response semantic match_data with
      | Raise e => Raise e
      | Ok response => build_responses semantic rest (results ++ [response])%list
      end
  end.

(** [request.filters or {}] *)
Definition filters_or_empty (req : ToolSearchRequest) : dict :=
  match filters req with Some d => d | None => [] end.

Definition query_tools (req : ToolSearchRequest) (namespace : string) :
  M (list ToolSearchResponse) :=
  try_except
    (if (negb (truthy (PStr (query req))) && negb (truthy (PDict (filters_or_empty req))))%bool
     then raise (ToolSearchError "Either query or filters must be provided" VALIDATION_ERROR)
     else
       query_embedding <-
         (if truthy (PStr (query req)) then
            (v <- embed_query (query req) ;; ret (Some v))
          else ret None) ;;
       let pinecone_filter := _build_pinecone_filter (filters_or_empty req) in
       let semantic :=
         match query_embedding with Some (_ :: _) => true | _ => false end in
       matches <-
         match query_embedding with
         | Some ((_ :: _) as v) =>
             index_query v (top_k req)
                         (match pinecone_filter with [] => None | _ => Some pinecone_filter end)
                         namespace
         | _ =>
             random_vector <- random_rand (embedding_dimension self) ;;
             index_query random_vector (top_k req) (Some pinecone_filter) namespace
         end ;;
       matches <- lift (_apply_post_filters matches (filters_or_empty req)) ;;
       lift (build_responses semantic matches []))
    (reraise_or (classify "Failed to generate query embedding: " "Pinecone query failed: "
                          "Failed to query tools: " QUERY_ERROR)).

(** *** Toolkits *)

(** [v.get(k, default)] on a value that should be a dict. *)
Definition pyval_get (v : pyval) (k : string) (default : pyval) : result pyval :=
  match v with
  | PDict d => Ok (py_get_default d k default)
  | _ => Raise (PyError KAttributeError "object has no attribute 'get'")
  end.

(** The count read from the statistics, which the index reports as an
    [int]. *)
Definition as_count (v : pyval) : result Z :=
  match v with
  | PInt n => Ok n
  | _ => Raise (PyError KTypeError "vector_count is not an int")
  end.

Fixpoint decode_matches (matches : list scored_match) (tools_ : list Tool) :
  result (list Tool) :=
  match matches with
  | [] => Ok tools_
  | m :: rest =>
      match metadata_to_tool (match_metadata m) with
      | Raise e => Raise e
      | Ok tool => decode_matches rest (tools_ ++ [tool])%list
      end
  end.

Definition get_toolkit_tools (toolkit_id_ : Z) (namespace : string) : M (list Tool) :=
  try_except
    (if toolkit_id_ <=? 0 then
       raise (ToolSearchError "Invalid toolkit_id" VALIDATION_ERROR)
     else
       stats <- describe_index_stats ;;
       namespaces <- lift (pyval_get stats "namespaces" (PDict [])) ;;
       namespace_stats <- lift (pyval_get namespaces namespace (PDict [])) ;;
       vector_count_ <- lift (pyval_get namespace_stats "vector_count" (PInt 0)) ;;
       vector_count <- lift (as_count vector_count_) ;;
       if vector_count =? 0 then ret []
       else
         let pinecone_filter := _build_pinecone_filter [("toolkit_id", PInt toolkit_id_)] in
         random_vector <- random_rand (embedding_dimension self) ;;
         matches <- index_query random_vector (Z.min 100 vector_count)
                                (Some pinecone_filter) namespace ;;
         lift (decode_matches matches []))
    (reraise_or (fun e => ToolSearchError ("Failed to get toolkit tools: " ++ exn_str e)
                                          TOOLKIT_QUERY_ERROR)).

Definition upsert_toolkit (tk : Toolkit) (namespace : string) : M (list string) :=
  try_except
    (match tools tk with
     | [] => raise (ToolSearchError "Toolkit must contain at least one tool" VALIDATION_ERROR)
     | _ => upsert_tools (tools tk) namespace DEFAULT_BATCH_SIZE
     end)
    (wrap_all "Failed to upsert toolkit: " TOOLKIT_UPSERT_ERROR).

Definition delete_toolkit (toolkit_id_ : Z) (namespace : string) : M Z :=
  try_except
    (tools_ <- get_toolkit_tools toolkit_id_ namespace ;;
     match tools_ with
     | [] => ret 0
     | _ =>
         let tool_ids := map action_id tools_ in
         delete_tools tool_ids namespace ;;;
         ret (Z.of_nat (List.length tool_ids))
     end)
    (wrap_all "Failed to delete toolkit: " TOOLKIT_DELETE_ERROR).
End Provider.

(** *** Statistics and health *)

Section Diagnostics.
Context {sv : Services}.
Variable self : ToolSearchProvider.
Local Open Scope m_scope.

Definition get_tool_index_stats : M pyval :=
  try_except describe_index_stats
             (wrap_all "Failed to get tool index stats: " STATS_ERROR).

(** [health_check]; [now] is what [int(time.time() * 1000)] gives when the
    report is built. *)
Definition health_check (now : Z) : M dict :=
  try_except
    (stats <- get_tool_index_stats ;;
     test_embedding <- embed_query "test" ;;
     ret [("status", PStr "healthy");
          ("index_name", PStr (index_name self));
          ("index_stats", stats);
          ("embedding_dimension", PInt (Z.of_nat (List.length test_embedding)));
          ("embedding_model", PStr (embedding_model self));
          ("timestamp", PInt now)])
    (fun e => ret [("status", PStr "unhealthy");
                   ("error", PStr (exn_str e));
                   ("timestamp", PInt now)]).
End Diagnostics.

(** *** Requests *)

Section RequestModel.
Context {rt : PyRuntime}.

(** [ToolSearchRequest(query=..., top_k=..., filters=...)]: [top_k] is 5 when
    not given and must lie between 1 and 50 when given; [filters] is [None]
    or a dict. *)
Definition new_ToolSearchRequest (query_ : pyval) (top_k_ filters_ : option pyval) :
  result ToolSearchRequest :=
  let top_k_field :=
    match top_k_ with
    | None => Some 5
    | Some v =>
        match validate_int v with
        | Some k => if ((1 <=? k) && (k <=? 50))%bool then Some k else None
        | None => None
        end
    end in
  let filters_field :=
    match filters_ with
    | None | Some PNone => Some None
    | Some (PDict d) => Some (Some d)
    | Some _ => None
    end in
  match validate_str query_, top_k_field, filters_field with
  | Some q, Some k, Some f => Ok {| query := q; top_k := k; filters := f |}
  | _, _, _ => Raise (PyError KValidationError "validation error for ToolSearchRequest")
  end.
End RequestModel.

(** ** Loading tools from files *)

Section Loaders.
Context {rt : PyRuntime}.

(** [open(file_path, 'r', encoding='utf-8')] and the read of [json.load]:
    the text of the file, or the exception raised. *)
Variable read_text : string -> result string.

Definition json_load (file_path : string) : result pyval :=
  rbind (read_text file_path) JsonDecoder.loads.

(** The loop [for param_data in ...: parameters.append(ToolParameter( **param_data ))]. *)
Fixpoint load_parameters (params : list pyval) (parameters_ : list ToolParameter) :
  result (list ToolParameter) :=
  match params with
  | [] => Ok parameters_
  | param_data :: rest =>
      rbind (new_ToolParameter param_data) (fun p =>
      load_parameters rest (parameters_ ++ [p])%list)
  end.

(** The tool built from one entry; [owner] is the object the toolkit id and
    the toolkit name are read from, the name under [toolkit_key]. *)
Definition load_tool (tool_data owner : pyval) (toolkit_key : string) : result Tool :=
  rbind (pyval_get tool_data "parameters" (PList [])) (fun params =>
  rbind (py_iter params) (fun items =>
  rbind (load_parameters items []) (fun parameters_ =>
  rbind (pyval_get tool_data "action_id" (PInt 0)) (fun action_id_ =>
  rbind (pyval_get owner "toolkit_id" (PInt 0)) (fun toolkit_id_ =>
  rbind (pyval_get tool_data "tool_name" (PStr "")) (fun tool_name_ =>
  rbind (pyval_get tool_data "description" (PStr "")) (fun description_ =>
  rbind (pyval_get owner toolkit_key (PStr "")) (fun toolkit_ =>
  new_Tool action_id_ toolkit_id_ tool_name_ description_ parameters_ toolkit_)))))))).

(** The loop over the entries; [owner_of] gives the owner of an entry. *)
Fixpoint load_tool_entries (entries : list pyval) (owner_of : pyval -> pyval)
  (toolkit_key : string) (tools_ : list Tool) : result (list Tool) :=
  match entries with
  | [] => Ok tools_
  | tool_data :: rest =>
      rbind (load_tool tool_data (owner_of tool_data) toolkit_key) (fun tool =>
      load_tool_entries rest owner_of toolkit_key (tools_ ++ [tool])%list)
  end.

(** [Toolkit(toolkit_id=..., name=..., description=..., tools=tools)] *)
Definition new_Toolkit (toolkit_id_ name_ description_ : pyval) (tools_ : list Tool) :
  result Toolkit :=
  match validate_int toolkit_id_, validate_str name_, validate_str description_ with
  | Some k, Some n, Some d =>
      Ok {| tk_toolkit_id := k; tk_name := n; tk_description := d; tools := tools_ |}
  | _, _, _ => Raise (PyError KValidationError "validation error for Toolkit")
  end.

(** [try: ... except Exception as e: raise ToolSearchError(prefix + str(e), code)]
    around a computation without requests. *)
Definition wrap_result {A} (prefix : string) (code : ErrorCode) (r : result A) : result A :=
  match r with
  | Ok a => Ok a
  | Raise e => Raise (ToolSearchError (prefix ++ exn_str e) code)
  end.

Definition load_tools_from_json (file_path : string) : result (list Tool) :=
  wrap_result "Failed to load tools from JSON: " FILE_LOAD_ERROR
    (rbind (json_load file_path) (fun data =>
     rbind (py_iter data) (fun entries =>
     load_tool_entries entries (fun tool_data => tool_data) "toolkit" []))).

Definition load_toolkit_from_json (file_path : string) : result Toolkit :=
  wrap_result "Failed to load toolkit from JSON: " FILE_LOAD_ERROR
    (rbind (json_load file_path) (fun data =>
     rbind (pyval_get data "tools" (PList [])) (fun tools_data =>
     rbind (py_iter tools_data) (fun entries =>
     rbind (load_tool_entries entries (fun _ => data) "name" []) (fun tools_ =>
     rbind (pyval_get data "toolkit_id" (PInt 0)) (fun toolkit_id_ =>
     rbind (pyval_get data "name" (PStr "")) (fun name_ =>
     rbind (pyval_get data "description" (PStr "")) (fun description_ =>
     new_Toolkit toolkit_id_ name_ description_ tools_)))))))).
End Loaders.

(** ** Concrete services, for running the model *)

(** A runtime without lax conversions, which writes every code point from
    256 on as a question mark. *)
Definition strict_runtime : PyRuntime :=
  {| float_repr := fun _ => "0.0";
     float_of_literal := fun _ => 0%float;
     wide_chr := fun _ => "?";
     lax_str := fun _ => None;
     lax_bool := fun _ => None;
     lax_int := fun _ => None |}.

(** Services that never fail, embed every text as the zero vector of length
    three and return candidates in stored order. *)
Definition steady_services : Services :=
  {| embed := fun _ => [0%float; 0%float; 0%float];
     similarity := fun _ _ => 0%float;
     rank := fun _ vs => vs;
     fault := fun _ => None;
     random := fun _ => 0.5%float |}.

(** The same services, except that the request at position [n] of the log
    fails with [text]. *)
Definition failing_at (n : nat) (text : string) : Services :=
  {| embed := fun _ => [0%float; 0%float; 0%float];
     similarity := fun _ _ => 0%float;
     rank := fun _ vs => vs;
     fault := fun k => if Nat.eqb k n then Some text else None;
     random := fun _ => 0.5%float |}.

Definition empty_world : world := {| index := []; log := []; drawn := 0 |}.

Definition default_provider : ToolSearchProvider :=
  {| index_name := DEFAULT_INDEX_NAME;
     embedding_model := EMBEDDING_MODEL;
     embedding_dimension := 3 |}.

(** The tool with id [n] of toolkit 79, with one parameter. *)
Definition sample_tool (n : nat) : Tool :=
  {| action_id := Z.of_nat n;
     toolkit_id := 79;
     tool_name := "tool" ++ str_of_int (Z.of_nat n);
     description := "sample";
     parameters := [{| name := "address"; type := "string"; required := true;
                       param_description := None |}];
     toolkit := "Pendle" |}.

(** * Properties *)

(** ** Dictionaries *)

Module DictFacts.
Section WithValue.
Variable V : Type.
Import Dict.

Lemma get_set_same (d : Dict.t V) k v : get (set d k v) k = Some v.
Proof.
  induction d as [|[k' v'] d IH]; simpl.
  - now rewrite String.eqb_refl.
  - destruct (String.eqb k k') eqn:E; simpl; rewrite E; auto.
Qed.

Lemma get_set_other (d : Dict.t V) k k' v :
  k' <> k -> get (set d k v) k' = get d k'.
Proof.
  intros Hne. induction d as [|[k0 v0] d IH]; simpl.
  - destruct (String.eqb k' k) eqn:E; auto.
    apply String.eqb_eq in E. contradiction.
  - destruct (String.eqb k k0) eqn:E; simpl.
    + apply String.eqb_eq in E. subst k0.
      destruct (String.eqb k' k) eqn:E'; auto.
      apply String.eqb_eq in E'. contradiction.
    + now rewrite IH.
Qed.

Lemma set_fresh (d : Dict.t V) k v : get d k = None -> set d k v = (d ++ [(k, v)])%list.
Proof.
  induction d as [|[k' v'] d IH]; simpl; auto.
  destruct (String.eqb k k'); [discriminate|].
  intros H. now rewrite IH.
Qed.
End WithValue.
End DictFacts.

(** ** Filter translator *)

(** The keys translated into a membership clause, with the metadata field
    each one filters on. *)
Definition membership_keys : list (string * string) :=
  [("tool_name", "tool_name"); ("toolkit", "toolkit_name");
   ("toolkit_id", "toolkit_id"); ("chain", "chain")].

(** [required_params] is absent, falsy, a scalar or a list of one element. *)
Definition single_required_param (filters : dict) : Prop :=
  match py_get filters "required_params" with
  | PList (_ :: _ :: _) => False
  | _ => True
  end.

(** Without a list of several required parameters, every key with a truthy
    value has its membership clause in the translation, and so has
    [required_params]. *)
Lemma build_filter_keeps_membership_clauses (filters : dict) (src dst : string) :
  single_required_param filters ->
  In (src, dst) (("required_params", "required_params") :: membership_keys) ->
  truthy (py_get filters src) = true ->
  Dict.get (_build_pinecone_filter filters) dst
  = Some (PDict [("$in", match py_get filters src with
                         | PList l => PList l
                         | v => PList [v]
                         end)]).
Proof.
  intros Hsingle Hin Htruthy.
  destruct filters as [|kv rest]; [discriminate Htruthy|].
  unfold _build_pinecone_filter, add_membership, add_required_params, single_required_param,
    in_clause in *.
  remember (py_get (kv :: rest) "tool_name") as a.
  remember (py_get (kv :: rest) "toolkit") as b.
  remember (py_get (kv :: rest) "toolkit_id") as c.
  remember (py_get (kv :: rest) "chain") as d.
  remember (py_get (kv :: rest) "required_params") as r.
  unfold membership_keys in Hin.
  destruct Hin as [E|[E|[E|[E|[E|[]]]]]]; injection E as <- <-;
    rewrite <- ?Heqa, <- ?Heqb, <- ?Heqc, <- ?Heqd, <- ?Heqr in *;
    rewrite ?Htruthy;
    destruct (truthy a) eqn:Ta; destruct (truthy b) eqn:Tb;
    destruct (truthy c) eqn:Tc; destruct (truthy d) eqn:Td;
    destruct (truthy r) eqn:Tr;
    try discriminate;
    destruct r as [| | | | | [|p [|q l]] |]; try contradiction; try discriminate;
    cbn [fold_left add_required_param Dict.mem Dict.get Dict.set String.eqb Ascii.eqb
         Bool.eqb negb py_get is_list];
    try reflexivity.
  all: try (destruct a; reflexivity).
  all: try (destruct b; reflexivity).
  all: try (destruct c; reflexivity).
  all: try (destruct d; reflexivity).
Qed.

Definition keyed_and_required_filters : dict :=
  [("tool_name", PStr "swap"); ("required_params", PList [PStr "a"; PStr "b"])].

Definition four_required_filters : dict :=
  [("required_params", PList [PStr "a"; PStr "b"; PStr "c"; PStr "d"])].

(** C1 (the code departs from the claim).  With [tool_name] and a two-element
    [required_params], the translated expression is only the conjunction of
    the two [required_params] clauses: the [tool_name] clause built before is
    gone, and a record with another tool name passes the filter.  With four
    elements the translation keeps only the clauses of the last two. *)
Theorem build_filter_required_params_list_drops_clauses :
  _build_pinecone_filter keyed_and_required_filters
    = [("$and", PList [PDict [requires_param (PStr "a")];
                       PDict [requires_param (PStr "b")]])]
  /\ ~ In ("tool_name", in_clause (PStr "swap"))
          (asserted (PDict (_build_pinecone_filter keyed_and_required_filters)))
  /\ eval_filter (PDict (_build_pinecone_filter keyed_and_required_filters))
       [("tool_name", PStr "other"); ("required_params", PList [PStr "a"; PStr "b"])] = true
  /\ _build_pinecone_filter four_required_filters
    = [("$and", PList [PDict [requires_param (PStr "c")];
                       PDict [requires_param (PStr "d")]])]
  /\ ~ In (requires_param (PStr "a"))
          (asserted (PDict (_build_pinecone_filter four_required_filters))).
Proof.
  repeat split; try reflexivity.
  - cbn. intros [H | [H | []]]; discriminate H.
  - cbn. intros [H | [H | []]]; discriminate H.
Qed.

(** ** Validation on the write and read paths *)

Section Validation.
Context {rt : PyRuntime} {sv : Services}.
Variable self : ToolSearchProvider.

Lemma validate_tools_rejects (tools_ : list Tool) (w : world) :
  Exists (fun t => action_id t <= 0) tools_ ->
  exists text, validate_tools tools_ w = (Raise (ToolSearchError text VALIDATION_ERROR), w).
Proof.
  induction 1 as [t l H | t l H IH]; simpl.
  - apply Z.leb_le in H. rewrite H. eexists. reflexivity.
  - destruct (action_id t <=? 0).
    + eexists. reflexivity.
    + exact IH.
Qed.

(** C8.  A tool whose [action_id] is not positive makes both write paths fail
    with a VALIDATION error and leaves the state of the services, the log of
    requests included, as it was: [upsert_tool] on that tool, and
    [upsert_tools] on every list that contains it, whatever the batch size,
    before any batch is embedded or written. *)
Theorem upsert_rejects_nonpositive_action_id :
  (forall (tool : Tool) (namespace : string) (w : world),
      action_id tool <= 0 ->
      upsert_tool tool namespace w
        = (Raise (ToolSearchError "Invalid action_id" VALIDATION_ERROR), w))
  /\ (forall (tools_ : list Tool) (namespace : string) (batch_size : Z) (w : world),
         Exists (fun t => action_id t <= 0) tools_ ->
         exists text,
           upsert_tools tools_ namespace batch_size w
             = (Raise (ToolSearchError text VALIDATION_ERROR), w)).
Proof.
  split.
  - intros tool namespace w H. apply Z.leb_le in H.
    unfold upsert_tool, try_except. rewrite H. reflexivity.
  - intros tools_ namespace batch_size w H.
    destruct (validate_tools_rejects w H) as [text Hv].
    exists text. unfold upsert_tools, try_except.
    destruct tools_ as [|t l]; [inversion H|].
    unfold bind at 1. rewrite Hv. reflexivity.
Qed.

(** C10.  The read paths validate their id too: [get_tool_by_id] with a
    non-positive [action_id] and [get_toolkit_tools] with a non-positive
    [toolkit_id] raise a VALIDATION error and make no request. *)
Theorem reads_reject_nonpositive_id :
  (forall (action_id_ : Z) (namespace : string) (w : world),
      action_id_ <= 0 ->
      get_tool_by_id action_id_ namespace w
        = (Raise (ToolSearchError "Invalid action_id" VALIDATION_ERROR), w))
  /\ (forall (toolkit_id_ : Z) (namespace : string) (w : world),
         toolkit_id_ <= 0 ->
         get_toolkit_tools self toolkit_id_ namespace w
           = (Raise (ToolSearchError "Invalid toolkit_id" VALIDATION_ERROR), w)).
Proof.
  split; intros z namespace w H; apply Z.leb_le in H.
  - unfold get_tool_by_id, try_except. rewrite H. reflexivity.
  - unfold get_toolkit_tools, try_except. rewrite H. reflexivity.
Qed.

(** Whatever [upsert_tools] raises, a classified error included, reaches
    the caller of [upsert_toolkit] as a TOOLKIT_UPSERT_ERROR. *)
Lemma upsert_toolkit_rewraps (tk : Toolkit) (namespace : string) (w w' : world) (e : exn) :
  tools tk <> [] ->
  upsert_tools (tools tk) namespace DEFAULT_BATCH_SIZE w = (Raise e, w') ->
  upsert_toolkit tk namespace w
  = (Raise (ToolSearchError ("Failed to upsert toolkit: " ++ exn_str e) TOOLKIT_UPSERT_ERROR),
     w').
Proof.
  intros Hne Hrun. unfold upsert_toolkit, try_except.
  destruct (tools tk) as [|t l]; [congruence|]. rewrite Hrun. reflexivity.
Qed.

(** C3 (the code departs from the claim).  [upsert_toolkit] on a toolkit
    without tools raises its VALIDATION error inside the [try] block, whose
    only handler wraps every exception: the caller receives a
    TOOLKIT_UPSERT_ERROR.  In the same way [delete_toolkit] turns the
    VALIDATION error of [get_toolkit_tools] into a TOOLKIT_DELETE_ERROR. *)
Theorem toolkit_operations_rewrap_validation_error :
  (forall (id : Z) (name_ description_ namespace : string) (w : world),
      upsert_toolkit {| tk_toolkit_id := id; tk_name := name_;
                        tk_description := description_; tools := [] |} namespace w
        = (Raise (ToolSearchError
                    "Failed to upsert toolkit: Toolkit must contain at least one tool"
                    TOOLKIT_UPSERT_ERROR), w))
  /\ (forall (namespace : string) (w : world),
         delete_toolkit self 0 namespace w
           = (Raise (ToolSearchError "Failed to delete toolkit: Invalid toolkit_id"
                                     TOOLKIT_DELETE_ERROR), w)).
Proof.
  split; reflexivity.
Qed.
End Validation.

(** ** Decoding stored parameters *)

Section ParameterDecoding.
Context {rt : PyRuntime}.

Lemma new_ToolParameter_raises_handled (v : pyval) (e : exn) :
  new_ToolParameter v = Raise e -> parse_handles e = true.
Proof.
  unfold new_ToolParameter.
  destruct v; try (intros H; injection H as <-; reflexivity).
  destruct (required_field validate_str entries "name");
    destruct (required_field validate_str entries "type");
    destruct (required_field validate_bool entries "required");
    destruct (optional_str_field entries "description");
    intros H; try discriminate H; injection H as <-; reflexivity.
Qed.

Lemma append_parameters_raises_handled (items : list pyval) :
  forall (acc out : list ToolParameter) (e : exn),
    append_parameters items acc = (out, Raised e) -> parse_handles e = true.
Proof.
  induction items as [|v items IH]; simpl; intros acc out e H.
  - discriminate H.
  - destruct (new_ToolParameter v) eqn:E.
    + eapply IH. exact H.
    + injection H as _ <-. eapply new_ToolParameter_raises_handled. exact E.
Qed.

Lemma append_parameters_never_returns (items : list pyval) :
  forall (acc out v : list ToolParameter),
    append_parameters items acc <> (out, Returned v).
Proof.
  induction items as [|x items IH]; simpl; intros acc out v.
  - discriminate.
  - destruct (new_ToolParameter x); [apply IH | discriminate].
Qed.

Lemma loads_raises_handled (s : string) (e : exn) :
  JsonDecoder.loads s = Raise e -> parse_handles e = true.
Proof.
  unfold JsonDecoder.loads.
  destruct (JsonDecoder.scan_once _ _) as [[v rest]|].
  - destruct (JsonDecoder.skip_ws rest); intros H; [discriminate H|].
    injection H as <-. reflexivity.
  - intros H. injection H as <-. reflexivity.
Qed.

Lemma py_iter_raises_handled (v : pyval) (e : exn) :
  py_iter v = Raise e -> parse_handles e = true.
Proof.
  destruct v; simpl; intros H; try discriminate H; injection H as <-; reflexivity.
Qed.

Lemma parse_body_raises_handled (v : pyval) (out : list ToolParameter) (e : exn) :
  parse_body v [] = (out, Raised e) -> parse_handles e = true.
Proof.
  unfold parse_body.
  assert (Hiter : forall data,
             match py_iter data with
             | Ok items => append_parameters items []
             | Raise e0 => ([], Raised e0)
             end = (out, Raised e) -> parse_handles e = true).
  { intros data. destruct (py_iter data) eqn:E; intros H.
    - eapply append_parameters_raises_handled. exact H.
    - injection H as _ <-. eapply py_iter_raises_handled. exact E. }
  destruct v; try discriminate.
  - destruct (JsonDecoder.loads s) eqn:E.
    + apply Hiter.
    + intros H. injection H as _ <-. eapply loads_raises_handled. exact E.
  - apply Hiter.
Qed.

(** Decoding never raises, whatever value is stored. *)
Lemma parse_tool_parameters_total (v : pyval) :
  exists ps, parse_tool_parameters v = Ok ps.
Proof.
  unfold parse_tool_parameters.
  destruct (negb (truthy v)); [eexists; reflexivity|].
  destruct (parse_body v []) as [out c] eqn:E.
  destruct c; try (eexists; reflexivity).
  rewrite (parse_body_raises_handled _ E). eexists. reflexivity.
Qed.

Definition address_parameter : ToolParameter :=
  {| name := "address"; type := "string"; required := true; param_description := None |}.

(** A stored list whose first entry is a parameter object and whose second
    entry is a number. *)
Definition half_valid_list : pyval := PList [model_dump address_parameter; PInt 5].

(** The same value as the text [json.dumps] writes for it. *)
Definition half_valid_text : pyval := PStr (Json.dumps half_valid_list).

(** C5 (the code departs from the claim).  Decoding never raises; but when an
    entry that is no parameter object follows valid ones, in a list or in
    its JSON text, the decode returns the parameters read before it and not
    the empty list: the list filled inside the [try] block is returned after
    the handler. *)
Theorem parse_tool_parameters_keeps_prefix_of_malformed :
  (forall v : pyval, exists ps, parse_tool_parameters v = Ok ps)
  /\ parse_tool_parameters half_valid_list = Ok [address_parameter]
  /\ parse_tool_parameters half_valid_text = Ok [address_parameter]
  /\ new_ToolParameter (PInt 5) = Raise (PyError KTypeError "argument after ** must be a mapping").
Proof.
  split; [exact parse_tool_parameters_total|].
  repeat split; reflexivity.
Qed.
End ParameterDecoding.

(** ** Metadata codec: encoding then decoding *)

(** Induction on values, with the hypothesis on every item of a list and on
    every value of a dict. *)
Section PyvalInduction.
Variable P : pyval -> Prop.
Hypothesis HNone : P PNone.
Hypothesis HBool : forall b, P (PBool b).
Hypothesis HInt : forall z, P (PInt z).
Hypothesis HFloat : forall f, P (PFloat f).
Hypothesis HStr : forall s, P (PStr s).
Hypothesis HList : forall items, Forall P items -> P (PList items).
Hypothesis HDict : forall entries, Forall (fun kv => P (snd kv)) entries -> P (PDict entries).

Fixpoint pyval_nested_ind (v : pyval) : P v :=
  match v with
  | PNone => HNone
  | PBool b => HBool b
  | PInt z => HInt z
  | PFloat f => HFloat f
  | PStr s => HStr s
  | PList items =>
      @HList items ((fix all (l : list pyval) : Forall P l :=
                match l with
                | [] => Forall_nil P
                | x :: l' => @Forall_cons _ P x l' (pyval_nested_ind x) (all l')
                end) items)
  | PDict entries =>
      @HDict entries ((fix all (l : list (string * pyval)) : Forall (fun kv => P (snd kv)) l :=
                match l with
                | [] => Forall_nil _
                | kv :: l' => @Forall_cons _ (fun kv => P (snd kv)) kv l' (pyval_nested_ind (snd kv)) (all l')
                end) entries)
  end.
End PyvalInduction.

(** Values made of [None], booleans, strings, lists and dicts with distinct keys. *)
Fixpoint plain (v : pyval) : Prop :=
  match v with
  | PNone | PBool _ | PStr _ => True
  | PInt _ | PFloat _ => False
  | PList items =>
      (fix all (l : list pyval) : Prop :=
         match l with [] => True | x :: l' => plain x /\ all l' end) items
  | PDict entries =>
      (fix all (l : list (string * pyval)) : Prop :=
         match l with [] => True | kv :: l' => plain (snd kv) /\ all l' end) entries
      /\ NoDup (map fst entries)
  end.

(** The fuel that reading the text of a value takes. *)
Fixpoint need (v : pyval) : nat :=
  match v with
  | PList items =>
      S ((fix sum (l : list pyval) : nat :=
            match l with [] => O | x :: l' => S (need x + sum l') end) items)
  | PDict entries =>
      S ((fix sum (l : list (string * pyval)) : nat :=
            match l with [] => O | kv :: l' => S (need (snd kv) + sum l') end) entries)
  | _ => 1%nat
  end.

Section JsonRoundTrip.
Import Json JsonDecoder.
Context {rt : PyRuntime}.

Lemma scanstring_escape_char (c : ascii) (r : list ascii) :
  scanstring (escape_char c ++ r) = prepend c (scanstring r).
Proof.
  destruct c as [b0 b1 b2 b3 b4 b5 b6 b7].
  destruct b0, b1, b2, b3, b4, b5, b6, b7; reflexivity.
Qed.

Lemma scanstring_escaped (s : string) (r : list ascii) :
  scanstring (flat_map escape_char (list_ascii_of_string s) ++ quote :: r) = Some (s, r).
Proof.
  induction s as [|c s IH]; simpl.
  - reflexivity.
  - rewrite <- app_assoc, scanstring_escape_char, IH. reflexivity.
Qed.

(** The text of a plain value starts with a character that is neither white
    space nor a closing bracket. *)
Definition opens (text : list ascii) : Prop :=
  exists c tl, text = c :: tl /\ is_ws c = false /\ Ascii.eqb c "]" = false.

Lemma plain_opens (v : pyval) : plain v -> opens (encode v).
Proof.
  destruct v; simpl; try contradiction; intros _; unfold opens.
  - do 2 eexists. split; [reflexivity|]. split; reflexivity.
  - destruct b; do 2 eexists; (split; [reflexivity|]); split; reflexivity.
  - do 2 eexists. split; [reflexivity|]. split; reflexivity.
  - do 2 eexists. split; [reflexivity|]. split; reflexivity.
  - do 2 eexists. split; [reflexivity|]. split; reflexivity.
Qed.

Lemma skip_ws_opens (text rest : list ascii) :
  opens text -> skip_ws (text ++ rest) = (text ++ rest)%list.
Proof.
  intros (c & tl & -> & Hws & _). simpl. now rewrite Hws.
Qed.

Fixpoint needs (l : list pyval) : nat :=
  match l with [] => O | x :: l' => S (need x + needs l') end.

Fixpoint needs_entries (l : list (string * pyval)) : nat :=
  match l with [] => O | kv :: l' => S (need (snd kv) + needs_entries l') end.

Definition reads (x : pyval) : Prop :=
  forall fuel rest, (need x <= fuel)%nat -> scan_once fuel (encode x ++ rest) = Some (x, rest).

Lemma scan_elements_step (f : nat) (s : list ascii) (values : list pyval) :
  scan_elements (S f) s values
  = match scan_once f s with
    | None => None
    | Some (value, r) =>
        match skip_ws r with
        | c :: r1 =>
            if Ascii.eqb c "]" then Some (PList (values ++ [value]), r1)
            else if Ascii.eqb c "," then scan_elements f (skip_ws r1) (values ++ [value])
            else None
        | [] => None
        end
    end.
Proof. reflexivity. Qed.

Lemma join_opens (x : pyval) (l : list pyval) :
  plain x -> opens (join item_separator (map encode (x :: l))).
Proof.
  intros H. destruct (plain_opens x H) as (c & tl & E & Hc).
  unfold opens. simpl. destruct (map encode l).
  - rewrite E. eauto.
  - rewrite E. simpl. eauto.
Qed.

Lemma skip_ws_space (r : list ascii) : skip_ws (" "%char :: r) = skip_ws r.
Proof. reflexivity. Qed.

Lemma scan_elements_items (items : list pyval) :
  Forall (fun x => plain x /\ reads x) items ->
  items <> [] ->
  forall values fuel rest,
    (needs items <= fuel)%nat ->
    scan_elements fuel (join item_separator (map encode items) ++ "]"%char :: rest) values
    = Some (PList (values ++ items), rest).
Proof.
  induction 1 as [|x l [Hp Hx] Hl IH]; [congruence|].
  intros _ values fuel rest Hfuel.
  destruct fuel as [|f]; [simpl in Hfuel; lia|].
  simpl in Hfuel. rewrite scan_elements_step.
  destruct l as [|y l'].
  - simpl. rewrite Hx by lia. reflexivity.
  - change (join item_separator (map encode (x :: y :: l')))
      with (encode x ++ item_separator ++ join item_separator (map encode (y :: l')))%list.
    rewrite <- !app_assoc. rewrite Hx by lia.
    change (skip_ws ((item_separator ++ join item_separator (map encode (y :: l')) ++ "]"%char :: rest)))
      with (","%char :: " "%char :: join item_separator (map encode (y :: l')) ++ "]"%char :: rest).
    cbv iota beta. change (Ascii.eqb "," "]") with false. change (Ascii.eqb "," ",") with true.
    cbv iota. rewrite skip_ws_space.
    rewrite skip_ws_opens by (apply join_opens; inversion Hl; tauto).
    rewrite IH by (congruence || lia).
    rewrite <- app_assoc. reflexivity.
Qed.

Definition entry_text (kv : string * pyval) : list ascii :=
  let (k, x) := kv in (encode_string k ++ key_separator ++ encode x)%list.

(** The text of an entry after the opening quote of its key. *)
Definition entry_tail (kv : string * pyval) : list ascii :=
  (flat_map escape_char (list_ascii_of_string (fst kv))
     ++ quote :: key_separator ++ encode (snd kv))%list.

Lemma entry_text_tail (kv : string * pyval) : entry_text kv = quote :: entry_tail kv.
Proof.
  destruct kv as [k x]. unfold entry_text, entry_tail, encode_string. simpl.
  rewrite <- app_assoc. reflexivity.
Qed.

Lemma scan_members_step (f : nat) (s : list ascii) (pairs : dict) :
  scan_members (S f) s pairs
  = match scanstring s with
    | None => None
    | Some (key, r) =>
        match skip_ws r with
        | c :: r1 =>
            if Ascii.eqb c ":" then
              match scan_once f (skip_ws r1) with
              | None => None
              | Some (value, r2) =>
                  match skip_ws r2 with
                  | c2 :: r3 =>
                      if Ascii.eqb c2 "}" then Some (PDict (Dict.set pairs key value), r3)
                      else if Ascii.eqb c2 "," then
                        match skip_ws r3 with
                        | c3 :: r4 =>
                            if Ascii.eqb c3 quote then scan_members f r4 (Dict.set pairs key value)
                            else None
                        | [] => None
                        end
                      else None
                  | [] => None
                  end
              end
            else None
        | [] => None
        end
    end.
Proof. reflexivity. Qed.

Definition set_entry (d : dict) (kv : string * pyval) : dict := Dict.set d (fst kv) (snd kv).

Lemma members_text_split (kv : string * pyval) (l : list (string * pyval))
  (T tail : list ascii) :
  join item_separator (map entry_text (kv :: l)) = quote :: T ->
  (T ++ tail)%list
  = (flat_map escape_char (list_ascii_of_string (fst kv))
       ++ quote :: ":"%char :: " "%char :: encode (snd kv)
       ++ match l with
          | [] => tail
          | _ :: _ => ","%char :: " "%char :: join item_separator (map entry_text l) ++ tail
          end)%list.
Proof.
  intros HT. destruct l as [|kv' l'].
  - simpl in HT. rewrite entry_text_tail in HT. injection HT as <-.
    unfold entry_tail. rewrite <- !app_assoc. cbn [app key_separator].
    rewrite <- ?app_assoc. reflexivity.
  - change (join item_separator (map entry_text (kv :: kv' :: l')))
      with (entry_text kv ++ item_separator ++ join item_separator (map entry_text (kv' :: l')))%list
      in HT.
    rewrite entry_text_tail in HT. injection HT as <-.
    unfold entry_tail. rewrite <- !app_assoc. cbn [app key_separator item_separator].
    rewrite <- ?app_assoc. reflexivity.
Qed.

Lemma skip_ws_colon (r : list ascii) : skip_ws (":"%char :: r) = ":"%char :: r.
Proof. reflexivity. Qed.
Lemma skip_ws_comma (r : list ascii) : skip_ws (","%char :: r) = ","%char :: r.
Proof. reflexivity. Qed.
Lemma skip_ws_quote (r : list ascii) : skip_ws (quote :: r) = quote :: r.
Proof. reflexivity. Qed.
Lemma skip_ws_close_brace (r : list ascii) : skip_ws ("}"%char :: r) = "}"%char :: r.
Proof. reflexivity. Qed.
Lemma skip_ws_close_bracket (r : list ascii) : skip_ws ("]"%char :: r) = "]"%char :: r.
Proof. reflexivity. Qed.

Lemma scan_members_entries (entries : list (string * pyval)) :
  Forall (fun kv => plain (snd kv) /\ reads (snd kv)) entries ->
  entries <> [] ->
  forall pairs fuel rest T,
    (needs_entries entries <= fuel)%nat ->
    join item_separator (map entry_text entries) = quote :: T ->
    scan_members fuel (T ++ "}"%char :: rest) pairs
    = Some (PDict (fold_left set_entry entries pairs), rest).
Proof.
  induction 1 as [|kv l [Hp Hx] Hl IH]; [congruence|].
  intros _ pairs fuel rest T Hfuel HT.
  destruct fuel as [|f]; [simpl in Hfuel; lia|].
  simpl in Hfuel. rewrite scan_members_step.
  rewrite (@members_text_split kv l T _ HT).
  rewrite scanstring_escaped, skip_ws_colon.
  change (Ascii.eqb ":" ":") with true. cbv iota.
  rewrite skip_ws_space, (skip_ws_opens _ (plain_opens _ Hp)).
  rewrite Hx by lia.
  destruct l as [|kv' l'].
  - rewrite skip_ws_close_brace. reflexivity.
  - rewrite skip_ws_comma.
    change (Ascii.eqb "," "}") with false. change (Ascii.eqb "," ",") with true. cbv iota.
    rewrite skip_ws_space.
    destruct (join item_separator (map entry_text (kv' :: l'))) as [|c T'] eqn:EJ.
    + exfalso. simpl in EJ. rewrite entry_text_tail in EJ.
      destruct (map entry_text l'); discriminate EJ.
    + assert (c = quote) as ->.
      { simpl in EJ. rewrite entry_text_tail in EJ.
        destruct (map entry_text l'); injection EJ; auto. }
      cbn [app]. rewrite skip_ws_quote. rewrite Ascii.eqb_refl.
      rewrite (IH ltac:(congruence) _ f rest T') by (lia || reflexivity).
      reflexivity.
Qed.

Lemma get_none_not_in (d : dict) (k : string) :
  ~ In k (map fst d) -> Dict.get d k = None.
Proof.
  induction d as [|[k' v] d IH]; simpl; intros H; [reflexivity|].
  destruct (String.eqb k k') eqn:E.
  - apply String.eqb_eq in E. subst. tauto.
  - apply IH. tauto.
Qed.

Lemma fold_set_entries (entries acc : list (string * pyval)) :
  NoDup (map fst (acc ++ entries)) ->
  fold_left set_entry entries acc = (acc ++ entries)%list.
Proof.
  revert acc. induction entries as [|[k v] l IH]; intros acc H; simpl.
  - now rewrite app_nil_r.
  - unfold set_entry at 2. simpl. rewrite DictFacts.set_fresh.
    + rewrite IH; rewrite <- app_assoc; [reflexivity | exact H].
    + apply get_none_not_in. rewrite map_app in H. simpl in H.
      apply NoDup_remove_2 in H. intros Hin. apply H. apply in_or_app. now left.
Qed.

Lemma plain_list_forall (items : list pyval) :
  plain (PList items) -> Forall plain items.
Proof.
  induction items as [|x l IH]; intros H; constructor.
  - apply H.
  - apply IH. apply H.
Qed.

Lemma plain_dict_forall (entries : list (string * pyval)) :
  plain (PDict entries) -> Forall (fun kv => plain (snd kv)) entries.
Proof.
  intros [H _]. induction entries as [|x l IH]; constructor.
  - apply H.
  - apply IH. apply H.
Qed.

Lemma encode_list (items : list pyval) :
  encode (PList items) = ("["%char :: join item_separator (map encode items) ++ ["]"%char])%list.
Proof. reflexivity. Qed.

Lemma encode_dict (entries : list (string * pyval)) :
  encode (PDict entries)
  = ("{"%char :: join item_separator (map entry_text entries) ++ ["}"%char])%list.
Proof. reflexivity. Qed.

Lemma scan_string_value (s : string) (rest : list ascii) (fuel : nat) :
  scan_once (S fuel) (encode_string s ++ rest) = Some (PStr s, rest).
Proof.
  unfold encode_string. simpl. rewrite <- app_assoc. simpl.
  rewrite scanstring_escaped. reflexivity.
Qed.

Lemma scan_once_open_bracket (f : nat) (r : list ascii) :
  scan_once (S f) ("["%char :: r)
  = match skip_ws r with
    | c1 :: r1 =>
        if Ascii.eqb c1 "]" then Some (PList [], r1)
        else scan_elements f (c1 :: r1) []
    | [] => None
    end.
Proof. reflexivity. Qed.

Lemma scan_once_open_brace (f : nat) (r : list ascii) :
  scan_once (S f) ("{"%char :: r)
  = match skip_ws r with
    | c1 :: r1 =>
        if Ascii.eqb c1 "}" then Some (PDict [], r1)
        else if Ascii.eqb c1 quote then scan_members f r1 []
        else None
    | [] => None
    end.
Proof. reflexivity. Qed.

Lemma forall_and {A} (P Q : A -> Prop) (l : list A) :
  Forall P l -> Forall (fun x => P x -> Q x) l -> Forall (fun x => P x /\ Q x) l.
Proof.
  induction 1; intros H'; constructor; inversion H'; subst; auto.
Qed.

(** Reading back the text of a plain value gives the value. *)
Lemma plain_reads (v : pyval) : plain v -> reads v.
Proof.
  induction v as [| b | z | f | s | items IH | entries IH] using pyval_nested_ind;
    intros Hp fuel rest Hfuel; try contradiction Hp;
    (destruct fuel as [|fuel]; [simpl in Hfuel; lia|]).
  - reflexivity.
  - destruct b; reflexivity.
  - apply scan_string_value.
  - rewrite encode_list. cbn [app]. rewrite <- app_assoc. cbn [app].
    rewrite scan_once_open_bracket.
    destruct items as [|x l].
    + reflexivity.
    + pose proof (@plain_list_forall _ Hp) as Hall.
      assert (Hx : plain x) by (inversion Hall; assumption).
      destruct (join_opens x l Hx) as (c & tl & E & Hws & Hc).
      rewrite (skip_ws_opens _ (join_opens x l Hx)).
      rewrite E. cbn [app]. rewrite Hc.
      change (c :: tl ++ "]"%char :: rest)%list with ((c :: tl) ++ "]"%char :: rest)%list.
      rewrite <- E.
      rewrite scan_elements_items.
      * reflexivity.
      * apply forall_and; assumption.
      * congruence.
      * change (need (PList (x :: l))) with (S (needs (x :: l))) in Hfuel. lia.
  - rewrite encode_dict. cbn [app]. rewrite <- app_assoc. cbn [app].
    rewrite scan_once_open_brace.
    destruct entries as [|kv l].
    + reflexivity.
    + pose proof (@plain_dict_forall _ Hp) as Hall.
      destruct (join item_separator (map entry_text (kv :: l))) as [|c T] eqn:EJ.
      { exfalso. simpl in EJ. rewrite entry_text_tail in EJ.
        destruct (map entry_text l); discriminate EJ. }
      assert (c = quote) as ->.
      { simpl in EJ. rewrite entry_text_tail in EJ.
        destruct (map entry_text l); injection EJ; auto. }
      cbn [app]. rewrite skip_ws_quote.
      change (Ascii.eqb quote "}") with false. rewrite Ascii.eqb_refl. cbv iota.
      rewrite (@scan_members_entries (kv :: l)) with (T := T).
      * rewrite fold_set_entries; [reflexivity | apply Hp].
      * apply forall_and; assumption.
      * congruence.
      * change (need (PDict (kv :: l))) with (S (needs_entries (kv :: l))) in Hfuel. lia.
      * exact EJ.
Qed.

Lemma join_length_bound {A} (size : A -> nat) (text : A -> list ascii) (l : list A) :
  Forall (fun x => (size x <= List.length (text x))%nat) l ->
  (fold_right (fun x n => S (size x + n)) O l
   <= S (List.length (join item_separator (map text l))))%nat.
Proof.
  induction 1 as [|x l Hx Hl IH]; simpl; [lia|].
  destruct (map text l) eqn:E.
  - destruct l; [simpl; lia | discriminate E].
  - rewrite !length_app. simpl in *. lia.
Qed.

Lemma needs_fold (l : list pyval) : needs l = fold_right (fun x n => S (need x + n)) O l.
Proof. induction l; simpl; congruence. Qed.

Lemma needs_entries_fold (l : list (string * pyval)) :
  needs_entries l = fold_right (fun kv n => S (need (snd kv) + n)) O l.
Proof. induction l; simpl; congruence. Qed.

Lemma need_le_length (v : pyval) : plain v -> (need v <= List.length (encode v))%nat.
Proof.
  induction v as [| b | z | f | s | items IH | entries IH] using pyval_nested_ind;
    intros Hp; try contradiction Hp.
  - simpl. lia.
  - destruct b; simpl; lia.
  - unfold encode, encode_string. simpl. lia.
  - rewrite encode_list. change (need (PList items)) with (S (needs items)).
    rewrite needs_fold. simpl. rewrite length_app. simpl.
    pose proof (@join_length_bound _ need encode items) as H.
    assert (Forall (fun x => (need x <= List.length (encode x))%nat) items).
    { pose proof (@plain_list_forall _ Hp) as Hall.
      clear -IH Hall. induction IH; constructor; inversion Hall; subst; auto. }
    specialize (H H0). lia.
  - rewrite encode_dict. change (need (PDict entries)) with (S (needs_entries entries)).
    rewrite needs_entries_fold. simpl. rewrite length_app. simpl.
    pose proof (@join_length_bound _ (fun kv => need (snd kv)) entry_text entries) as H.
    assert (Forall (fun kv => (need (snd kv) <= List.length (entry_text kv))%nat) entries).
    { pose proof (@plain_dict_forall _ Hp) as Hall.
      clear -IH Hall. induction IH as [|[k x] l Hx Hl IHl]; constructor; inversion Hall; subst.
      - unfold entry_text. rewrite !length_app. simpl in *. specialize (Hx H1). lia.
      - auto. }
    specialize (H H0). lia.
Qed.

(** [json.loads(json.dumps(v)) == v] for a plain value. *)
Lemma loads_dumps (v : pyval) : plain v -> loads (dumps v) = Ok v.
Proof.
  intros Hp. unfold loads, dumps.
  rewrite list_ascii_of_string_of_list_ascii.
  pose proof (skip_ws_opens [] (plain_opens v Hp)) as Hs. rewrite app_nil_r in Hs.
  rewrite Hs.
  pose proof (plain_reads v Hp) as Hr.
  specialize (Hr (S (List.length (encode v))) []). rewrite app_nil_r in Hr.
  rewrite Hr by (pose proof (need_le_length v Hp); lia).
  reflexivity.
Qed.

Lemma model_dumps_plain (ps : list ToolParameter) : plain (PList (map model_dump ps)).
Proof.
  induction ps as [|p ps IH]; simpl; [exact I|].
  split; [|exact IH].
  split.
  - destruct (param_description p); simpl; tauto.
  - simpl. repeat constructor; simpl; intuition discriminate.
Qed.
End JsonRoundTrip.

Section MetadataRoundTrip.
Context {rt : PyRuntime}.

Lemma new_ToolParameter_model_dump (p : ToolParameter) :
  new_ToolParameter (model_dump p) = Ok p.
Proof.
  destruct p as [n t r [d|]]; reflexivity.
Qed.

Lemma append_parameters_model_dumps (ps acc : list ToolParameter) :
  append_parameters (map model_dump ps) acc = ((acc ++ ps)%list, Completed).
Proof.
  revert acc. induction ps as [|p ps IH]; intros acc; cbn [append_parameters map].
  - now rewrite app_nil_r.
  - rewrite new_ToolParameter_model_dump, IH, <- app_assoc. reflexivity.
Qed.

(** The text written for a parameter list decodes to that list. *)
Lemma parse_dumped_parameters (ps : list ToolParameter) :
  parse_tool_parameters (PStr (Json.dumps (PList (map model_dump ps)))) = Ok ps.
Proof.
  unfold parse_tool_parameters, parse_body.
  rewrite loads_dumps by apply model_dumps_plain.
  cbn [truthy py_iter]. rewrite append_parameters_model_dumps.
  reflexivity.
Qed.

(** A text that [json.loads] refuses decodes to the empty list. *)
Lemma parse_undecodable_text (s : string) (e : exn) :
  JsonDecoder.loads s = Raise e -> parse_tool_parameters (PStr s) = Ok [].
Proof.
  intros H. unfold parse_tool_parameters, parse_body.
  destruct (negb (truthy (PStr s))); [reflexivity|].
  rewrite H, (@loads_raises_handled _ s e H). reflexivity.
Qed.

(** The tool [t] without its parameters. *)
Definition without_parameters (t : Tool) : Tool :=
  {| action_id := action_id t; toolkit_id := toolkit_id t; tool_name := tool_name t;
     description := description t; parameters := []; toolkit := toolkit t |}.

(** Decoding the metadata written for a tool gives the tool back. *)
Lemma decode_encoded_metadata (t : Tool) :
  metadata_to_tool (build_tool_metadata t) = Ok t.
Proof.
  destruct t as [a k n d ps tk]. unfold metadata_to_tool, build_tool_metadata.
  cbn [py_get Dict.get String.eqb Ascii.eqb Bool.eqb action_id toolkit_id tool_name
       description parameters toolkit].
  rewrite parse_dumped_parameters. reflexivity.
Qed.

(** The tool [t] with the parameters [ps] in place of its own. *)
Definition with_parameters (t : Tool) (ps : list ToolParameter) : Tool :=
  {| action_id := action_id t; toolkit_id := toolkit_id t; tool_name := tool_name t;
     description := description t; parameters := ps; toolkit := toolkit t |}.

Lemma append_empty (s : string) : String.append s "" = s.
Proof. induction s as [|c s IH]; simpl; [reflexivity | now rewrite IH]. Qed.

(** An escape of a code point from 256 on is decoded, a surrogate pair to
    one code point; the text of a string is read up to its closing quote. *)
Lemma scanstring_wide_escapes (r : list ascii) :
  JsonDecoder.scanstring (list_ascii_of_string "\u4e2d" ++ Json.quote :: r)
  = Some (wide_chr 20013, r)
  /\ JsonDecoder.scanstring (list_ascii_of_string "\ud83d\ude00" ++ Json.quote :: r)
     = Some (wide_chr 128512, r)
  /\ JsonDecoder.scanstring (list_ascii_of_string "\ud83dA" ++ Json.quote :: r)
     = Some (String.append (wide_chr 55357) "A", r).
Proof.
  repeat split; cbn; rewrite ?append_empty; reflexivity.
Qed.

(** The text [s] between quotes. *)
Definition quoted (s : string) : string :=
  String Json.quote (String.append s (String Json.quote "")).

(** The JSON text of one parameter object whose name is the escape of the
    code point [0x4e2d]. *)
Definition wide_name_text : string :=
  "[{" ++ quoted "name" ++ ": " ++ quoted "\u4e2d" ++ ", " ++ quoted "type" ++ ": "
       ++ quoted "string" ++ ", " ++ quoted "required" ++ ": true}]".

(** That text is valid JSON and decodes to its parameter. *)
Lemma parse_wide_name_text :
  parse_tool_parameters (PStr wide_name_text)
  = Ok [{| name := wide_chr 20013; type := "string"; required := true;
           param_description := None |}].
Proof. cbn. rewrite append_empty. reflexivity. Qed.

(** C2 (the code departs from the claim).  Decoding the encoded metadata of
    a tool returns that tool, equal in every field, the ordered parameter
    sequence included; a record whose [parameters] entry is missing, or
    holds a text that [json.loads] refuses, decodes to the same tool with an
    empty parameter list.  But an invalid encoding does not always decode
    to the empty list: for the text of a list whose second entry is no
    parameter object, the decoded tool keeps the parameter read before it.
    This is the defect of [parse_tool_parameters] (C5), seen through
    [metadata_to_tool]. *)
Theorem metadata_round_trip :
  (forall t : Tool, metadata_to_tool (build_tool_metadata t) = Ok t)
  /\ (forall t : Tool,
         metadata_to_tool (removelast (build_tool_metadata t)) = Ok (without_parameters t))
  /\ (forall (t : Tool) (s : string) (e : exn),
         JsonDecoder.loads s = Raise e ->
         metadata_to_tool (Dict.set (build_tool_metadata t) "parameters" (PStr s))
           = Ok (without_parameters t))
  /\ (forall t : Tool,
         metadata_to_tool (Dict.set (build_tool_metadata t) "parameters" half_valid_text)
           = Ok (with_parameters t [address_parameter])).
Proof.
  split; [exact decode_encoded_metadata|split; [|split]].
  - intros [a k n d ps tk]. reflexivity.
  - intros [a k n d ps tk] s e H. unfold metadata_to_tool, build_tool_metadata.
    cbn [py_get Dict.get Dict.set String.eqb Ascii.eqb Bool.eqb action_id toolkit_id
         tool_name description parameters toolkit].
    rewrite (@parse_undecodable_text s e H). reflexivity.
  - intros [a k n d ps tk]. unfold metadata_to_tool, build_tool_metadata.
    cbn [py_get Dict.get Dict.set String.eqb Ascii.eqb Bool.eqb action_id toolkit_id
         tool_name description parameters toolkit].
    change (parse_tool_parameters half_valid_text) with (Ok [address_parameter]).
    reflexivity.
Qed.
End MetadataRoundTrip.

(** ** Toolkit fetch *)

Section ToolkitFetch.
Context {rt : PyRuntime} {sv : Services}.
Variable self : ToolSearchProvider.

Lemma request_answered {A} (c : call) (answer : world -> A * world) (w : world) :
  fault (List.length (log w)) = None ->
  request c answer w = (Ok (fst (answer (record_call c w))), snd (answer (record_call c w))).
Proof.
  intros H. unfold request. rewrite H. destruct (answer (record_call c w)). reflexivity.
Qed.

Lemma request_fails {A} (c : call) (answer : world -> A * world) (w : world) (text : string) :
  fault (List.length (log w)) = Some text ->
  request c answer w = (Raise (PyError KServiceError text), record_call c w).
Proof.
  intros H. unfold request. rewrite H. reflexivity.
Qed.

Lemma get_map_stats (idx : Dict.t (list stored_vector)) (namespace : string) :
  Dict.get (map (fun ns : string * list stored_vector =>
                   (fst ns, PDict [("vector_count", PInt (Z.of_nat (List.length (snd ns))))]))
                idx) namespace
  = option_map (fun vs => PDict [("vector_count", PInt (Z.of_nat (List.length vs)))])
               (Dict.get idx namespace).
Proof.
  induction idx as [|[k vs] idx IH]; simpl; [reflexivity|].
  destruct (String.eqb namespace k); [reflexivity | exact IH].
Qed.

Lemma py_get_default_here (k : string) (v default : pyval) (d : dict) :
  py_get_default ((k, v) :: d) k default = v.
Proof. unfold py_get_default. simpl. now rewrite String.eqb_refl. Qed.

(** The count [get_toolkit_tools] reads from the statistics of the index. *)
Lemma stats_vector_count (idx : Dict.t (list stored_vector)) (namespace : string) :
  rbind (pyval_get (index_stats idx) "namespaces" (PDict [])) (fun namespaces =>
  rbind (pyval_get namespaces namespace (PDict [])) (fun namespace_stats =>
  rbind (pyval_get namespace_stats "vector_count" (PInt 0)) as_count))
  = Ok (Z.of_nat (List.length (namespace_vectors idx namespace))).
Proof.
  unfold index_stats, namespace_vectors. cbn [pyval_get rbind].
  rewrite py_get_default_here. cbn [pyval_get rbind].
  unfold py_get_default at 1. rewrite get_map_stats.
  destruct (Dict.get idx namespace); reflexivity.
Qed.

Lemma decode_matches_length (ms : list scored_match) :
  forall acc ts, decode_matches ms acc = Ok ts ->
                 List.length ts = (List.length acc + List.length ms)%nat.
Proof.
  induction ms as [|m ms IH]; simpl; intros acc ts H.
  - injection H as <-. lia.
  - destruct (metadata_to_tool (match_metadata m)); [|discriminate H].
    rewrite (IH _ _ H), length_app. simpl. lia.
Qed.

Lemma decode_encoded_matches (ms : list scored_match) :
  Forall (fun m => exists t, match_metadata m = build_tool_metadata t) ms ->
  forall acc, exists ts, decode_matches ms acc = Ok ts.
Proof.
  induction 1 as [|m ms [t Ht] Hms IH]; simpl; intros acc.
  - eauto.
  - rewrite Ht, decode_encoded_metadata. apply IH.
Qed.

Lemma namespace_count_read (idx : Dict.t (list stored_vector)) (namespace : string) :
  pyval_get
    (py_get_default
       (map (fun ns : string * list stored_vector =>
               (fst ns, PDict [("vector_count", PInt (Z.of_nat (List.length (snd ns))))]))
            idx)
       namespace (PDict []))
    "vector_count" (PInt 0)
  = Ok (PInt (Z.of_nat (List.length (namespace_vectors idx namespace)))).
Proof.
  unfold py_get_default at 1, namespace_vectors. rewrite get_map_stats.
  destruct (Dict.get idx namespace); reflexivity.
Qed.

Definition toolkit_query_handler {A} : exn -> M A :=
  reraise_or (fun e => ToolSearchError ("Failed to get toolkit tools: " ++ exn_str e)
                                       TOOLKIT_QUERY_ERROR).

(** [get_toolkit_tools] from the answer of the statistics request on. *)
Lemma get_toolkit_tools_after_stats (toolkit_id_ : Z) (namespace : string) (w : world) :
  0 < toolkit_id_ ->
  fault (List.length (log w)) = None ->
  let count := Z.of_nat (List.length (namespace_vectors (index w) namespace)) in
  let w1 := record_call DescribeIndexStats w in
  get_toolkit_tools self toolkit_id_ namespace w
  = if count =? 0 then (Ok [], w1)
    else try_except
           (bind (random_rand (embedding_dimension self)) (fun random_vector =>
            bind (index_query random_vector (Z.min 100 count)
                    (Some (_build_pinecone_filter [("toolkit_id", PInt toolkit_id_)]))
                    namespace) (fun matches =>
            lift (decode_matches matches []))))
           toolkit_query_handler w1.
Proof.
  intros Hid Hstats count w1.
  assert (Hpos : (toolkit_id_ <=? 0) = false) by (apply Z.leb_gt; lia).
  unfold get_toolkit_tools, try_except. rewrite Hpos.
  unfold describe_index_stats. unfold bind at 1. rewrite request_answered by assumption.
  cbn [fst snd bind lift pyval_get index_stats index record_call].
  rewrite py_get_default_here. cbn [pyval_get].
  rewrite namespace_count_read. cbn [as_count]. fold count. fold w1.
  destruct (count =? 0); reflexivity.
Qed.

Lemma in_firstn {A} (n : nat) (l : list A) (x : A) : In x (firstn n l) -> In x l.
Proof.
  intros H. rewrite <- (firstn_skipn n l). apply in_or_app. now left.
Qed.

Lemma reraise_or_result {A} (wrap : exn -> exn) (e : exn) (w : world) :
  @reraise_or A wrap e w = (Raise (if is_tool_search_error e then e else wrap e), w).
Proof. unfold reraise_or. destruct (is_tool_search_error e); reflexivity. Qed.

(** The records of the namespace were written by [build_tool_metadata]. *)
Definition holds_encoded_tools (w : world) (namespace : string) : Prop :=
  Forall (fun v => exists t, vec_metadata v = build_tool_metadata t)
         (namespace_vectors (index w) namespace).

(** The index returns records it stores. *)
Definition rank_returns_candidates : Prop :=
  forall (v : vector) (l : list stored_vector) (x : stored_vector),
    In x (rank v l) -> In x l.

(** C9.  For a positive [toolkit_id], once the statistics request is
    answered: when the namespace holds no vector, [get_toolkit_tools] returns
    the empty list and that request is the only one made; otherwise it makes
    exactly one more request, a query with a probe vector of the configured
    dimension, [top_k = min(100, vector_count)] and the filter
    [{"toolkit_id": {"$in": [toolkit_id]}}], and a returned list has at most
    100 entries.  When the query is answered by an index that returns stored
    records, all written by [build_tool_metadata], the call does return: it
    does not raise, however many tools are stored. *)
Theorem get_toolkit_tools_bounded_query (toolkit_id_ : Z) (namespace : string) (w : world) :
  0 < toolkit_id_ ->
  fault (List.length (log w)) = None ->
  let count := Z.of_nat (List.length (namespace_vectors (index w) namespace)) in
  (count = 0 ->
   get_toolkit_tools self toolkit_id_ namespace w = (Ok [], record_call DescribeIndexStats w))
  /\ (count <> 0 ->
      0 <= embedding_dimension self ->
      exists probe outcome w2,
        get_toolkit_tools self toolkit_id_ namespace w = (outcome, w2)
        /\ List.length probe = Z.to_nat (embedding_dimension self)
        /\ log w2
           = (log w ++ [DescribeIndexStats;
                        IndexQuery namespace probe (Z.min 100 count)
                          (Some [("toolkit_id", PDict [("$in", PList [PInt toolkit_id_])])])])%list
        /\ index w2 = index w
        /\ (forall tools_, outcome = Ok tools_ -> (List.length tools_ <= 100)%nat)
        /\ (fault (S (List.length (log w))) = None ->
            rank_returns_candidates ->
            holds_encoded_tools w namespace ->
            exists tools_, outcome = Ok tools_ /\ (List.length tools_ <= 100)%nat)).
Proof.
  intros Hid Hstats count.
  rewrite get_toolkit_tools_after_stats by assumption. fold count.
  split.
  - intros ->. reflexivity.
  - intros Hcount Hdim. apply Z.eqb_neq in Hcount. rewrite Hcount.
    assert (Hf : _build_pinecone_filter [("toolkit_id", PInt toolkit_id_)]
                 = [("toolkit_id", PDict [("$in", PList [PInt toolkit_id_])])]).
    { unfold _build_pinecone_filter, add_membership, add_required_params. cbn.
      destruct (toolkit_id_ =? 0) eqn:E; [apply Z.eqb_eq in E; lia|]. reflexivity. }
    rewrite Hf.
    unfold try_except, bind at 1, random_rand.
    assert (Hd : (embedding_dimension self <? 0) = false) by (apply Z.ltb_ge; lia).
    rewrite Hd.
    set (probe := map random (seq (drawn (record_call DescribeIndexStats w))
                                 (Z.to_nat (embedding_dimension self)))).
    exists probe.
    assert (Hlen : List.length probe = Z.to_nat (embedding_dimension self)).
    { unfold probe. now rewrite length_map, length_seq. }
    unfold bind, index_query, request, toolkit_query_handler, query_answer.
    cbn [log index record_call].
    replace (List.length (log w ++ [DescribeIndexStats])) with (S (List.length (log w)))
      by (rewrite length_app; simpl; lia).
    destruct (fault (S (List.length (log w)))) as [text|].
    + rewrite reraise_or_result.
      do 2 eexists. split; [reflexivity|]. cbn [log index record_call].
      split; [exact Hlen|]. split; [now rewrite <- app_assoc|].
      split; [reflexivity|]. split; intros; discriminate.
    + cbn [lift].
      match goal with |- context [decode_matches ?ms []] => set (matches := ms) end.
      assert (Hm : (List.length matches <= 100)%nat).
      { unfold matches. rewrite length_map.
        etransitivity; [apply firstn_le_length|]. lia. }
      destruct (decode_matches matches []) as [ts|e] eqn:E.
      * do 2 eexists. split; [reflexivity|]. cbn [log index record_call].
        split; [exact Hlen|]. split; [now rewrite <- app_assoc|].
        split; [reflexivity|].
        assert (Hts : (List.length ts <= 100)%nat).
        { rewrite (decode_matches_length _ _ E). simpl. exact Hm. }
        split.
        -- intros tools_ H. injection H as <-. exact Hts.
        -- intros _ _ _. exists ts. split; [reflexivity | exact Hts].
      * rewrite reraise_or_result.
        do 2 eexists. split; [reflexivity|]. cbn [log index record_call].
        split; [exact Hlen|]. split; [now rewrite <- app_assoc|].
        split; [reflexivity|]. split; [intros; discriminate|].
        intros _ Hrank Henc. exfalso.
        assert (Hall : Forall (fun m => exists t, match_metadata m = build_tool_metadata t)
                              matches).
        { unfold matches. apply Forall_forall. intros m Hin.
          apply in_map_iff in Hin. destruct Hin as (u & <- & Hu).
          apply in_firstn, Hrank in Hu. apply filter_In in Hu. destruct Hu as [Hu _].
          unfold holds_encoded_tools in Henc. rewrite Forall_forall in Henc.
          exact (Henc u Hu). }
        destruct (decode_encoded_matches Hall []) as [ts' Hts']. congruence.
Qed.
End ToolkitFetch.

(** ** Filter-only queries *)

Section FilterOnlyQuery.
Context {rt : PyRuntime} {sv : Services}.
Variable self : ToolSearchProvider.

(** Whether the post-filter keeps a match. *)
Definition post_keep (filters_ : dict) (m : scored_match) : bool :=
  match post_filter_keeps filters_ (match_metadata m) with
  | Ok b => b
  | Raise _ => false
  end.

Lemma post_filter_loop_filter (filters_ : dict) (ms : list scored_match) :
  forall acc kept,
    post_filter_loop filters_ ms acc = Ok kept ->
    kept = (acc ++ filter (post_keep filters_) ms)%list.
Proof.
  induction ms as [|m ms IH]; simpl; intros acc kept H.
  - injection H as <-. now rewrite app_nil_r.
  - unfold post_keep at 1.
    destruct (post_filter_keeps filters_ (match_metadata m)) as [b|e]; [|discriminate H].
    rewrite (IH _ _ H). destruct b; [rewrite <- app_assoc|]; reflexivity.
Qed.

(** Post-filtering removes matches and keeps the order of the others. *)
Lemma apply_post_filters_filter (filters_ : dict) (ms kept : list scored_match) :
  _apply_post_filters ms filters_ = Ok kept ->
  exists keep, kept = filter keep ms.
Proof.
  unfold _apply_post_filters. destruct filters_ as [|kv d].
  - intros H. injection H as <-. exists (fun _ => true).
    symmetry. apply forallb_filter_id. now apply forallb_forall.
  - intros H. exists (post_keep (kv :: d)). apply (post_filter_loop_filter _ _ _ H).
Qed.

Lemma build_responses_forall2 (semantic : bool) (ms : list scored_match) :
  forall acc results,
    build_responses semantic ms acc = Ok results <->
    exists rs, results = (acc ++ rs)%list
               /\ Forall2 (fun m r => build_response semantic m = Ok r) ms rs.
Proof.
  induction ms as [|m ms IH]; simpl; intros acc results.
  - split.
    + intros H. injection H as <-. exists []. rewrite app_nil_r. split; constructor.
    + intros (rs & -> & H). inversion H. now rewrite app_nil_r.
  - destruct (build_response semantic m) as [r|e] eqn:E.
    + rewrite IH. split.
      * intros (rs & -> & H). exists (r :: rs). rewrite <- app_assoc. split; [reflexivity|].
        constructor; assumption.
      * intros (rs & -> & H). inversion H as [|? r' ? rs' Hr Hrs]; subst.
        rewrite E in Hr. injection Hr as <-. exists rs'. rewrite <- app_assoc. split; auto.
    + split; [discriminate|]. intros (rs & _ & H). inversion H; subst. congruence.
Qed.

Lemma build_response_filter_only_score (m : scored_match) (r : ToolSearchResponse) :
  build_response false m = Ok r -> score r = 1%float.
Proof.
  unfold build_response, new_ToolSearchResponse.
  destruct (parse_tool_parameters _); simpl; [|discriminate].
  destruct (validate_str _); [|discriminate].
  destruct (validate_int _); [|discriminate].
  destruct (validate_int _); [|discriminate].
  destruct (validate_str _); [|discriminate].
  intros H. injection H as <-. reflexivity.
Qed.

(** C6.  A request with empty query text and a non-empty filter map makes
    one request to the index: a query whose vector is a random probe of the
    configured dimension, with the translated filter.  When [query_tools]
    returns, every entry of the result has score exactly 1.0, and the entries
    are the responses built, in order, from the matches the index returned
    that the post-filter kept.  Conversely, when the index answers, the
    post-filter does not raise and every kept match yields a response,
    [query_tools] returns those responses. *)
Theorem filter_only_query_scores_one (req : ToolSearchRequest) (namespace : string) (w : world) :
  query req = "" ->
  filters_or_empty req <> [] ->
  0 <= embedding_dimension self ->
  let probe := map random (seq (drawn w) (Z.to_nat (embedding_dimension self))) in
  let pinecone_filter := _build_pinecone_filter (filters_or_empty req) in
  let answer := query_answer (index w) namespace probe (top_k req) (Some pinecone_filter) in
  exists outcome w',
    query_tools self req namespace w = (outcome, w')
    /\ List.length probe = Z.to_nat (embedding_dimension self)
    /\ log w' = (log w ++ [IndexQuery namespace probe (top_k req) (Some pinecone_filter)])%list
    /\ (forall results,
           outcome = Ok results ->
           Forall (fun r => score r = 1%float) results
           /\ exists keep,
               Forall2 (fun m r => build_response false m = Ok r) (filter keep answer) results)
    /\ (fault (List.length (log w)) = None ->
        forall kept results,
          _apply_post_filters answer (filters_or_empty req) = Ok kept ->
          Forall2 (fun m r => build_response false m = Ok r) kept results ->
          outcome = Ok results).
Proof.
  intros Hq Hf Hdim probe pinecone_filter answer.
  unfold query_tools, try_except. rewrite Hq.
  assert (Ht : truthy (PDict (filters_or_empty req)) = true).
  { destruct (filters_or_empty req); [congruence | reflexivity]. }
  rewrite Ht. cbn [truthy String.eqb negb andb].
  unfold bind at 1. cbn [ret]. unfold bind at 1, random_rand.
  assert (Hd : (embedding_dimension self <? 0) = false) by (apply Z.ltb_ge; lia).
  rewrite Hd. fold probe. fold pinecone_filter.
  assert (Hlen : List.length probe = Z.to_nat (embedding_dimension self)).
  { unfold probe. now rewrite length_map, length_seq. }
  unfold bind, index_query, request, lift. cbn [log index record_call].
  fold probe. fold answer.
  destruct (fault (List.length (log w))) as [text|].
  - rewrite reraise_or_result. do 2 eexists. split; [reflexivity|].
    cbn [log record_call]. split; [exact Hlen|]. split; [reflexivity|].
    split; [intros results H; discriminate H|]. intros H; discriminate H.
  - destruct (_apply_post_filters answer (filters_or_empty req)) as [kept|e] eqn:Ep.
    + destruct (build_responses false kept []) as [rs|e] eqn:Eb.
      * do 2 eexists. split; [reflexivity|].
        cbn [log record_call]. split; [exact Hlen|]. split; [reflexivity|].
        apply build_responses_forall2 in Eb. destruct Eb as (rs' & -> & Hrs).
        split.
        -- intros results H. injection H as <-. cbn [app]. split.
           ++ clear -Hrs. induction Hrs; constructor; auto.
              eapply build_response_filter_only_score; eassumption.
           ++ destruct (apply_post_filters_filter _ _ Ep) as [keep ->].
              exists keep. exact Hrs.
        -- intros _ kept' results H Hres. injection H as <-. f_equal. cbn [app].
           clear -Hrs Hres. revert results Hres.
           induction Hrs; intros results Hres; inversion Hres; subst; [reflexivity|].
           f_equal; [congruence | auto].
      * rewrite reraise_or_result. do 2 eexists. split; [reflexivity|].
        cbn [log record_call]. split; [exact Hlen|]. split; [reflexivity|].
        split; [intros results H; discriminate H|].
        intros _ kept' results H Hres. injection H as <-. exfalso.
        assert (build_responses false kept [] = Ok results).
        { apply build_responses_forall2. exists results. split; [reflexivity | exact Hres]. }
        congruence.
    + rewrite reraise_or_result. do 2 eexists. split; [reflexivity|].
      cbn [log record_call]. split; [exact Hlen|]. split; [reflexivity|].
      split; [intros results H; discriminate H|].
      intros _ kept' results H. discriminate H.
Qed.
End FilterOnlyQuery.

(** ** Batch writes that fail part-way *)

Section BatchFailure.
Context {rt : PyRuntime} {sv : Services}.

(** The records [upsert_tools] writes for a batch. *)
Definition batch_vectors (batch_tools : list Tool) : list stored_vector :=
  map (fun t => {| vec_id := str_of_int (action_id t);
                   vec_values := embed (_create_embedding_text t);
                   vec_metadata := build_tool_metadata t |}) batch_tools.

Definition batch_texts (batch_tools : list Tool) : list string :=
  map _create_embedding_text batch_tools.

(** The state after a batch is embedded and written. *)
Definition after_batch (batch_tools : list Tool) (namespace : string) (w : world) : world :=
  {| index := index_after_upsert (index w) namespace (batch_vectors batch_tools);
     log := (log w ++ [EmbedDocuments (batch_texts batch_tools);
                       IndexUpsert namespace (batch_vectors batch_tools)])%list;
     drawn := drawn w |}.

(** The state after a batch is embedded and its write is refused. *)
Definition after_refused_batch (batch_tools : list Tool) (namespace : string) (w : world) :
  world :=
  {| index := index w;
     log := (log w ++ [EmbedDocuments (batch_texts batch_tools);
                       IndexUpsert namespace (batch_vectors batch_tools)])%list;
     drawn := drawn w |}.

Lemma combine_embeddings (c : list Tool) :
  combine c (map embed (map _create_embedding_text c))
  = map (fun t => (t, embed (_create_embedding_text t))) c.
Proof. induction c as [|t c IH]; simpl; [reflexivity | now rewrite IH]. Qed.

Lemma upsert_batch_written (c : list Tool) (namespace : string) (w : world) :
  fault (List.length (log w)) = None ->
  fault (S (List.length (log w))) = None ->
  upsert_batch c namespace w
  = (Ok (map (fun t => str_of_int (action_id t)) c), after_batch c namespace w).
Proof.
  intros H0 H1. unfold upsert_batch, bind, embed_documents, index_upsert, request.
  rewrite H0. cbn [log record_call].
  replace (List.length (log w ++ [EmbedDocuments (map _create_embedding_text c)]))
    with (S (List.length (log w))) by (rewrite length_app; simpl; lia).
  rewrite H1. rewrite combine_embeddings, !map_map. cbn [fst snd ret set_index index log drawn record_call].
  unfold after_batch, batch_vectors, batch_texts, ret, set_index, record_call.
  cbn [index log drawn]. rewrite <- app_assoc. reflexivity.
Qed.

Lemma upsert_batch_refused (c : list Tool) (namespace : string) (w : world) (text : string) :
  fault (List.length (log w)) = None ->
  fault (S (List.length (log w))) = Some text ->
  upsert_batch c namespace w
  = (Raise (PyError KServiceError text), after_refused_batch c namespace w).
Proof.
  intros H0 H1. unfold upsert_batch, bind, embed_documents, index_upsert, request.
  rewrite H0. cbn [log record_call].
  replace (List.length (log w ++ [EmbedDocuments (map _create_embedding_text c)]))
    with (S (List.length (log w))) by (rewrite length_app; simpl; lia).
  rewrite H1. rewrite combine_embeddings, !map_map. cbn [fst snd index log drawn record_call].
  unfold after_refused_batch, batch_vectors, batch_texts, record_call.
  cbn [index log drawn]. rewrite <- app_assoc. reflexivity.
Qed.

Lemma validate_tools_accepts (tools_ : list Tool) (w : world) :
  Forall (fun t => 0 < action_id t) tools_ -> validate_tools tools_ w = (Ok tt, w).
Proof.
  induction 1 as [|t l H Hl IH]; simpl; [reflexivity|].
  destruct (action_id t <=? 0) eqn:E; [apply Z.leb_le in E; lia | exact IH].
Qed.

Definition batch_upsert_handler : exn -> exn :=
  classify "Failed to generate embeddings: " "Pinecone batch operation failed: "
           "Failed to upsert tools: " BATCH_UPSERT_ERROR.

Lemma upsert_tools_nonempty (tools_ : list Tool) (namespace : string) (batch_size : Z) :
  tools_ <> [] ->
  upsert_tools tools_ namespace batch_size
  = try_except
      (bind (validate_tools tools_) (fun _ =>
       bind (lift (py_range0 (List.length tools_) batch_size)) (fun starts =>
       upsert_batches tools_ (Z.to_nat batch_size) starts namespace [])))
      (reraise_or batch_upsert_handler).
Proof. destruct tools_; [congruence | reflexivity]. Qed.

Lemma log_after_batch (c : list Tool) (namespace : string) (w : world) :
  List.length (log (after_batch c namespace w)) = S (S (List.length (log w))).
Proof. unfold after_batch. cbn [log]. rewrite length_app. simpl. lia. Qed.

Lemma namespace_vectors_after_upsert (idx : Dict.t (list stored_vector)) (namespace : string)
  (vs : list stored_vector) :
  namespace_vectors (index_after_upsert idx namespace vs) namespace
  = fold_left put_vector vs (namespace_vectors idx namespace).
Proof.
  unfold index_after_upsert. unfold namespace_vectors at 1.
  now rewrite DictFacts.get_set_same.
Qed.

Lemma put_vector_fresh (vs : list stored_vector) (v : stored_vector) :
  ~ In (vec_id v) (map vec_id vs) -> put_vector vs v = (vs ++ [v])%list.
Proof.
  induction vs as [|u vs IH]; simpl; intros H; [reflexivity|].
  destruct (String.eqb (vec_id u) (vec_id v)) eqn:E.
  - apply String.eqb_eq in E. tauto.
  - rewrite IH by tauto. reflexivity.
Qed.

Lemma put_vectors_fresh (vs acc : list stored_vector) :
  NoDup (map vec_id (acc ++ vs)) -> fold_left put_vector vs acc = (acc ++ vs)%list.
Proof.
  revert acc. induction vs as [|v vs IH]; intros acc H; simpl.
  - now rewrite app_nil_r.
  - rewrite put_vector_fresh.
    + rewrite IH; rewrite <- app_assoc; [reflexivity | exact H].
    + rewrite map_app in H. simpl in H. apply NoDup_remove_2 in H.
      intros Hin. apply H. apply in_or_app. now left.
Qed.

Lemma to_int_not_nil (z : Z) :
  Z.to_int z <> Decimal.Pos Decimal.Nil /\ Z.to_int z <> Decimal.Neg Decimal.Nil.
Proof.
  destruct z as [|p|p]; simpl; split; try discriminate.
  - intros H. injection H as H. apply (f_equal Pos.of_uint) in H.
    rewrite DecimalPos.Unsigned.of_to in H. discriminate H.
  - intros H. injection H as H. apply (f_equal Pos.of_uint) in H.
    rewrite DecimalPos.Unsigned.of_to in H. discriminate H.
Qed.

(** Distinct ids are written under distinct keys. *)
Lemma str_of_int_injective (a b : Z) : str_of_int a = str_of_int b -> a = b.
Proof.
  unfold str_of_int. intros H. apply DecimalZ.to_int_inj.
  destruct (to_int_not_nil a) as [Ha1 Ha2]. destruct (to_int_not_nil b) as [Hb1 Hb2].
  pose proof (NilZero.isi _ Ha1 Ha2) as Ia. pose proof (NilZero.isi _ Hb1 Hb2) as Ib.
  rewrite H in Ia. rewrite Ia in Ib. now injection Ib.
Qed.

Lemma firstn_plus {A} (a b : nat) (l : list A) :
  firstn (a + b) l = (firstn a l ++ firstn b (skipn a l))%list.
Proof.
  revert l. induction a as [|a IH]; intros l; [reflexivity|].
  destruct l as [|x l]; simpl.
  - now rewrite firstn_nil.
  - now rewrite IH.
Qed.

Lemma batch_vectors_ids (c : list Tool) :
  map vec_id (batch_vectors c) = map (fun t => str_of_int (action_id t)) c.
Proof. unfold batch_vectors. rewrite map_map. reflexivity. Qed.

Lemma nodup_ids_strings (c : list Tool) :
  NoDup (map action_id c) -> NoDup (map (fun t => str_of_int (action_id t)) c).
Proof.
  induction c as [|t c IH]; simpl; intros H; [constructor|].
  inversion H as [|? ? Hn Hc]; subst. constructor; [|auto].
  intros Hin. apply Hn. apply in_map_iff in Hin. destruct Hin as (u & Hu & Hin).
  apply str_of_int_injective in Hu. apply in_map_iff. eauto.
Qed.

(** After the writes of the first two batches into an empty namespace, the
    namespace holds the records of the first 200 tools, in input order. *)
Lemma two_batches_committed (tools_ : list Tool) (namespace : string) (w : world) :
  namespace_vectors (index w) namespace = [] ->
  NoDup (map action_id tools_) ->
  namespace_vectors
    (index (after_batch (slice tools_ 100 200) namespace
              (after_batch (slice tools_ 0 100) namespace w))) namespace
  = batch_vectors (firstn 200 tools_).
Proof.
  intros Hempty Hnodup. unfold after_batch. cbn [index].
  rewrite !namespace_vectors_after_upsert, Hempty.
  assert (Hsplit : firstn 200 tools_ = (slice tools_ 0 100 ++ slice tools_ 100 200)%list).
  { unfold slice. change 200%nat with (100 + 100)%nat at 1. rewrite firstn_plus. reflexivity. }
  assert (Hids : NoDup (map vec_id (batch_vectors (firstn 200 tools_)))).
  { rewrite batch_vectors_ids. apply nodup_ids_strings.
    rewrite <- (firstn_skipn 200 tools_), map_app in Hnodup.
    eapply NoDup_app_remove_r. exact Hnodup. }
  rewrite Hsplit in Hids |- *. unfold batch_vectors in Hids |- *. rewrite map_app in Hids |- *.
  rewrite (put_vectors_fresh _ []).
  - cbn [app]. rewrite put_vectors_fresh; [reflexivity | exact Hids].
  - cbn [app]. rewrite map_app in Hids. eapply NoDup_app_remove_r. exact Hids.
Qed.

(** C4 (as amended).  For [upsert_tools] over 250 valid tools with batch
    size 100, when the requests of the first two batches are answered and the
    write of the third batch fails: the batches were processed in input
    order (embed, then write, for the tools 0-99, 100-199 and 200-249); the
    failing write is the last request made; the index is the one the writes
    of the first two batches left, which for an empty namespace and distinct
    ids is exactly the 200 records of the first 200 tools; and the caller
    receives a [ToolSearchError] whose kind is chosen by the text of the
    failure.  That error is a message and a kind: no ids are returned. *)
Theorem upsert_tools_third_write_fails (tools_ : list Tool) (namespace : string) (w : world)
  (text : string) :
  List.length tools_ = 250%nat ->
  Forall (fun t => 0 < action_id t) tools_ ->
  let n := List.length (log w) in
  fault n = None -> fault (1 + n) = None -> fault (2 + n) = None ->
  fault (3 + n) = None -> fault (4 + n) = None -> fault (5 + n) = Some text ->
  let c1 := slice tools_ 0 100 in
  let c2 := slice tools_ 100 200 in
  let c3 := slice tools_ 200 300 in
  let final := after_refused_batch c3 namespace
                 (after_batch c2 namespace (after_batch c1 namespace w)) in
  upsert_tools tools_ namespace 100 w
    = (Raise (batch_upsert_handler (PyError KServiceError text)), final)
  /\ log final
     = (log w ++ [EmbedDocuments (batch_texts c1); IndexUpsert namespace (batch_vectors c1);
                  EmbedDocuments (batch_texts c2); IndexUpsert namespace (batch_vectors c2);
                  EmbedDocuments (batch_texts c3); IndexUpsert namespace (batch_vectors c3)])%list
  /\ index final
     = index_after_upsert (index_after_upsert (index w) namespace (batch_vectors c1))
                          namespace (batch_vectors c2)
  /\ (exists message code,
         batch_upsert_handler (PyError KServiceError text) = ToolSearchError message code
         /\ (code = EMBEDDING_ERROR \/ code = PINECONE_ERROR \/ code = BATCH_UPSERT_ERROR))
  /\ (namespace_vectors (index w) namespace = [] ->
      NoDup (map action_id tools_) ->
      namespace_vectors (index final) namespace = batch_vectors (firstn 200 tools_)
      /\ List.length (namespace_vectors (index final) namespace) = 200%nat).
Proof.
  intros Hlen Hvalid n H0 H1 H2 H3 H4 H5 c1 c2 c3 final.
  split; [|split; [|split; [|split]]].
  - rewrite upsert_tools_nonempty by (intros ->; discriminate Hlen).
    unfold try_except.
    unfold bind at 1. rewrite validate_tools_accepts by assumption.
    unfold bind at 1. rewrite Hlen.
    change (lift (py_range0 250 100) w) with (Ok [0%nat; 100%nat; 200%nat], w).
    cbv beta iota.
    change (Z.to_nat 100) with 100%nat.
    cbn [upsert_batches Nat.add]. fold c1 c2 c3.
    unfold bind at 1. rewrite upsert_batch_written by assumption.
    unfold bind at 1.
    rewrite upsert_batch_written by (rewrite log_after_batch; assumption).
    unfold bind at 1.
    rewrite (@upsert_batch_refused c3 namespace _ text)
      by (rewrite !log_after_batch; assumption).
    rewrite reraise_or_result. reflexivity.
  - unfold final, after_refused_batch, after_batch. cbn [log].
    rewrite <- !app_assoc. reflexivity.
  - reflexivity.
  - unfold batch_upsert_handler, classify.
    destruct (contains "embedding" _); [eauto 6|].
    destruct (contains "pinecone" _); eauto 6.
  - intros Hempty Hnodup.
    assert (E : namespace_vectors (index final) namespace = batch_vectors (firstn 200 tools_)).
    { unfold final, after_refused_batch. cbn [index].
      apply two_batches_committed; assumption. }
    split; [exact E|].
    rewrite E. unfold batch_vectors. rewrite length_map, firstn_length_le; [reflexivity | lia].
Qed.
End BatchFailure.

(** ** Runs on concrete services *)

(** 250 tools with the ids [first], [first + 1], ... *)
Definition sample_tools (first : nat) : list Tool := map sample_tool (seq first 250).

(** [upsert_tools] over 250 tools, batch size 100, on an empty index whose
    sixth request (the write of the third batch) fails. *)
Definition failing_run (first : nat) : result (list string) * world :=
  @upsert_tools strict_runtime (failing_at 5 "write failed")
                (sample_tools first) "test" 100 empty_world.

(** The ids of the records a run left in the index. *)
Definition committed_ids (first : nat) : list string :=
  map vec_id (namespace_vectors (index (snd (failing_run first))) "test").

(** C4 (the claim as stated fails).  In that run the first 200 ids are
    committed and the caller receives an error; but the same error is
    received when the tools, and so the committed ids, are others: nothing
    the caller reads from it gives the committed ids. *)
Lemma third_write_failure_reports_no_ids :
  fst (failing_run 1)
    = Raise (ToolSearchError "Failed to upsert tools: write failed" BATCH_UPSERT_ERROR)
  /\ committed_ids 1 = map (fun n => str_of_int (Z.of_nat n)) (seq 1 200)
  /\ ~ (exists report : result (list string) -> list string,
           report (fst (failing_run 1)) = committed_ids 1
           /\ report (fst (failing_run 1001)) = committed_ids 1001).
Proof.
  assert (E1 : fst (failing_run 1)
               = Raise (ToolSearchError "Failed to upsert tools: write failed"
                                        BATCH_UPSERT_ERROR))
    by (vm_compute; reflexivity).
  assert (E2 : fst (failing_run 1001)
               = Raise (ToolSearchError "Failed to upsert tools: write failed"
                                        BATCH_UPSERT_ERROR))
    by (vm_compute; reflexivity).
  split; [exact E1|]. split; [vm_compute; reflexivity|].
  intros (report & H1 & H2). rewrite E1 in H1. rewrite E2, H1 in H2.
  vm_compute in H2. discriminate H2.
Qed.

(** ** Score normalisation *)

(** [clamp(x, lo, hi)]: [lo] up to [lo], [hi] from [hi] on, [x] between. *)
Definition clamp (x lo hi : float) : float :=
  if PrimFloat.leb x lo then lo else if PrimFloat.leb hi x then hi else x.

Lemma compare_with_one (m : positive) (e : Z) :
  SFcompare (S754_finite false 4503599627370496 (-52)) (S754_finite false m e)
  = option_map CompOpp (SFcompare (S754_finite false m e)
                                  (S754_finite false 4503599627370496 (-52))).
Proof.
  cbn [SFcompare option_map]. rewrite (Z.compare_antisym e (-52)).
  destruct (e ?= -52); cbn [CompOpp]; try reflexivity.
  rewrite Pos.compare_cont_antisym. reflexivity.
Qed.

Lemma clamp_of_number (y : float) :
  is_nan y = false -> py_max 0 (py_min 1 y) = clamp y 0 1.
Proof.
  unfold is_nan, py_max, py_min, clamp. rewrite eqb_spec.
  destruct (PrimFloat.ltb y 1) eqn:E1.
  - rewrite !ltb_spec in *. rewrite !leb_spec.
    change (Prim2SF 0) with (S754_zero false) in *.
    change (Prim2SF 1) with (S754_finite false 4503599627370496 (-52)) in *.
    destruct (Prim2SF y) as [s | s | | s m e] eqn:Ey.
    + intros _. reflexivity.
    + intros _. destruct s; [reflexivity | discriminate E1].
    + discriminate.
    + intros _. destruct s; [reflexivity|].
      unfold SFltb, SFleb in *. rewrite compare_with_one.
      cbn [SFcompare option_map] in *.
      destruct (match e ?= -52 with Eq => Pos.compare_cont Eq m 4503599627370496 | Lt => Lt | Gt => Gt end);
        try discriminate E1. reflexivity.
  - change (PrimFloat.ltb 0 1) with true. cbv iota.
    rewrite !ltb_spec in *. rewrite !leb_spec.
    change (Prim2SF 0) with (S754_zero false) in *.
    change (Prim2SF 1) with (S754_finite false 4503599627370496 (-52)) in *.
    destruct (Prim2SF y) as [s | s | | s m e] eqn:Ey.
    + discriminate E1.
    + intros _. destruct s; [discriminate E1 | reflexivity].
    + discriminate.
    + intros _. destruct s; [discriminate E1|].
      unfold SFltb, SFleb in *. rewrite compare_with_one.
      cbn [SFcompare option_map] in *.
      destruct (match e ?= -52 with Eq => Pos.compare_cont Eq m 4503599627370496 | Lt => Lt | Gt => Gt end);
        try discriminate E1; reflexivity.
Qed.

Lemma clamp_of_nan (y : float) :
  is_nan y = true -> py_max 0 (py_min 1 y) = 1%float.
Proof.
  unfold is_nan, py_min. rewrite eqb_spec, (ltb_spec y 1).
  unfold SFeqb, SFltb.
  destruct (Prim2SF y) as [s | s | | s m e]; intros H.
  - discriminate H.
  - destruct s; discriminate H.
  - reflexivity.
  - exfalso. revert H. cbn [SFcompare]. rewrite Z.compare_refl.
    destruct s; rewrite ?Pos.compare_cont_refl; discriminate.
Qed.


Lemma digits2_size (m : positive) : digits2_pos m = Pos.size m.
Proof. induction m; simpl; congruence. Qed.


Lemma below_one_fraction (y : float) (m : positive) (e : Z) :
  Prim2SF y = S754_finite false m e ->
  PrimFloat.ltb y 1 = true ->
  e < 0 /\ Z.pos m < 2 ^ (- e).
Proof.
  intros Ey Hlt. pose proof (Prim2SF_valid y) as Hv. rewrite Ey in Hv.
  rewrite ltb_spec, Ey in Hlt.
  change (Prim2SF 1) with (S754_finite false 4503599627370496 (-52)) in Hlt.
  unfold SFltb in Hlt. cbn [SFcompare] in Hlt.
  unfold SpecFloat.valid_binary, bounded, canonical_mantissa, fexp in Hv.
  apply andb_prop in Hv. destruct Hv as [Hc _]. apply Z.eqb_eq in Hc.
  rewrite digits2_size in Hc.
  pose proof (Pos.size_gt m) as Hs.
  assert (Hm : Z.pos m < 2 ^ Z.pos (Pos.size m)).
  { apply Pos2Z.pos_lt_pos in Hs. rewrite Pos2Z.inj_pow in Hs. exact Hs. }
  remember 4503599627370496%positive as q eqn:Hq.
  destruct (e ?= -52) eqn:Ec.
  - apply Z.compare_eq in Ec. subst e. split; [lia|].
    destruct (Pos.compare_cont Eq m q) eqn:Em; try discriminate Hlt.
    rewrite Pos.compare_cont_spec in Em. cbn [Pos.switch_Eq] in Em. destruct (Pos.compare_spec m q); try discriminate Em.
    change (2 ^ (- -52)) with 4503599627370496. lia.
  - rewrite Z.compare_lt_iff in Ec. split; [lia|].
    assert (Z.pos (Pos.size m) <= - e).
    { unfold emin, SpecFloat.emin, prec, emax in Hc. cbv beta in Hc.
      change IntDef.Z.max with Z.max in Hc. lia. }
    eapply Z.lt_le_trans; [exact Hm|]. apply Z.pow_le_mono_r; lia.
  - discriminate Hlt.
Qed.

Lemma round_half_even_bound (n d : Z) :
  0 < d -> 0 <= n < 10000 * d -> 0 <= round_half_even n d <= 10000.
Proof.
  intros Hd Hn. unfold round_half_even.
  assert (Hq : 0 <= n / d < 10000).
  { split; [apply Z.div_pos; lia | apply Z.div_lt_upper_bound; lia]. }
  destruct (2 * (n mod d) <? d); [lia|].
  destruct (d <? 2 * (n mod d)); [lia|].
  destruct (Z.even (n / d)); lia.
Qed.

(** The float nearest to [k / 10000]. *)
Definition decimal4 (k : positive) : float :=
  SF2Prim (SFdiv prec emax (S754_finite false k 0) (S754_finite false 10000 0)).

Definition in_unit_interval (x : float) : bool :=
  (PrimFloat.leb 0 x && PrimFloat.leb x 1)%bool.

(** [check k] for every [k] from [lo] to [hi], by halving the range. *)
Fixpoint holds_on_range (check : Z -> bool) (fuel : nat) (lo hi : Z) : bool :=
  match fuel with
  | O => hi <? lo
  | S fuel' =>
      if hi <? lo then true
      else if lo =? hi then check lo
      else
        let mid := (lo + hi) / 2 in
        (holds_on_range check fuel' lo mid && holds_on_range check fuel' (mid + 1) hi)%bool
  end.

Lemma holds_on_range_spec (check : Z -> bool) (fuel : nat) :
  forall lo hi k,
    holds_on_range check fuel lo hi = true -> lo <= k <= hi -> check k = true.
Proof.
  induction fuel as [|fuel IH]; intros lo hi k H Hk; simpl in H.
  - apply Z.ltb_lt in H. lia.
  - destruct (hi <? lo) eqn:E1; [apply Z.ltb_lt in E1; lia|].
    destruct (lo =? hi) eqn:E2.
    + apply Z.eqb_eq in E2. replace k with lo by lia. exact H.
    + apply andb_prop in H. destruct H as [Ha Hb].
      destruct (Z_le_gt_dec k ((lo + hi) / 2)).
      * apply (IH _ _ _ Ha). lia.
      * apply (IH _ _ _ Hb). lia.
Qed.

Definition decimal_checked (k : Z) : bool := in_unit_interval (decimal4 (Z.to_pos k)).

Lemma decimals_in_unit_interval : holds_on_range decimal_checked 20 1 10000 = true.
Proof. vm_compute. reflexivity. Qed.

Lemma decimal4_in_unit_interval (k : positive) :
  Z.pos k <= 10000 -> in_unit_interval (decimal4 k) = true.
Proof.
  intros Hk.
  apply (@holds_on_range_spec decimal_checked 20 1 10000 (Z.pos k) decimals_in_unit_interval).
  lia.
Qed.

Lemma round4_in_unit_interval (c : float) :
  c = 0%float \/ c = 1%float \/ (PrimFloat.ltb 0 c = true /\ PrimFloat.ltb c 1 = true) ->
  in_unit_interval (round4 c) = true.
Proof.
  intros [-> | [-> | [H0 H1]]]; [vm_compute; reflexivity | vm_compute; reflexivity |].
  unfold round4. destruct (Prim2SF c) as [s | s | | s m e] eqn:Ec.
  - rewrite ltb_spec, Ec in H0. discriminate H0.
  - rewrite ltb_spec, Ec in H1. rewrite ltb_spec, Ec in H0.
    destruct s; [discriminate H0 | discriminate H1].
  - rewrite ltb_spec, Ec in H0. discriminate H0.
  - destruct s.
    { rewrite ltb_spec, Ec in H0. discriminate H0. }
    destruct (below_one_fraction Ec H1) as [He Hm].
    assert (Hneg : (0 <=? e) = false) by (apply Z.leb_gt; exact He).
    rewrite Hneg.
    assert (Hpow : 0 < 2 ^ (- e)) by (apply Z.pow_pos_nonneg; lia).
    assert (Hb : 0 <= round_half_even (Z.pos m * 10000) (2 ^ (- e)) <= 10000).
    { apply round_half_even_bound; [exact Hpow|]. lia. }
    destruct (round_half_even (Z.pos m * 10000) (2 ^ (- e))) as [|k|k].
    + vm_compute; reflexivity.
    + fold (decimal4 k). apply decimal4_in_unit_interval. lia.
    + lia.
Qed.

Lemma clamped_cases (y : float) :
  let c := py_max 0 (py_min 1 y) in
  c = 0%float \/ c = 1%float \/ (PrimFloat.ltb 0 c = true /\ PrimFloat.ltb c 1 = true).
Proof.
  unfold py_max, py_min. destruct (PrimFloat.ltb y 1) eqn:E1.
  - destruct (PrimFloat.ltb 0 y) eqn:E0; [right; right; split; assumption | left; reflexivity].
  - right. left. reflexivity.
Qed.

(** The normalisation in the words of the specification. *)
Definition normalized_similarity (raw : float) : float :=
  round4 (clamp (PrimFloat.div (PrimFloat.add raw 1) 2) 0 1).

(** C7.  Score normalisation is [clamp((raw + 1) / 2, 0, 1)] rounded to four
    decimal places, for every raw value whose normalised value is a number
    (for NaN, which is no similarity, the code returns 1.0): raw 1.0 gives
    1.0, raw -1.0 gives 0.0, raw 0.0 gives 0.5, and every input, those
    outside [-1, 1] included, gives a score in [0, 1]. *)
Theorem score_normalization :
  _convert_distance_to_similarity 1 = 1%float
  /\ _convert_distance_to_similarity (-1) = 0%float
  /\ _convert_distance_to_similarity 0 = 0.5%float
  /\ _convert_distance_to_similarity 2 = 1%float
  /\ _convert_distance_to_similarity (-3) = 0%float
  /\ (forall raw : float,
         _convert_distance_to_similarity raw
         = if is_nan (PrimFloat.div (PrimFloat.add raw 1) 2) then 1%float
           else normalized_similarity raw)
  /\ (forall raw : float, in_unit_interval (_convert_distance_to_similarity raw) = true).
Proof.
  repeat split; try (vm_compute; reflexivity).
  - intros raw. unfold _convert_distance_to_similarity, normalized_similarity.
    destruct (is_nan (PrimFloat.div (PrimFloat.add raw 1) 2)) eqn:E.
    + rewrite (clamp_of_nan _ E). vm_compute. reflexivity.
    + rewrite (clamp_of_number _ E). reflexivity.
  - intros raw. unfold _convert_distance_to_similarity.
    apply round4_in_unit_interval. apply clamped_cases.
Qed.

(** ** The statements at concrete inputs *)

(** A tool with a non-positive id. *)
Definition invalid_tool : Tool := sample_tool 0.

(** The tool with id 0, alone and after a valid tool, on the empty index. *)
Lemma upsert_rejects_nonpositive_action_id_witness :
  action_id invalid_tool <= 0
  /\ @upsert_tool strict_runtime steady_services invalid_tool "test" empty_world
     = (Raise (ToolSearchError "Invalid action_id" VALIDATION_ERROR), empty_world)
  /\ exists text,
       @upsert_tools strict_runtime steady_services [sample_tool 1; invalid_tool] "test" 100
                     empty_world
       = (Raise (ToolSearchError text VALIDATION_ERROR), empty_world).
Proof.
  assert (H : action_id invalid_tool <= 0) by (vm_compute; discriminate).
  split; [exact H|].
  destruct (@upsert_rejects_nonpositive_action_id strict_runtime steady_services) as [H1 H2].
  split.
  - apply H1. exact H.
  - apply H2. apply Exists_cons_tl. apply Exists_cons_hd. exact H.
Defined.

(** The ids -1 and 0 on the empty index. *)
Lemma reads_reject_nonpositive_id_witness :
  @get_tool_by_id strict_runtime steady_services (-1) "test" empty_world
    = (Raise (ToolSearchError "Invalid action_id" VALIDATION_ERROR), empty_world)
  /\ @get_toolkit_tools strict_runtime steady_services default_provider 0 "test" empty_world
     = (Raise (ToolSearchError "Invalid toolkit_id" VALIDATION_ERROR), empty_world).
Proof.
  destruct (@reads_reject_nonpositive_id strict_runtime steady_services default_provider)
    as [H1 H2].
  split.
  - apply H1. discriminate.
  - apply H2. discriminate.
Defined.

(** A record whose [parameters] entry is a text that is not JSON, and one
    whose entry is the text of a parameter object followed by a number. *)
Lemma metadata_round_trip_witness :
  @JsonDecoder.loads strict_runtime "not json"
    = Raise (PyError KJSONDecodeError "Expecting value")
  /\ @metadata_to_tool strict_runtime
       (Dict.set (@build_tool_metadata strict_runtime (sample_tool 1)) "parameters"
                 (PStr "not json"))
     = Ok (without_parameters (sample_tool 1))
  /\ @metadata_to_tool strict_runtime
       (Dict.set (@build_tool_metadata strict_runtime (sample_tool 1)) "parameters"
                 (@half_valid_text strict_runtime))
     = Ok (with_parameters (sample_tool 1) [address_parameter]).
Proof.
  assert (H : @JsonDecoder.loads strict_runtime "not json"
              = Raise (PyError KJSONDecodeError "Expecting value")) by reflexivity.
  split; [exact H|]. split.
  - exact (proj1 (proj2 (proj2 (@metadata_round_trip strict_runtime))) (sample_tool 1) _ _ H).
  - exact (proj2 (proj2 (proj2 (@metadata_round_trip strict_runtime))) (sample_tool 1)).
Defined.

(** The index after the toolkit of the tools 1001 and 1002 was written. *)
Definition two_tool_world : world :=
  snd (@upsert_tools strict_runtime steady_services
                     [sample_tool 1001; sample_tool 1002] "test" 100 empty_world).

Definition toolkit_filter_request : ToolSearchRequest :=
  {| query := ""; top_k := 5; filters := Some [("toolkit_id", PList [PInt 79])] |}.

(** The filter-only query for toolkit 79 returns both tools, in index order,
    each with score 1.0. *)
Lemma filter_only_query_scores_one_witness :
  exists outcome w',
    @query_tools strict_runtime steady_services default_provider toolkit_filter_request
                 "test" two_tool_world = (outcome, w')
    /\ (exists r1 r2,
           outcome = Ok [r1; r2]
           /\ resp_action_id r1 = 1001 /\ resp_action_id r2 = 1002
           /\ score r1 = 1%float /\ score r2 = 1%float).
Proof.
  destruct (@filter_only_query_scores_one strict_runtime steady_services default_provider
              toolkit_filter_request "test" two_tool_world)
    as (outcome & w' & Hrun & _ & _ & Hscores & _).
  - reflexivity.
  - discriminate.
  - discriminate.
  - exists outcome, w'. split; [exact Hrun|].
    assert (E : fst (@query_tools strict_runtime steady_services default_provider
                       toolkit_filter_request "test" two_tool_world) = outcome)
      by (rewrite Hrun; reflexivity).
    vm_compute in E. subst outcome.
    do 2 eexists. split; [reflexivity|].
    destruct (Hscores _ eq_refl) as [Hall _].
    inversion Hall as [|? ? H1 Hrest]; subst. inversion Hrest as [|? ? H2 _]; subst.
    repeat split; try reflexivity; assumption.
Defined.

(** The 150 tools of toolkit 79 with the ids 1 to 150. *)
Definition toolkit_tools_150 : list Tool := map sample_tool (seq 1 150).

(** The index after those tools were written, in two batches. *)
Definition large_toolkit_world : world :=
  snd (@upsert_tools strict_runtime steady_services toolkit_tools_150 "test" 100 empty_world).

Lemma large_toolkit_world_encoded :
  @holds_encoded_tools strict_runtime large_toolkit_world "test".
Proof.
  unfold holds_encoded_tools.
  assert (E : namespace_vectors (index large_toolkit_world) "test"
              = @batch_vectors strict_runtime steady_services toolkit_tools_150)
    by (vm_compute; reflexivity).
  rewrite E. unfold batch_vectors. apply Forall_forall. intros v Hin.
  apply in_map_iff in Hin. destruct Hin as (t & <- & _). exists t. reflexivity.
Qed.

(** Fetching a toolkit with 150 stored tools returns at most 100 of them. *)
Lemma get_toolkit_tools_bounded_query_witness :
  Z.of_nat (List.length (namespace_vectors (index large_toolkit_world) "test")) = 150
  /\ exists tools_ w2,
       @get_toolkit_tools strict_runtime steady_services default_provider 79 "test"
                          large_toolkit_world = (Ok tools_, w2)
       /\ (List.length tools_ <= 100)%nat.
Proof.
  assert (Hcount : Z.of_nat (List.length (namespace_vectors (index large_toolkit_world) "test"))
                   = 150) by (vm_compute; reflexivity).
  split; [exact Hcount|].
  destruct (@get_toolkit_tools_bounded_query strict_runtime steady_services default_provider
              79 "test" large_toolkit_world) as [_ H].
  - reflexivity.
  - reflexivity.
  - destruct H as (probe & outcome & w2 & Hrun & _ & _ & _ & _ & Hreturns).
    + rewrite Hcount. discriminate.
    + discriminate.
    + destruct Hreturns as (tools_ & -> & Hlen).
      * reflexivity.
      * intros v l x Hin. exact Hin.
      * exact large_toolkit_world_encoded.
      * exists tools_, w2. split; [exact Hrun | exact Hlen].
Defined.

Lemma sample_tools_valid (first : nat) :
  Forall (fun t => 0 < action_id t) (sample_tools (S first)).
Proof.
  unfold sample_tools. apply Forall_forall. intros t Hin.
  apply in_map_iff in Hin. destruct Hin as (n & <- & Hn). apply in_seq in Hn.
  unfold sample_tool. cbn [action_id]. lia.
Qed.

Lemma sample_tools_distinct (first : nat) : NoDup (map action_id (sample_tools first)).
Proof.
  unfold sample_tools. rewrite map_map. cbn [sample_tool action_id].
  generalize (seq_NoDup 250 first). generalize (seq first 250).
  induction 1 as [|n l Hn Hl IH]; simpl; constructor; [|exact IH].
  intros Hin. apply in_map_iff in Hin. destruct Hin as (k & Hk & Hin).
  apply Nat2Z.inj in Hk. subst k. contradiction.
Qed.

(** The run over the tools 1 to 250: six requests, 200 records, an error. *)
Lemma upsert_tools_third_write_fails_witness :
  let final := snd (failing_run 1) in
  fst (failing_run 1)
    = Raise (@batch_upsert_handler (PyError KServiceError "write failed"))
  /\ List.length (log final) = 6%nat
  /\ List.length (namespace_vectors (index final) "test") = 200%nat.
Proof.
  destruct (@upsert_tools_third_write_fails strict_runtime (failing_at 5 "write failed")
              (sample_tools 1) "test" empty_world "write failed")
    as (Hrun & Hlog & _ & _ & Hcommitted); try reflexivity.
  - apply sample_tools_valid.
  - unfold failing_run. rewrite Hrun. cbn [fst snd]. split; [reflexivity|]. split.
    + rewrite Hlog. reflexivity.
    + apply Hcommitted; [reflexivity | apply sample_tools_distinct].
Defined.

(** * Further properties of the code *)

(** ** Filter translator: further properties *)

(** The conjunction of the membership clauses for [a] and [b]. *)
Definition requires_both (a b : pyval) : string * pyval :=
  ("$and", PList [PDict [requires_param a]; PDict [requires_param b]]).

Lemma add_two_required_params (pf : dict) (a b : pyval) :
  Dict.mem pf "required_params" = false ->
  add_required_param (add_required_param pf a) b = [requires_both a b].
Proof.
  intros H. unfold add_required_param at 2. rewrite H. cbn [negb].
  unfold add_required_param, Dict.mem, py_get.
  rewrite DictFacts.get_set_same. reflexivity.
Qed.

Lemma fold_required_params_even (prefix : list pyval) :
  forall pf,
    Dict.mem pf "required_params" = false ->
    Nat.even (List.length prefix) = true ->
    Dict.mem (fold_left add_required_param prefix pf) "required_params" = false.
Proof.
  induction prefix as [prefix IH] using (well_founded_induction
    (Wf_nat.well_founded_ltof _ (@List.length pyval))).
  intros pf Hpf Heven. destruct prefix as [|a [|b rest]]; [exact Hpf | discriminate Heven|].
  cbn [fold_left]. rewrite add_two_required_params by exact Hpf.
  apply IH; [unfold Wf_nat.ltof; simpl; lia | reflexivity | exact Heven].
Qed.

(** The state in which the translation enters the loop over
    [required_params]. *)
Definition membership_part (filters : dict) : dict :=
  add_membership filters "chain" "chain"
    (add_membership filters "toolkit_id" "toolkit_id"
       (add_membership filters "toolkit" "toolkit_name"
          (add_membership filters "tool_name" "tool_name" []))).

Lemma membership_part_no_required_params (filters : dict) :
  Dict.mem (membership_part filters) "required_params" = false.
Proof.
  unfold membership_part, add_membership.
  destruct (truthy (py_get filters "tool_name")); destruct (truthy (py_get filters "toolkit"));
    destruct (truthy (py_get filters "toolkit_id")); destruct (truthy (py_get filters "chain"));
    reflexivity.
Qed.

(** X3.  A [required_params] list of two or more elements: after an even number
    of elements the filter is only the conjunction of the last two; the
    element after that is added beside it.  Every clause built before,
    for the other keys and for the earlier elements, is dropped. *)
Theorem build_filter_required_params_keeps_last (filters : dict) (prefix : list pyval)
  (a b : pyval) :
  Nat.even (List.length prefix) = true ->
  (py_get filters "required_params" = PList (prefix ++ [a; b]) ->
   _build_pinecone_filter filters = [requires_both a b])
  /\ (forall c,
         py_get filters "required_params" = PList (prefix ++ [a; b; c]) ->
         _build_pinecone_filter filters = [requires_both a b; requires_param c]).
Proof.
  intros Heven.
  assert (Hstate : Dict.mem (fold_left add_required_param prefix (membership_part filters))
                            "required_params" = false).
  { apply fold_required_params_even; [apply membership_part_no_required_params | exact Heven]. }
  assert (Hne : forall l, py_get filters "required_params" = PList (prefix ++ a :: l) ->
                          _build_pinecone_filter filters
                          = fold_left add_required_param (prefix ++ a :: l)
                                      (membership_part filters)).
  { intros l H. destruct filters as [|kv rest].
    - destruct prefix; discriminate H.
    - unfold _build_pinecone_filter, add_required_params. rewrite H.
      destruct prefix; reflexivity. }
  split.
  - intros H. rewrite (Hne _ H), fold_left_app. cbn [fold_left].
    apply add_two_required_params. exact Hstate.
  - intros c H. rewrite (Hne _ H), fold_left_app. cbn [fold_left].
    rewrite (@add_two_required_params _ a b Hstate). reflexivity.
Qed.

(** X2.  A filter map without a truthy value under a translated key, whatever
    else it holds ([name_prefix], unknown keys), translates to the empty
    filter. *)
Theorem build_filter_ignores_other_keys (filters : dict) :
  (forall k, In k ["tool_name"; "toolkit"; "toolkit_id"; "chain"; "required_params"] ->
             truthy (py_get filters k) = false) ->
  _build_pinecone_filter filters = [].
Proof.
  intros H. destruct filters as [|kv rest]; [reflexivity|].
  unfold _build_pinecone_filter, add_membership, add_required_params.
  rewrite !H by (simpl; tauto). reflexivity.
Qed.

Section MorePostFilter.
Context {rt : PyRuntime}.

(** The tool name a match carries, when it is a string. *)
Definition match_tool_name (m : scored_match) : string :=
  match py_get_default (match_metadata m) "tool_name" (PStr "") with
  | PStr n => n
  | _ => ""
  end.

(** The tool name of the match is a string, or is missing. *)
Definition has_string_name (m : scored_match) : Prop :=
  exists n, py_get_default (match_metadata m) "tool_name" (PStr "") = PStr n.

Lemma post_filter_loop_all_kept (filters_ : dict) (results : list scored_match) :
  truthy (py_get filters_ "name_prefix") = false ->
  forall acc, post_filter_loop filters_ results acc = Ok (acc ++ results)%list.
Proof.
  intros H. induction results as [|m ms IH]; intros acc; simpl.
  - now rewrite app_nil_r.
  - unfold post_filter_keeps. rewrite H. rewrite IH, <- app_assoc. reflexivity.
Qed.

Lemma post_filter_loop_prefix (filters_ : dict) (p : string) (results : list scored_match) :
  py_get filters_ "name_prefix" = PStr p ->
  p <> "" ->
  Forall has_string_name results ->
  forall acc,
    post_filter_loop filters_ results acc
    = Ok (acc ++ filter (fun m => startswith (match_tool_name m) p) results)%list.
Proof.
  intros Hp Hne. induction 1 as [|m ms [n Hn] Hms IH]; intros acc; simpl.
  - now rewrite app_nil_r.
  - unfold post_filter_keeps, match_tool_name. rewrite Hp, Hn.
    assert (Ht : truthy (PStr p) = true).
    { simpl. destruct (String.eqb p "") eqn:E; [apply String.eqb_eq in E; contradiction|].
      reflexivity. }
    rewrite Ht, IH. destruct (startswith n p); [rewrite <- app_assoc|]; reflexivity.
Qed.

(** X4.  Post-filtering: without a [name_prefix] the matches are returned as they
    are; with a prefix, and string tool names, exactly the matches whose
    [tool_name] starts with it are returned, in their order. *)
Theorem apply_post_filters_name_prefix (filters_ : dict) (results : list scored_match) :
  (truthy (py_get filters_ "name_prefix") = false ->
   _apply_post_filters results filters_ = Ok results)
  /\ (forall p,
         py_get filters_ "name_prefix" = PStr p ->
         p <> "" ->
         Forall has_string_name results ->
         _apply_post_filters results filters_
         = Ok (filter (fun m => startswith (match_tool_name m) p) results)).
Proof.
  split.
  - intros H. unfold _apply_post_filters. destruct filters_; [reflexivity|].
    now rewrite post_filter_loop_all_kept.
  - intros p Hp Hne Hall. unfold _apply_post_filters.
    destruct filters_ as [|kv d]; [discriminate Hp|].
    now rewrite (post_filter_loop_prefix _ Hp Hne Hall).
Qed.
End MorePostFilter.

Section MoreParameterDecoding.
Context {rt : PyRuntime}.

(** The parameters of the entries up to the first one that is no valid
    parameter object. *)
Fixpoint valid_prefix (items : list pyval) : list ToolParameter :=
  match items with
  | [] => []
  | x :: rest =>
      match new_ToolParameter x with
      | Ok p => p :: valid_prefix rest
      | Raise _ => []
      end
  end.

Lemma append_parameters_valid_prefix (items : list pyval) :
  forall acc, fst (append_parameters items acc) = (acc ++ valid_prefix items)%list.
Proof.
  induction items as [|x items IH]; intros acc; simpl.
  - now rewrite app_nil_r.
  - destruct (new_ToolParameter x).
    + rewrite IH, <- app_assoc. reflexivity.
    + simpl. now rewrite app_nil_r.
Qed.

Lemma parse_items_valid_prefix (items : list pyval) :
  (let (parameters, c) := append_parameters items [] in
   match c with
   | Completed => Ok parameters
   | Returned v => Ok v
   | Raised e => if parse_handles e then Ok parameters else Raise e
   end) = Ok (valid_prefix items).
Proof.
  pose proof (append_parameters_valid_prefix items []) as H.
  destruct (append_parameters items []) as [out c] eqn:E. simpl in H. subst out.
  destruct c.
  - reflexivity.
  - exfalso. exact (append_parameters_never_returns _ _ E).
  - rewrite (append_parameters_raises_handled _ _ E). reflexivity.
Qed.

(** X5.  Decoding a list, or a text that is the JSON of a list, returns the
    parameters of the entries before the first invalid one: all of them when
    every entry is valid, none when the first is not. *)
Theorem parse_tool_parameters_valid_prefix (items : list pyval) :
  parse_tool_parameters (PList items) = Ok (valid_prefix items)
  /\ (forall s, JsonDecoder.loads s = Ok (PList items) ->
                parse_tool_parameters (PStr s) = Ok (valid_prefix items)).
Proof.
  split.
  - unfold parse_tool_parameters, parse_body. destruct items as [|x l]; [reflexivity|].
    cbn [truthy negb py_iter]. apply parse_items_valid_prefix.
  - intros s H. unfold parse_tool_parameters, parse_body.
    destruct s as [|c s']; [discriminate H|].
    cbn [truthy String.eqb negb]. rewrite H. cbn [py_iter].
    apply parse_items_valid_prefix.
Qed.
End MoreParameterDecoding.

(** ** Metadata with missing fields *)

Section MetadataDefaults.
Context {rt : PyRuntime}.

(** The fields [metadata_to_tool] reads with a default, and the defaults. *)
Definition metadata_defaults : list (string * pyval) :=
  [("action_id", PInt 0); ("toolkit_id", PInt 0); ("tool_name", PStr "");
   ("description", PStr ""); ("toolkit_name", PStr "")].

Lemma get_app_entry (d : dict) (k k' : string) (v : pyval) :
  Dict.get (d ++ [(k, v)])%list k'
  = match Dict.get d k' with
    | Some x => Some x
    | None => if String.eqb k' k then Some v else None
    end.
Proof.
  induction d as [|[k0 v0] d IH]; simpl; [reflexivity|].
  destruct (String.eqb k' k0); [reflexivity | exact IH].
Qed.

(** X6.  A record without one of the fields [action_id], [toolkit_id],
    [tool_name], [description], [toolkit_name] decodes like the record with
    that field at its default (0 for the ids, the empty text for the others);
    a record without [parameters] decodes to a tool without parameters. *)
Theorem metadata_to_tool_defaults (metadata : dict) (k : string) (v : pyval) :
  In (k, v) metadata_defaults ->
  Dict.get metadata k = None ->
  metadata_to_tool (metadata ++ [(k, v)])%list = metadata_to_tool metadata
  /\ (Dict.get metadata "parameters" = None ->
      forall tool, metadata_to_tool metadata = Ok tool -> parameters tool = []).
Proof.
  intros Hin Hnone. split.
  - unfold metadata_to_tool, py_get, py_get_default. rewrite !get_app_entry.
    unfold metadata_defaults in Hin.
    destruct Hin as [E|[E|[E|[E|[E|[]]]]]]; injection E as <- <-; rewrite Hnone;
      cbn [String.eqb Ascii.eqb Bool.eqb];
      repeat match goal with
             | |- context [Dict.get metadata ?key] => destruct (Dict.get metadata key)
             end; reflexivity.
  - intros Hp tool. unfold metadata_to_tool, py_get. rewrite Hp.
    change (parse_tool_parameters PNone) with (@Ok (list ToolParameter) []).
    cbn [rbind]. unfold new_Tool.
    repeat match goal with
           | |- context [match ?x with Some _ => _ | None => _ end] => destruct x
           end; intros H; try discriminate H; injection H as <-; reflexivity.
Qed.
End MetadataDefaults.

(** ** Records by id *)

(** The first record with the id [id]. *)
Definition lookup (vs : list stored_vector) (id : string) : option stored_vector :=
  find (fun v => String.eqb (vec_id v) id) vs.

(** The ids of the records of a namespace are distinct. *)
Definition unique_ids (idx : Dict.t (list stored_vector)) (namespace : string) : Prop :=
  NoDup (map vec_id (namespace_vectors idx namespace)).

Lemma find_first_app {A} (p : A -> bool) (l1 l2 : list A) :
  find p (l1 ++ l2)%list = match find p l1 with Some x => Some x | None => find p l2 end.
Proof.
  induction l1 as [|x l1 IH]; simpl; [reflexivity|]. destruct (p x); [reflexivity | exact IH].
Qed.

Lemma lookup_app (l1 l2 : list stored_vector) (id : string) :
  lookup (l1 ++ l2) id = match lookup l1 id with Some v => Some v | None => lookup l2 id end.
Proof. apply find_first_app. Qed.

Lemma lookup_none (vs : list stored_vector) (id : string) :
  lookup vs id = None <-> ~ In id (map vec_id vs).
Proof.
  unfold lookup. induction vs as [|v vs IH]; simpl; [tauto|].
  destruct (String.eqb (vec_id v) id) eqn:E.
  - apply String.eqb_eq in E. split; [discriminate | tauto].
  - apply String.eqb_neq in E. rewrite IH. tauto.
Qed.

Lemma lookup_put_same (vs : list stored_vector) (v : stored_vector) :
  lookup (put_vector vs v) (vec_id v) = Some v.
Proof.
  unfold lookup. induction vs as [|u vs IH]; simpl.
  - now rewrite String.eqb_refl.
  - destruct (String.eqb (vec_id u) (vec_id v)) eqn:E; simpl.
    + now rewrite String.eqb_refl.
    + now rewrite E.
Qed.

Lemma lookup_put_other (vs : list stored_vector) (v : stored_vector) (id : string) :
  vec_id v <> id -> lookup (put_vector vs v) id = lookup vs id.
Proof.
  unfold lookup. intros Hne. apply String.eqb_neq in Hne.
  induction vs as [|u vs IH]; simpl.
  - now rewrite Hne.
  - destruct (String.eqb (vec_id u) (vec_id v)) eqn:E; simpl.
    + apply String.eqb_eq in E. rewrite E, Hne. reflexivity.
    + destruct (String.eqb (vec_id u) id); [reflexivity | exact IH].
Qed.

Lemma put_vector_ids (vs : list stored_vector) (v : stored_vector) :
  map vec_id (put_vector vs v)
  = if existsb (String.eqb (vec_id v)) (map vec_id vs) then map vec_id vs
    else (map vec_id vs ++ [vec_id v])%list.
Proof.
  induction vs as [|u vs IH]; simpl; [reflexivity|].
  rewrite (String.eqb_sym (vec_id v) (vec_id u)).
  destruct (String.eqb (vec_id u) (vec_id v)) eqn:E; simpl.
  - apply String.eqb_eq in E. now rewrite E.
  - rewrite IH. destruct (existsb _ _); reflexivity.
Qed.

Lemma existsb_eqb_in (id : string) (ids : list string) :
  existsb (String.eqb id) ids = true <-> In id ids.
Proof.
  rewrite existsb_exists. split.
  - intros (x & Hx & E). apply String.eqb_eq in E. now subst.
  - intros H. exists id. split; [exact H | apply String.eqb_refl].
Qed.

Lemma put_vector_unique (vs : list stored_vector) (v : stored_vector) :
  NoDup (map vec_id vs) -> NoDup (map vec_id (put_vector vs v)).
Proof.
  intros H. rewrite put_vector_ids.
  destruct (existsb (String.eqb (vec_id v)) (map vec_id vs)) eqn:E; [exact H|].
  apply NoDup_app; [exact H | repeat constructor; simpl; tauto|].
  intros x Hx [<-|[]]. apply existsb_eqb_in in Hx. congruence.
Qed.

Lemma put_vectors_unique (batch vs : list stored_vector) :
  NoDup (map vec_id vs) -> NoDup (map vec_id (fold_left put_vector batch vs)).
Proof.
  revert vs. induction batch as [|v batch IH]; intros vs H; simpl; [exact H|].
  apply IH. now apply put_vector_unique.
Qed.

(** A batch of writes: the last record written under an id is the one
    stored; the other ids keep their records. *)
Lemma lookup_put_vectors (batch vs : list stored_vector) (id : string) :
  lookup (fold_left put_vector batch vs) id
  = match lookup (rev batch) id with
    | Some v => Some v
    | None => lookup vs id
    end.
Proof.
  revert vs. induction batch as [|v batch IH]; intros vs; simpl; [reflexivity|].
  rewrite IH, lookup_app.
  destruct (lookup (rev batch) id); [reflexivity|]. unfold lookup at 2. simpl.
  destruct (String.eqb (vec_id v) id) eqn:E.
  - apply String.eqb_eq in E. subst id. apply lookup_put_same.
  - apply String.eqb_neq in E. now apply lookup_put_other.
Qed.

Lemma lookup_unique_rev (vs : list stored_vector) (id : string) :
  NoDup (map vec_id vs) -> lookup (rev vs) id = lookup vs id.
Proof.
  induction vs as [|v vs IH]; simpl; intros H; [reflexivity|].
  inversion H as [|? ? Hn Hvs]; subst.
  rewrite lookup_app, IH by exact Hvs. unfold lookup at 2 3. simpl.
  destruct (String.eqb (vec_id v) id) eqn:E.
  - apply String.eqb_eq in E. subst id.
    apply (lookup_none vs) in Hn. now rewrite Hn.
  - fold (lookup vs id). destruct (lookup vs id); reflexivity.
Qed.

Lemma lookup_filter_deleted (vs : list stored_vector) (ids : list string) (id : string) :
  lookup (filter (fun v => negb (existsb (String.eqb (vec_id v)) ids)) vs) id
  = if existsb (String.eqb id) ids then None else lookup vs id.
Proof.
  unfold lookup. induction vs as [|v vs IH]; simpl.
  - now destruct (existsb _ ids).
  - destruct (String.eqb (vec_id v) id) eqn:E.
    + apply String.eqb_eq in E. subst id.
      destruct (existsb (String.eqb (vec_id v)) ids) eqn:Ed; simpl.
      * rewrite IH. reflexivity.
      * now rewrite String.eqb_refl.
    + destruct (existsb (String.eqb (vec_id v)) ids) eqn:Ed; simpl.
      * exact IH.
      * rewrite E. exact IH.
Qed.

Lemma filter_deleted_unique (vs : list stored_vector) (ids : list string) :
  NoDup (map vec_id vs) ->
  NoDup (map vec_id (filter (fun v => negb (existsb (String.eqb (vec_id v)) ids)) vs)).
Proof.
  induction vs as [|v vs IH]; simpl; intros H; [constructor|].
  inversion H as [|? ? Hn Hvs]; subst.
  destruct (negb _); simpl; [|auto].
  constructor; [|auto]. intros Hin. apply Hn.
  apply in_map_iff in Hin. destruct Hin as (u & Hu & Hin). apply filter_In in Hin.
  apply in_map_iff. exists u. tauto.
Qed.

(** What a fetch of one id finds: the last record with that id, which is the
    only one when ids are distinct. *)
Lemma fetch_fold (vs : list stored_vector) (id : string) :
  forall found,
    Dict.get (fold_left (fun found v =>
                           if existsb (String.eqb (vec_id v)) [id]
                           then Dict.set found (vec_id v) v else found) vs found) id
    = match lookup (rev vs) id with
      | Some v => Some v
      | None => Dict.get found id
      end.
Proof.
  induction vs as [|v vs IH]; intros found; simpl; [reflexivity|].
  rewrite IH, lookup_app.
  destruct (lookup (rev vs) id); [reflexivity|]. unfold lookup. simpl. rewrite orb_false_r.
  destruct (String.eqb (vec_id v) id) eqn:E; [|reflexivity].
  apply String.eqb_eq in E. subst id. apply DictFacts.get_set_same.
Qed.

Lemma fetch_one (idx : Dict.t (list stored_vector)) (namespace id : string) :
  unique_ids idx namespace ->
  Dict.get (index_fetch idx namespace [id]) id = lookup (namespace_vectors idx namespace) id.
Proof.
  intros H. unfold index_fetch. rewrite fetch_fold. cbn [Dict.get].
  rewrite lookup_unique_rev by exact H. now destruct (lookup _ id).
Qed.

Lemma namespace_vectors_set_same (idx : Dict.t (list stored_vector)) (namespace : string)
  (vs : list stored_vector) :
  namespace_vectors (Dict.set idx namespace vs) namespace = vs.
Proof. unfold namespace_vectors. now rewrite DictFacts.get_set_same. Qed.

Lemma namespace_vectors_set_other (idx : Dict.t (list stored_vector)) (namespace other : string)
  (vs : list stored_vector) :
  other <> namespace ->
  namespace_vectors (Dict.set idx namespace vs) other = namespace_vectors idx other.
Proof. intros H. unfold namespace_vectors. now rewrite DictFacts.get_set_other. Qed.

Lemma namespace_vectors_after_delete (idx : Dict.t (list stored_vector)) (namespace : string)
  (ids : list string) :
  namespace_vectors (index_after_delete idx namespace ids) namespace
  = filter (fun v => negb (existsb (String.eqb (vec_id v)) ids)) (namespace_vectors idx namespace).
Proof.
  unfold index_after_delete. destruct (Dict.get idx namespace) as [vs|] eqn:E.
  - rewrite namespace_vectors_set_same. unfold namespace_vectors. now rewrite E.
  - unfold namespace_vectors. now rewrite E.
Qed.

(** ** Single tools: write, read, delete *)

Section SingleTool.
Context {rt : PyRuntime} {sv : Services}.

(** The record [upsert_tool] writes for a tool. *)
Definition tool_record (tool : Tool) : stored_vector :=
  {| vec_id := str_of_int (action_id tool);
     vec_values := embed (_create_embedding_text tool);
     vec_metadata := build_tool_metadata tool |}.

(** The state after [upsert_tool] embedded and wrote a tool. *)
Definition after_upsert (tool : Tool) (namespace : string) (w : world) : world :=
  {| index := index_after_upsert (index w) namespace [tool_record tool];
     log := (log w ++ [EmbedQuery (_create_embedding_text tool);
                       IndexUpsert namespace [tool_record tool]])%list;
     drawn := drawn w |}.

Lemma length_log_call (w : world) (c : call) :
  List.length (log w ++ [c]) = S (List.length (log w)).
Proof. rewrite length_app. simpl. lia. Qed.

Lemma upsert_tool_written (tool : Tool) (namespace : string) (w : world) :
  0 < action_id tool ->
  fault (List.length (log w)) = None ->
  fault (S (List.length (log w))) = None ->
  upsert_tool tool namespace w
  = (Ok (str_of_int (action_id tool)), after_upsert tool namespace w).
Proof.
  intros Hid H0 H1.
  assert (Hpos : (action_id tool <=? 0) = false) by (apply Z.leb_gt; lia).
  unfold upsert_tool, try_except. rewrite Hpos.
  unfold bind, embed_query, index_upsert, request. rewrite H0.
  cbn [log record_call]. rewrite length_log_call, H1.
  unfold after_upsert, tool_record, ret, set_index, record_call. cbn [index log drawn].
  rewrite <- app_assoc. reflexivity.
Qed.

Definition fetch_error (e : exn) : exn :=
  ToolSearchError ("Failed to get tool by ID: " ++ exn_str e) FETCH_ERROR.

Lemma metadata_to_tool_raises (metadata : dict) (e : exn) :
  metadata_to_tool metadata = Raise e -> e = tool_validation_error.
Proof.
  unfold metadata_to_tool.
  destruct (parse_tool_parameters_total (py_get metadata "parameters")) as [ps ->].
  cbn [rbind]. unfold new_Tool.
  repeat match goal with
         | |- context [match ?x with Some _ => _ | None => _ end] => destruct x
         end; intros H; try discriminate H; now injection H.
Qed.

(** What a read of a valid id gives once the fetch is answered. *)
Definition read_outcome (vs : list stored_vector) (action_id_ : Z) : result (option Tool) :=
  match lookup vs (str_of_int action_id_) with
  | None => Ok None
  | Some v =>
      match metadata_to_tool (vec_metadata v) with
      | Ok tool => Ok (Some tool)
      | Raise e => Raise (fetch_error e)
      end
  end.

Lemma get_tool_by_id_fetches (action_id_ : Z) (namespace : string) (w : world) :
  0 < action_id_ ->
  fault (List.length (log w)) = None ->
  unique_ids (index w) namespace ->
  get_tool_by_id action_id_ namespace w
  = (read_outcome (namespace_vectors (index w) namespace) action_id_,
     record_call (IndexFetch namespace [str_of_int action_id_]) w).
Proof.
  intros Hid H0 Hu.
  assert (Hpos : (action_id_ <=? 0) = false) by (apply Z.leb_gt; lia).
  unfold get_tool_by_id, try_except. rewrite Hpos.
  unfold bind, index_fetch_call, request. rewrite H0.
  cbn [index record_call]. rewrite fetch_one by exact Hu. unfold read_outcome.
  destruct (lookup _ _) as [v|]; [|reflexivity].
  unfold lift, ret.
  destruct (metadata_to_tool (vec_metadata v)) as [t|e] eqn:E; [reflexivity|].
  rewrite reraise_or_result. rewrite (metadata_to_tool_raises _ E). reflexivity.
Qed.

Lemma get_tool_by_id_refused (action_id_ : Z) (namespace : string) (w : world) (text : string) :
  0 < action_id_ ->
  fault (List.length (log w)) = Some text ->
  get_tool_by_id action_id_ namespace w
  = (Raise (fetch_error (PyError KServiceError text)),
     record_call (IndexFetch namespace [str_of_int action_id_]) w).
Proof.
  intros Hid H0.
  assert (Hpos : (action_id_ <=? 0) = false) by (apply Z.leb_gt; lia).
  unfold get_tool_by_id, try_except. rewrite Hpos.
  unfold bind, index_fetch_call, request. rewrite H0.
  rewrite reraise_or_result. reflexivity.
Qed.

Lemma after_upsert_vectors (tool : Tool) (namespace : string) (w : world) :
  namespace_vectors (index (after_upsert tool namespace w)) namespace
  = put_vector (namespace_vectors (index w) namespace) (tool_record tool).
Proof. unfold after_upsert. cbn [index]. now rewrite namespace_vectors_after_upsert. Qed.

Lemma str_of_int_differs (a b : Z) : a <> b -> str_of_int a <> str_of_int b.
Proof. intros H E. apply H. now apply str_of_int_injective. Qed.

(** X7.  Writing a tool and reading it back gives the tool; the reads of the
    other ids give what they gave before; the other namespaces are
    untouched; ids stay distinct. *)
Theorem upsert_tool_then_get (tool : Tool) (namespace : string) (w : world) :
  0 < action_id tool ->
  unique_ids (index w) namespace ->
  (forall k, (List.length (log w) <= k)%nat -> fault k = None) ->
  exists w1,
    upsert_tool tool namespace w = (Ok (str_of_int (action_id tool)), w1)
    /\ fst (get_tool_by_id (action_id tool) namespace w1) = Ok (Some tool)
    /\ (forall b, 0 < b -> b <> action_id tool ->
          fst (get_tool_by_id b namespace w1) = fst (get_tool_by_id b namespace w))
    /\ (forall other, other <> namespace ->
          namespace_vectors (index w1) other = namespace_vectors (index w) other)
    /\ unique_ids (index w1) namespace.
Proof.
  intros Hid Hu Hf. exists (after_upsert tool namespace w).
  assert (Hu1 : unique_ids (index (after_upsert tool namespace w)) namespace).
  { unfold unique_ids. rewrite after_upsert_vectors. now apply put_vector_unique. }
  assert (Hlog : List.length (log (after_upsert tool namespace w))
                 = S (S (List.length (log w)))).
  { unfold after_upsert. cbn [log]. rewrite length_app. simpl. lia. }
  split; [apply upsert_tool_written; [exact Hid | apply Hf; lia | apply Hf; lia]|].
  split; [|split; [|split; [|exact Hu1]]].
  - rewrite get_tool_by_id_fetches; [|exact Hid | apply Hf; lia | exact Hu1].
    cbn [fst]. unfold read_outcome. rewrite after_upsert_vectors.
    change (str_of_int (action_id tool)) with (vec_id (tool_record tool)).
    rewrite lookup_put_same. cbn [tool_record vec_metadata].
    now rewrite decode_encoded_metadata.
  - intros b Hb Hne.
    rewrite get_tool_by_id_fetches; [|exact Hb | apply Hf; lia | exact Hu1].
    rewrite get_tool_by_id_fetches; [|exact Hb | apply Hf; lia | exact Hu].
    cbn [fst]. unfold read_outcome. rewrite after_upsert_vectors.
    rewrite lookup_put_other; [reflexivity|].
    cbn [tool_record vec_id]. apply str_of_int_differs. congruence.
  - intros other Hne. unfold after_upsert, index_after_upsert. cbn [index].
    now apply namespace_vectors_set_other.
Qed.

(** The state after a delete request for [ids] was answered. *)
Definition after_delete (ids : list string) (namespace : string) (w : world) : world :=
  {| index := index_after_delete (index w) namespace ids;
     log := (log w ++ [IndexDelete namespace ids])%list;
     drawn := drawn w |}.

Lemma index_delete_answered (ids : list string) (namespace : string) (w : world) :
  fault (List.length (log w)) = None ->
  index_delete ids namespace w = (Ok tt, after_delete ids namespace w).
Proof. intros H. unfold index_delete, request. rewrite H. reflexivity. Qed.

Lemma after_delete_vectors (ids : list string) (namespace : string) (w : world) :
  namespace_vectors (index (after_delete ids namespace w)) namespace
  = filter (fun v => negb (existsb (String.eqb (vec_id v)) ids))
           (namespace_vectors (index w) namespace).
Proof. unfold after_delete. cbn [index]. apply namespace_vectors_after_delete. Qed.

Lemma after_delete_other (ids : list string) (namespace other : string) (w : world) :
  other <> namespace ->
  namespace_vectors (index (after_delete ids namespace w)) other
  = namespace_vectors (index w) other.
Proof.
  intros H. unfold after_delete, index_after_delete. cbn [index].
  destruct (Dict.get (index w) namespace); [|reflexivity].
  now apply namespace_vectors_set_other.
Qed.

Lemma after_delete_unique (ids : list string) (namespace : string) (w : world) :
  unique_ids (index w) namespace ->
  unique_ids (index (after_delete ids namespace w)) namespace.
Proof.
  unfold unique_ids. rewrite after_delete_vectors. apply filter_deleted_unique.
Qed.

(** The reads after a delete: a deleted id is not found, the others read as
    before. *)
Lemma read_after_delete (action_ids : list Z) (namespace : string) (w : world) (b : Z) :
  0 < b ->
  unique_ids (index w) namespace ->
  fault (List.length (log w)) = None ->
  fault (S (List.length (log w))) = None ->
  fst (get_tool_by_id b namespace (after_delete (map str_of_int action_ids) namespace w))
  = if existsb (fun a => b =? a) action_ids then Ok None
    else fst (get_tool_by_id b namespace w).
Proof.
  intros Hb Hu H0 H1.
  rewrite get_tool_by_id_fetches;
    [|exact Hb | unfold after_delete; cbn [log]; now rewrite length_log_call
     | now apply after_delete_unique].
  rewrite get_tool_by_id_fetches by assumption. cbn [fst]. unfold read_outcome.
  rewrite after_delete_vectors, lookup_filter_deleted.
  assert (E : existsb (String.eqb (str_of_int b)) (map str_of_int action_ids)
              = existsb (fun a => b =? a) action_ids).
  { induction action_ids as [|a l IH]; simpl; [reflexivity|]. rewrite IH. f_equal.
    destruct (Z.eqb_spec b a) as [->|Hne]; [apply String.eqb_refl|].
    apply String.eqb_neq. now apply str_of_int_differs. }
  rewrite E. destruct (existsb _ action_ids); reflexivity.
Qed.

(** X15.  [delete_tools] answers with the ids it was given, whether or not they
    were stored; afterwards none of them is found, every other id reads as
    before, and the other namespaces are untouched. *)
Theorem delete_tools_then_get (action_ids : list Z) (namespace : string) (w : world) :
  unique_ids (index w) namespace ->
  (forall k, (List.length (log w) <= k)%nat -> fault k = None) ->
  exists w1,
    delete_tools action_ids namespace w = (Ok (map str_of_int action_ids), w1)
    /\ (forall b, 0 < b -> In b action_ids ->
          fst (get_tool_by_id b namespace w1) = Ok None)
    /\ (forall b, 0 < b -> ~ In b action_ids ->
          fst (get_tool_by_id b namespace w1) = fst (get_tool_by_id b namespace w))
    /\ (forall other, other <> namespace ->
          namespace_vectors (index w1) other = namespace_vectors (index w) other)
    /\ unique_ids (index w1) namespace.
Proof.
  intros Hu Hf. exists (after_delete (map str_of_int action_ids) namespace w).
  split; [|split; [|split; [|split]]].
  - unfold delete_tools, try_except, bind. rewrite index_delete_answered by (apply Hf; lia).
    reflexivity.
  - intros b Hb Hin. rewrite read_after_delete; [|exact Hb | exact Hu | apply Hf; lia ..].
    assert (E : existsb (fun a => b =? a) action_ids = true).
    { apply existsb_exists. exists b. split; [exact Hin | apply Z.eqb_refl]. }
    now rewrite E.
  - intros b Hb Hin. rewrite read_after_delete; [|exact Hb | exact Hu | apply Hf; lia ..].
    destruct (existsb (fun a => b =? a) action_ids) eqn:E; [|reflexivity].
    apply existsb_exists in E. destruct E as (x & Hx & E). apply Z.eqb_eq in E. now subst.
  - intros other. apply after_delete_other.
  - now apply after_delete_unique.
Qed.

(** X14.  [delete_tool] answers [True] for any id, stored or not, valid or not;
    afterwards the id is not found and every other id reads as before. *)
Theorem delete_tool_then_get (action_id_ : Z) (namespace : string) (w : world) :
  unique_ids (index w) namespace ->
  (forall k, (List.length (log w) <= k)%nat -> fault k = None) ->
  exists w1,
    delete_tool action_id_ namespace w = (Ok true, w1)
    /\ log w1 = (log w ++ [IndexDelete namespace [str_of_int action_id_]])%list
    /\ (0 < action_id_ -> fst (get_tool_by_id action_id_ namespace w1) = Ok None)
    /\ (forall b, 0 < b -> b <> action_id_ ->
          fst (get_tool_by_id b namespace w1) = fst (get_tool_by_id b namespace w)).
Proof.
  intros Hu Hf. exists (after_delete (map str_of_int [action_id_]) namespace w).
  split; [|split; [reflexivity|split]].
  - unfold delete_tool, try_except, bind. rewrite index_delete_answered by (apply Hf; lia).
    reflexivity.
  - intros Hb. rewrite read_after_delete; [|exact Hb | exact Hu | apply Hf; lia ..].
    cbn [existsb]. now rewrite Z.eqb_refl.
  - intros b Hb Hne. rewrite read_after_delete; [|exact Hb | exact Hu | apply Hf; lia ..].
    cbn [existsb]. destruct (Z.eqb_spec b action_id_); [contradiction | reflexivity].
Qed.

(** X13.  A read of a valid id makes one fetch request and leaves the index as it
    is.  An id that is not stored gives [None]; a fetch that fails, or a
    stored record that is no tool, gives [FETCH_ERROR]: a read raises nothing
    else. *)
Theorem get_tool_by_id_outcomes (action_id_ : Z) (namespace : string) (w : world) :
  0 < action_id_ ->
  unique_ids (index w) namespace ->
  exists outcome,
    get_tool_by_id action_id_ namespace w
    = (outcome, record_call (IndexFetch namespace [str_of_int action_id_]) w)
    /\ (fault (List.length (log w)) = None ->
        lookup (namespace_vectors (index w) namespace) (str_of_int action_id_) = None ->
        outcome = Ok None)
    /\ (forall text, fault (List.length (log w)) = Some text ->
          outcome = Raise (ToolSearchError ("Failed to get tool by ID: " ++ text) FETCH_ERROR))
    /\ (forall e, outcome = Raise e ->
          exists message, e = ToolSearchError ("Failed to get tool by ID: " ++ message)
                                              FETCH_ERROR).
Proof.
  intros Hid Hu. destruct (fault (List.length (log w))) as [text|] eqn:Ef.
  - rewrite (get_tool_by_id_refused _ _ Hid Ef). eexists. split; [reflexivity|].
    split; [discriminate|]. split.
    + intros t H. injection H as <-. reflexivity.
    + intros e H. injection H as <-. eexists. reflexivity.
  - rewrite (get_tool_by_id_fetches _ Hid Ef Hu). eexists. split; [reflexivity|].
    split; [|split; [discriminate|]].
    + intros _ H. unfold read_outcome. now rewrite H.
    + intros e. unfold read_outcome. destruct (lookup _ _) as [v|]; [|discriminate].
      destruct (metadata_to_tool (vec_metadata v)); [discriminate|].
      intros H. injection H as <-. eexists. reflexivity.
Qed.
End SingleTool.

(** ** Failures of a single write *)

Section SingleToolFailure.
Context {rt : PyRuntime} {sv : Services}.

(** The kind [upsert_tool] reports for a failure, chosen by its text. *)
Definition upsert_error_kind (text : string) : ErrorCode :=
  if contains "embedding" (lower text) then EMBEDDING_ERROR
  else if contains "pinecone" (lower text) then PINECONE_ERROR
  else UPSERT_ERROR.

Lemma classify_kind (m1 m2 m3 : string) (other : ErrorCode) (e : exn) :
  exists message,
    classify m1 m2 m3 other e
    = ToolSearchError message
        (if contains "embedding" (lower (exn_str e)) then EMBEDDING_ERROR
         else if contains "pinecone" (lower (exn_str e)) then PINECONE_ERROR
         else other).
Proof.
  unfold classify. destruct (contains "embedding" _); [eauto|].
  destruct (contains "pinecone" _); eauto.
Qed.

(** X8.  When the embedding request, or the write after it, fails, [upsert_tool]
    raises a [ToolSearchError] and the index is as before.  The kind reported
    follows the text of the failure, not the request that failed. *)
Theorem upsert_tool_failure_kind (tool : Tool) (namespace : string) (w : world)
  (text : string) :
  0 < action_id tool ->
  fault (List.length (log w)) = Some text
  \/ (fault (List.length (log w)) = None /\ fault (S (List.length (log w))) = Some text) ->
  exists message w1,
    upsert_tool tool namespace w
    = (Raise (ToolSearchError message (upsert_error_kind text)), w1)
    /\ index w1 = index w.
Proof.
  intros Hid Hfault.
  assert (Hpos : (action_id tool <=? 0) = false) by (apply Z.leb_gt; lia).
  destruct (classify_kind "Failed to generate embedding: " "Pinecone operation failed: "
              "Failed to upsert tool: " UPSERT_ERROR (PyError KServiceError text))
    as [message Hm].
  exists message.
  unfold upsert_tool, try_except. rewrite Hpos.
  unfold bind, embed_query, index_upsert, request.
  destruct Hfault as [H0 | [H0 H1]]; rewrite H0.
  - rewrite reraise_or_result. cbn [is_tool_search_error]. rewrite Hm.
    eexists. split; reflexivity.
  - cbn [log record_call]. rewrite length_log_call, H1.
    rewrite reraise_or_result. cbn [is_tool_search_error]. rewrite Hm.
    eexists. split; reflexivity.
Qed.
End SingleToolFailure.

(** ** Batches of any size *)

Section Batches.
Context {rt : PyRuntime} {sv : Services}.

Definition tool_ids (tools_ : list Tool) : list string :=
  map (fun t => str_of_int (action_id t)) tools_.

Lemma range_from_done (fuel i stop step : nat) :
  (stop <= i)%nat -> range_from fuel i stop step = [].
Proof.
  intros H. destruct fuel; simpl; [reflexivity|].
  destruct (Nat.ltb_spec i stop); [lia | reflexivity].
Qed.

Lemma slice_from (tools_ : list Tool) (i n : nat) :
  slice tools_ i (i + n) = firstn n (skipn i tools_).
Proof. unfold slice. replace (i + n - i)%nat with n by lia. reflexivity. Qed.

Lemma after_batch_other (c : list Tool) (namespace other : string) (w : world) :
  other <> namespace ->
  namespace_vectors (index (after_batch c namespace w)) other
  = namespace_vectors (index w) other.
Proof.
  intros H. unfold after_batch, index_after_upsert. cbn [index].
  now apply namespace_vectors_set_other.
Qed.

Lemma after_batch_vectors (c : list Tool) (namespace : string) (w : world) :
  namespace_vectors (index (after_batch c namespace w)) namespace
  = fold_left put_vector (batch_vectors c) (namespace_vectors (index w) namespace).
Proof. unfold after_batch. cbn [index]. apply namespace_vectors_after_upsert. Qed.

(** The batch loop from offset [i] on, when every request is answered: the
    ids of the remaining tools are appended, and the namespace holds what one
    write of their records would leave. *)
Lemma upsert_batches_written (tools_ : list Tool) (namespace : string) (batch_size : nat) :
  (0 < batch_size)%nat ->
  forall fuel i acc w,
    (List.length tools_ - i <= fuel)%nat ->
    (forall k, (List.length (log w) <= k)%nat -> fault k = None) ->
    exists w',
      upsert_batches tools_ batch_size
        (range_from fuel i (List.length tools_) batch_size) namespace acc w
      = (Ok (acc ++ tool_ids (skipn i tools_))%list, w')
      /\ namespace_vectors (index w') namespace
         = fold_left put_vector (batch_vectors (skipn i tools_))
                     (namespace_vectors (index w) namespace)
      /\ (forall other, other <> namespace ->
            namespace_vectors (index w') other = namespace_vectors (index w) other)
      /\ (List.length (log w) <= List.length (log w'))%nat.
Proof.
  intros Hbs. induction fuel as [|fuel IH]; intros i acc w Hfuel Hf.
  - rewrite skipn_all2 by lia. exists w. cbn. rewrite app_nil_r. auto.
  - cbn [range_from]. destruct (Nat.ltb_spec i (List.length tools_)) as [Hi|Hi].
    + cbn [upsert_batches]. rewrite slice_from. unfold bind at 1.
      set (c := firstn batch_size (skipn i tools_)).
      rewrite upsert_batch_written by (apply Hf; lia).
      destruct (IH (i + batch_size)%nat (acc ++ tool_ids c)%list (after_batch c namespace w))
        as (w' & Hrun & Hvs & Hother & Hlog).
      * lia.
      * intros k Hk. apply Hf. rewrite log_after_batch in Hk. lia.
      * exists w'. fold (tool_ids c). rewrite Hrun.
        assert (Hsplit : skipn i tools_ = (c ++ skipn (i + batch_size) tools_)%list).
        { unfold c. rewrite (Nat.add_comm i), <- skipn_skipn. symmetry. apply firstn_skipn. }
        split; [|split; [|split]].
        -- rewrite Hsplit. unfold tool_ids. rewrite map_app, app_assoc. reflexivity.
        -- rewrite Hvs, after_batch_vectors. rewrite Hsplit.
           unfold batch_vectors. rewrite map_app, fold_left_app. reflexivity.
        -- intros other Hne. rewrite (Hother other Hne). now apply after_batch_other.
        -- rewrite log_after_batch in Hlog. lia.
    + rewrite skipn_all2 by lia. exists w. cbn. rewrite app_nil_r. auto.
Qed.

Lemma upsert_tools_written (tools_ : list Tool) (namespace : string) (batch_size : Z)
  (w : world) :
  Forall (fun t => 0 < action_id t) tools_ ->
  0 < batch_size ->
  (forall k, (List.length (log w) <= k)%nat -> fault k = None) ->
  exists w',
    upsert_tools tools_ namespace batch_size w = (Ok (tool_ids tools_), w')
    /\ namespace_vectors (index w') namespace
       = fold_left put_vector (batch_vectors tools_) (namespace_vectors (index w) namespace)
    /\ (forall other, other <> namespace ->
          namespace_vectors (index w') other = namespace_vectors (index w) other)
    /\ (List.length (log w) <= List.length (log w'))%nat.
Proof.
  intros Hvalid Hbs Hf. destruct tools_ as [|t l] eqn:Et.
  - exists w. cbn. auto.
  - rewrite <- Et in *. rewrite upsert_tools_nonempty by (rewrite Et; discriminate).
    unfold try_except. unfold bind at 1. rewrite validate_tools_accepts by exact Hvalid.
    unfold bind at 1, lift, py_range0.
    destruct (Z.eqb_spec batch_size 0) as [E|_]; [lia|].
    destruct (Z.ltb_spec batch_size 0) as [E|_]; [lia|].
    destruct (@upsert_batches_written tools_ namespace (Z.to_nat batch_size) ltac:(lia)
                (List.length tools_) 0%nat [] w ltac:(lia) Hf)
      as (w' & Hrun & Hrest).
    exists w'. rewrite Hrun. cbn [app skipn] in *. split; [reflexivity | exact Hrest].
Qed.

(** X9.  With every request answered, what [upsert_tools] returns and stores does
    not depend on the batch size: the ids of the tools in input order, and in
    the namespace what one write of all their records leaves; the other
    namespaces are untouched. *)
Theorem upsert_tools_any_batch_size (tools_ : list Tool) (namespace : string)
  (batch_size : Z) (w : world) :
  Forall (fun t => 0 < action_id t) tools_ ->
  0 < batch_size ->
  (forall k, (List.length (log w) <= k)%nat -> fault k = None) ->
  exists w',
    upsert_tools tools_ namespace batch_size w
    = (Ok (map (fun t => str_of_int (action_id t)) tools_), w')
    /\ namespace_vectors (index w') namespace
       = fold_left put_vector (batch_vectors tools_) (namespace_vectors (index w) namespace)
    /\ (forall other, other <> namespace ->
          namespace_vectors (index w') other = namespace_vectors (index w) other).
Proof.
  intros Hvalid Hbs Hf.
  destruct (@upsert_tools_written tools_ namespace batch_size w Hvalid Hbs Hf) as (w' & Hrun & Hvs & Hother & _).
  exists w'. auto.
Qed.

(** X10.  A batch size of zero is refused as [BATCH_UPSERT_ERROR] before any
    request; a negative one is not refused: nothing is written, no request is
    made, and the empty list of ids is returned. *)
Theorem upsert_tools_nonpositive_batch_size (tools_ : list Tool) (namespace : string)
  (w : world) :
  tools_ <> [] ->
  Forall (fun t => 0 < action_id t) tools_ ->
  upsert_tools tools_ namespace 0 w
  = (Raise (ToolSearchError "Failed to upsert tools: range() arg 3 must not be zero"
                            BATCH_UPSERT_ERROR), w)
  /\ (forall batch_size, batch_size < 0 ->
        upsert_tools tools_ namespace batch_size w = (Ok [], w)).
Proof.
  intros Hne Hvalid. split.
  - rewrite upsert_tools_nonempty by exact Hne.
    unfold try_except. unfold bind at 1. rewrite validate_tools_accepts by exact Hvalid.
    reflexivity.
  - intros batch_size Hbs. rewrite upsert_tools_nonempty by exact Hne.
    unfold try_except. unfold bind at 1. rewrite validate_tools_accepts by exact Hvalid.
    unfold bind at 1, lift, py_range0.
    destruct (Z.eqb_spec batch_size 0) as [E|_]; [lia|].
    destruct (Z.ltb_spec batch_size 0) as [_|E]; [|lia].
    reflexivity.
Qed.

(** The last tool of the list with the id [a]. *)
Definition last_with_id (tools_ : list Tool) (a : Z) : option Tool :=
  find (fun t => action_id t =? a) (rev tools_).

Lemma lookup_batch_vectors (tools_ : list Tool) (a : Z) :
  lookup (batch_vectors tools_) (str_of_int a)
  = option_map tool_record (find (fun t => action_id t =? a) tools_).
Proof.
  unfold lookup, batch_vectors. induction tools_ as [|t l IH]; [reflexivity|].
  cbn [map find vec_id]. destruct (Z.eqb_spec (action_id t) a) as [E|Hne].
  - rewrite E, String.eqb_refl. unfold tool_record. cbn [option_map]. now rewrite E.
  - apply str_of_int_differs, String.eqb_neq in Hne. rewrite Hne. exact IH.
Qed.

Lemma upsert_tools_reads (tools_ : list Tool) (namespace : string) (batch_size : Z)
  (w : world) :
  Forall (fun t => 0 < action_id t) tools_ ->
  0 < batch_size ->
  unique_ids (index w) namespace ->
  (forall k, (List.length (log w) <= k)%nat -> fault k = None) ->
  exists w',
    upsert_tools tools_ namespace batch_size w = (Ok (tool_ids tools_), w')
    /\ forall a, 0 < a ->
         fst (get_tool_by_id a namespace w')
         = match last_with_id tools_ a with
           | Some tool => Ok (Some tool)
           | None => fst (get_tool_by_id a namespace w)
           end.
Proof.
  intros Hvalid Hbs Hu Hf.
  destruct (@upsert_tools_written tools_ namespace batch_size w Hvalid Hbs Hf)
    as (w' & Hrun & Hvs & _ & Hlog).
  exists w'. split; [exact Hrun|].
  assert (Hu' : unique_ids (index w') namespace).
  { unfold unique_ids. rewrite Hvs. now apply put_vectors_unique. }
  intros a Ha.
  rewrite get_tool_by_id_fetches; [|exact Ha | apply Hf; lia | exact Hu'].
  rewrite get_tool_by_id_fetches; [|exact Ha | apply Hf; lia | exact Hu].
  cbn [fst]. unfold read_outcome. rewrite Hvs, lookup_put_vectors.
  unfold batch_vectors at 1. rewrite <- map_rev. fold (batch_vectors (rev tools_)).
  rewrite lookup_batch_vectors. fold (last_with_id tools_ a).
  destruct (last_with_id tools_ a) as [tool|]; [|reflexivity].
  cbn [option_map tool_record vec_metadata]. now rewrite decode_encoded_metadata.
Qed.

Lemma last_with_id_valid (tools_ : list Tool) (a : Z) (tool : Tool) :
  Forall (fun t => 0 < action_id t) tools_ ->
  last_with_id tools_ a = Some tool -> 0 < a.
Proof.
  intros Hvalid Hlast. unfold last_with_id in Hlast. apply find_some in Hlast.
  destruct Hlast as [Hin E]. apply Z.eqb_eq in E. subst a. apply in_rev in Hin.
  rewrite Forall_forall in Hvalid. now apply Hvalid.
Qed.

(** X11.  After [upsert_tools], reading an id of the list gives the last tool
    listed under it, and reading any other id gives what it gave before. *)
Theorem upsert_tools_then_get (tools_ : list Tool) (namespace : string) (batch_size : Z)
  (w : world) :
  Forall (fun t => 0 < action_id t) tools_ ->
  0 < batch_size ->
  unique_ids (index w) namespace ->
  (forall k, (List.length (log w) <= k)%nat -> fault k = None) ->
  exists ids w',
    upsert_tools tools_ namespace batch_size w = (Ok ids, w')
    /\ (forall a tool, last_with_id tools_ a = Some tool ->
          fst (get_tool_by_id a namespace w') = Ok (Some tool))
    /\ (forall a, 0 < a -> last_with_id tools_ a = None ->
          fst (get_tool_by_id a namespace w') = fst (get_tool_by_id a namespace w)).
Proof.
  intros Hvalid Hbs Hu Hf.
  destruct (@upsert_tools_reads tools_ namespace batch_size w Hvalid Hbs Hu Hf)
    as (w' & Hrun & Hread).
  exists (tool_ids tools_), w'. split; [exact Hrun|]. split.
  - intros a tool Hlast.
    rewrite (Hread a (last_with_id_valid _ Hvalid Hlast)), Hlast. reflexivity.
  - intros a Ha Hlast. rewrite (Hread a Ha), Hlast. reflexivity.
Qed.

(** X12.  A toolkit with tools, all of valid ids, is written like its tools in
    batches of 100: [upsert_toolkit] returns their ids in order, and each
    tool can then be read back under its id. *)
Theorem upsert_toolkit_then_get (tk : Toolkit)
  (namespace : string) (w : world) :
  tools tk <> [] ->
  Forall (fun t => 0 < action_id t) (tools tk) ->
  unique_ids (index w) namespace ->
  (forall k, (List.length (log w) <= k)%nat -> fault k = None) ->
  exists w',
    upsert_toolkit tk namespace w
    = (Ok (map (fun t => str_of_int (action_id t)) (tools tk)), w')
    /\ forall a tool, last_with_id (tools tk) a = Some tool ->
         fst (get_tool_by_id a namespace w') = Ok (Some tool).
Proof.
  intros Hne Hvalid Hu Hf.
  destruct (@upsert_tools_reads (tools tk) namespace DEFAULT_BATCH_SIZE w Hvalid
              ltac:(reflexivity) Hu Hf) as (w' & Hrun & Hread).
  exists w'. split.
  - unfold upsert_toolkit, try_except. destruct (tools tk) as [|t l] eqn:E; [congruence|].
    rewrite Hrun. reflexivity.
  - intros a tool Hlast.
    rewrite (Hread a (last_with_id_valid _ Hvalid Hlast)), Hlast. reflexivity.
Qed.
End Batches.

(** ** Outcomes of composed computations *)

Lemma bind_ok {A B} (m : M A) (k : A -> M B) (w w' : world) (b : B) :
  bind m k w = (Ok b, w') ->
  exists a w1, m w = (Ok a, w1) /\ k a w1 = (Ok b, w').
Proof.
  unfold bind. destruct (m w) as [[a|e] w1]; [eauto | discriminate].
Qed.

Lemma bind_raise {A B} (m : M A) (k : A -> M B) (w w' : world) (e : exn) :
  bind m k w = (Raise e, w') ->
  m w = (Raise e, w') \/ exists a w1, m w = (Ok a, w1) /\ k a w1 = (Raise e, w').
Proof.
  unfold bind. destruct (m w) as [[a|e0] w1]; [eauto|].
  intros H. injection H as <- <-. left. reflexivity.
Qed.

Lemma try_reraise_ok {A} (m : M A) (wrap : exn -> exn) (w w' : world) (a : A) :
  try_except m (reraise_or wrap) w = (Ok a, w') -> m w = (Ok a, w').
Proof.
  unfold try_except. destruct (m w) as [[x|e] w1]; [auto|].
  rewrite reraise_or_result. discriminate.
Qed.

Lemma try_reraise_raise {A} (m : M A) (wrap : exn -> exn) (w w' : world) (e : exn) :
  try_except m (reraise_or wrap) w = (Raise e, w') ->
  exists e0, m w = (Raise e0, w') /\ e = if is_tool_search_error e0 then e0 else wrap e0.
Proof.
  unfold try_except. destruct (m w) as [[x|e0] w1]; [discriminate|].
  rewrite reraise_or_result. intros H. injection H as <- <-. eauto.
Qed.

Lemma try_wrap_ok {A} (m : M A) (prefix : string) (code : ErrorCode) (w w' : world) (a : A) :
  try_except m (wrap_all prefix code) w = (Ok a, w') -> m w = (Ok a, w').
Proof.
  unfold try_except. destruct (m w) as [[x|e] w1]; [auto | discriminate].
Qed.

Section Requests.
Context {sv : Services}.

(** A request raises nothing but the failure of the service, and an answered
    request leaves a longer log. *)
Lemma request_raises {A} (c : call) (answer : world -> A * world) (w w' : world) (e : exn) :
  request c answer w = (Raise e, w') -> is_tool_search_error e = false.
Proof.
  unfold request. destruct (fault _); [|destruct (answer _); discriminate].
  intros H. injection H as <- _. reflexivity.
Qed.

Lemma index_query_ok (v : vector) (k : Z) (f : option dict) (namespace : string)
  (w w' : world) (ms : list scored_match) :
  index_query v k f namespace w = (Ok ms, w') ->
  ms = query_answer (index w) namespace v k f
  /\ w' = record_call (IndexQuery namespace v k f) w.
Proof.
  unfold index_query, request. destruct (fault _); [discriminate|].
  intros H. injection H as <- <-. split; reflexivity.
Qed.

Lemma query_answer_length (idx : Dict.t (list stored_vector)) (namespace : string)
  (v : vector) (k : Z) (f : option dict) :
  (List.length (query_answer idx namespace v k f) <= Z.to_nat k)%nat.
Proof. unfold query_answer. rewrite length_map. apply firstn_le_length. Qed.

Lemma random_rand_ok (n : Z) (w w' : world) (v : vector) :
  random_rand n w = (Ok v, w') -> index w' = index w /\ log w' = log w.
Proof.
  unfold random_rand. destruct (n <? 0); [discriminate|].
  intros H. injection H as _ <-. split; reflexivity.
Qed.

Lemma random_rand_raises (n : Z) (w w' : world) (e : exn) :
  random_rand n w = (Raise e, w') -> is_tool_search_error e = false.
Proof.
  unfold random_rand. destruct (n <? 0); [|discriminate].
  intros H. injection H as <- _. reflexivity.
Qed.
End Requests.

(** ** Queries *)

Section Queries.
Context {rt : PyRuntime} {sv : Services}.
Variable self : ToolSearchProvider.

Lemma build_response_score (semantic : bool) (m : scored_match) (r : ToolSearchResponse) :
  build_response semantic m = Ok r -> in_unit_interval (score r) = true.
Proof.
  unfold build_response, new_ToolSearchResponse.
  destruct (parse_tool_parameters _); simpl; [|discriminate].
  destruct (validate_str _); [|discriminate].
  destruct (validate_int _); [|discriminate].
  destruct (validate_int _); [|discriminate].
  destruct (validate_str _); [|discriminate].
  intros H. injection H as <-. cbn [score]. destruct semantic; [|reflexivity].
  unfold _convert_distance_to_similarity. apply round4_in_unit_interval, clamped_cases.
Qed.

Lemma build_response_raises (semantic : bool) (m : scored_match) (e : exn) :
  build_response semantic m = Raise e -> is_tool_search_error e = false.
Proof.
  unfold build_response, new_ToolSearchResponse.
  destruct (parse_tool_parameters_total (py_get (match_metadata m) "parameters")) as [ps ->].
  cbn [rbind].
  repeat match goal with
         | |- context [match ?x with Some _ => _ | None => _ end] => destruct x
         end; intros H; try discriminate H; injection H as <-; reflexivity.
Qed.

Lemma build_responses_raises (semantic : bool) (ms : list scored_match) :
  forall acc e, build_responses semantic ms acc = Raise e -> is_tool_search_error e = false.
Proof.
  induction ms as [|m ms IH]; simpl; intros acc e H; [discriminate H|].
  destruct (build_response semantic m) as [r|e0] eqn:E.
  - exact (IH _ _ H).
  - injection H as <-. exact (build_response_raises _ _ E).
Qed.

Lemma post_filter_loop_raises (filters_ : dict) (ms : list scored_match) :
  forall acc e, post_filter_loop filters_ ms acc = Raise e -> is_tool_search_error e = false.
Proof.
  induction ms as [|m ms IH]; simpl; intros acc e H; [discriminate H|].
  destruct (post_filter_keeps filters_ (match_metadata m)) as [b|e0] eqn:E.
  - exact (IH _ _ H).
  - injection H as <-. unfold post_filter_keeps in E.
    destruct (truthy _); [|discriminate E].
    destruct (py_get_default _ _ _); try (injection E as <-; reflexivity).
    destruct (py_get filters_ "name_prefix"); try discriminate E;
      injection E as <-; reflexivity.
Qed.

Lemma apply_post_filters_raises (filters_ : dict) (ms : list scored_match) (e : exn) :
  _apply_post_filters ms filters_ = Raise e -> is_tool_search_error e = false.
Proof.
  unfold _apply_post_filters. destruct filters_; [discriminate|].
  apply post_filter_loop_raises.
Qed.

(** The responses built from the matches of one index query. *)
Definition respond (semantic : bool) (filters_ : dict) (matches : list scored_match) :
  result (list ToolSearchResponse) :=
  rbind (_apply_post_filters matches filters_) (fun kept => build_responses semantic kept []).

Lemma respond_ok (semantic : bool) (filters_ : dict) (matches : list scored_match)
  (results : list ToolSearchResponse) :
  respond semantic filters_ matches = Ok results ->
  exists keep,
    Forall2 (fun m r => build_response semantic m = Ok r) (filter keep matches) results.
Proof.
  unfold respond. destruct (_apply_post_filters matches filters_) as [kept|e] eqn:E;
    [|discriminate].
  cbn [rbind]. intros H. apply build_responses_forall2 in H. destruct H as (rs & -> & Hrs).
  destruct (apply_post_filters_filter _ _ E) as [keep ->]. exists keep. exact Hrs.
Qed.

Lemma respond_bounds (semantic : bool) (filters_ : dict) (matches : list scored_match)
  (results : list ToolSearchResponse) :
  respond semantic filters_ matches = Ok results ->
  (List.length results <= List.length matches)%nat
  /\ Forall (fun r => in_unit_interval (score r) = true) results.
Proof.
  intros H. destruct (respond_ok _ _ _ H) as [keep Hrs]. split.
  - rewrite <- (Forall2_length Hrs). apply filter_length_le.
  - clear H. revert Hrs. generalize (filter keep matches). intros l Hrs.
    induction Hrs; constructor; [|assumption].
    eapply build_response_score; eassumption.
Qed.

Lemma respond_raises (semantic : bool) (filters_ : dict) (matches : list scored_match)
  (e : exn) :
  respond semantic filters_ matches = Raise e -> is_tool_search_error e = false.
Proof.
  unfold respond. destruct (_apply_post_filters matches filters_) as [kept|e0] eqn:E.
  - cbn [rbind]. apply build_responses_raises.
  - cbn [rbind]. intros H. injection H as <-. exact (apply_post_filters_raises _ _ E).
Qed.

Lemma lift_respond (semantic : bool) (filters_ : dict) (matches : list scored_match)
  (w : world) :
  bind (lift (_apply_post_filters matches filters_))
       (fun kept => lift (build_responses semantic kept [])) w
  = (respond semantic filters_ matches, w).
Proof.
  unfold bind, lift, respond. destruct (_apply_post_filters matches filters_); reflexivity.
Qed.

Definition query_handler : exn -> exn :=
  classify "Failed to generate query embedding: " "Pinecone query failed: "
           "Failed to query tools: " QUERY_ERROR.

(** The filter argument of a semantic query: none when the translation is
    empty. *)
Definition filter_argument (pinecone_filter : dict) : option dict :=
  match pinecone_filter with [] => None | _ => Some pinecone_filter end.

(** The query the index receives and the matches it answers with, when
    [query_tools] returns. *)
Lemma query_tools_ok (req : ToolSearchRequest) (namespace : string) (w w' : world)
  (results : list ToolSearchResponse) :
  query_tools self req namespace w = (Ok results, w') ->
  exists semantic v f,
    respond semantic (filters_or_empty req)
            (query_answer (index w) namespace v (top_k req) f) = Ok results
    /\ index w' = index w
    /\ (query req <> "" -> embed (query req) <> [] ->
        semantic = true /\ v = embed (query req)
        /\ f = filter_argument (_build_pinecone_filter (filters_or_empty req))
        /\ log w' = (log w ++ [EmbedQuery (query req);
                               IndexQuery namespace v (top_k req) f])%list).
Proof.
  intros H. unfold query_tools in H. apply try_reraise_ok in H.
  destruct (negb (truthy (PStr (query req))) && _)%bool; [discriminate H|].
  apply bind_ok in H. destruct H as (qe & w1 & Hqe & H).
  apply bind_ok in H. destruct H as (matches & w2 & Hm & H).
  rewrite lift_respond in H. injection H as H <-.
  cbn [truthy] in Hqe. destruct (String.eqb (query req) "") eqn:Eq; cbn [negb] in Hqe.
  - injection Hqe as <- <-.
    apply bind_ok in Hm. destruct Hm as (rv & w3 & Hrv & Hm).
    apply random_rand_ok in Hrv. destruct Hrv as [Hi Hl].
    apply index_query_ok in Hm. destruct Hm as [-> ->].
    exists false, rv, (Some (_build_pinecone_filter (filters_or_empty req))).
    rewrite Hi in H. split; [exact H|]. split; [exact Hi|].
    intros Hq. apply String.eqb_eq in Eq. contradiction.
  - apply bind_ok in Hqe. destruct Hqe as (v & w3 & Hv & Hret). injection Hret as <- <-.
    unfold embed_query, request in Hv. destruct (fault _); [discriminate Hv|].
    injection Hv as <- <-.
    destruct (embed (query req)) as [|x v] eqn:Ev.
    + apply bind_ok in Hm. destruct Hm as (rv & w4 & Hrv & Hm).
      apply random_rand_ok in Hrv. destruct Hrv as [Hi Hl].
      apply index_query_ok in Hm. destruct Hm as [-> ->].
      exists false, rv, (Some (_build_pinecone_filter (filters_or_empty req))).
      rewrite Hi in H. split; [exact H|]. split; [exact Hi|].
      intros _ Hv. contradiction.
    + apply index_query_ok in Hm. destruct Hm as [-> ->].
      do 3 eexists. split; [exact H|]. split; [reflexivity|].
      intros _ _. split; [reflexivity|]. split; [reflexivity|]. split; [reflexivity|].
      cbn [log record_call]. now rewrite <- app_assoc.
Qed.

(** X16.  When [query_tools] returns, it returns at most [top_k] entries, each
    with a score between 0 and 1, and the index is as it was. *)
Theorem query_tools_result_bounds (req : ToolSearchRequest) (namespace : string)
  (w w' : world) (results : list ToolSearchResponse) :
  query_tools self req namespace w = (Ok results, w') ->
  (List.length results <= Z.to_nat (top_k req))%nat
  /\ Forall (fun r => in_unit_interval (score r) = true) results
  /\ index w' = index w.
Proof.
  intros H. destruct (query_tools_ok _ _ _ H) as (semantic & v & f & Hr & Hi & _).
  destruct (respond_bounds _ _ _ Hr) as [Hlen Hscores].
  split; [|split; assumption].
  etransitivity; [exact Hlen | apply query_answer_length].
Qed.

(** X17.  A query with text, whose embedding is not empty: when [query_tools]
    returns, it has made two requests, the embedding of the text and one
    query of the index with that embedding, [top_k] and the translated filter
    (no filter when the translation is empty); the entries returned are the
    responses built, in order, from the matches the post-filter kept, each
    with the normalised score of its match. *)
Theorem semantic_query_requests (req : ToolSearchRequest) (namespace : string)
  (w w' : world) (results : list ToolSearchResponse) :
  query req <> "" ->
  embed (query req) <> [] ->
  query_tools self req namespace w = (Ok results, w') ->
  let v := embed (query req) in
  let f := filter_argument (_build_pinecone_filter (filters_or_empty req)) in
  log w' = (log w ++ [EmbedQuery (query req); IndexQuery namespace v (top_k req) f])%list
  /\ exists keep,
       Forall2 (fun m r => build_response true m = Ok r
                           /\ score r = _convert_distance_to_similarity (match_score m))
               (filter keep (query_answer (index w) namespace v (top_k req) f)) results.
Proof.
  intros Hq Hv H v f.
  destruct (query_tools_ok _ _ _ H) as (semantic & v' & f' & Hr & _ & Hsem).
  destruct (Hsem Hq Hv) as (-> & -> & -> & Hlog). split; [exact Hlog|].
  destruct (respond_ok _ _ _ Hr) as [keep Hrs]. exists keep.
  subst v f. revert Hrs. generalize (filter keep (query_answer (index w) namespace (embed (query req)) (top_k req) (filter_argument (_build_pinecone_filter (filters_or_empty req))))).
  clear. intros l Hrs. induction Hrs as [|m r ms rs Hmr _ IH]; constructor; [|exact IH].
  split; [exact Hmr|]. revert Hmr. unfold build_response, new_ToolSearchResponse.
  destruct (parse_tool_parameters _); simpl; [|discriminate].
  destruct (validate_str _); [|discriminate].
  destruct (validate_int _); [|discriminate].
  destruct (validate_int _); [|discriminate].
  destruct (validate_str _); [|discriminate].
  intros E. injection E as <-. reflexivity.
Qed.

Lemma classify_not_validation (m1 m2 m3 : string) (e : exn) (message : string) :
  classify m1 m2 m3 QUERY_ERROR e <> ToolSearchError message VALIDATION_ERROR.
Proof.
  unfold classify. destruct (contains "embedding" _); [discriminate|].
  destruct (contains "pinecone" _); discriminate.
Qed.

(** X18.  [query_tools] raises [VALIDATION_ERROR] exactly for a request with
    neither query text nor filters, and then makes no request; every other
    error it raises is an [EMBEDDING_ERROR], a [PINECONE_ERROR] or a
    [QUERY_ERROR]. *)
Theorem query_tools_error_kinds (req : ToolSearchRequest) (namespace : string) (w : world) :
  (query req = "" /\ filters_or_empty req = [] ->
   query_tools self req namespace w
   = (Raise (ToolSearchError "Either query or filters must be provided" VALIDATION_ERROR), w))
  /\ (forall e w', query_tools self req namespace w = (Raise e, w') ->
        exists message code,
          e = ToolSearchError message code
          /\ (code = VALIDATION_ERROR /\ query req = "" /\ filters_or_empty req = []
              \/ code = EMBEDDING_ERROR \/ code = PINECONE_ERROR \/ code = QUERY_ERROR)).
Proof.
  split.
  - intros [Hq Hf]. unfold query_tools, try_except. rewrite Hq, Hf. reflexivity.
  - intros e w' H. unfold query_tools in H. apply try_reraise_raise in H.
    destruct H as (e0 & H & ->). fold query_handler.
    assert (Hother : is_tool_search_error e0 = false ->
              exists message code,
                (if is_tool_search_error e0 then e0 else query_handler e0)
                = ToolSearchError message code
                /\ (code = VALIDATION_ERROR /\ query req = "" /\ filters_or_empty req = []
                    \/ code = EMBEDDING_ERROR \/ code = PINECONE_ERROR \/ code = QUERY_ERROR)).
    { intros ->. unfold query_handler, classify.
      destruct (contains "embedding" _); [eauto 7|].
      destruct (contains "pinecone" _); eauto 7. }
    destruct (negb (truthy (PStr (query req))) && _)%bool eqn:Eempty.
    + injection H as <- <-. cbn [is_tool_search_error]. do 2 eexists. split; [reflexivity|].
      left. apply andb_prop in Eempty. destruct Eempty as [E1 E2].
      apply negb_true_iff in E1, E2. cbn [truthy] in E1. apply negb_false_iff in E1.
      apply String.eqb_eq in E1. split; [reflexivity|]. split; [exact E1|].
      destruct (filters_or_empty req); [reflexivity | discriminate E2].
    + apply Hother. clear Hother Eempty.
      apply bind_raise in H. destruct H as [H | (qe & w1 & Hqe & H)].
      * destruct (truthy (PStr (query req))); [|discriminate H].
        apply bind_raise in H. destruct H as [H | (v & w1 & _ & H)]; [|discriminate H].
        exact (request_raises _ _ _ H).
      * apply bind_raise in H. destruct H as [H | (matches & w2 & _ & H)].
        -- assert (Hprobe : forall f,
                     bind (random_rand (embedding_dimension self))
                          (fun rv => index_query rv (top_k req) f namespace) w1
                     = (Raise e0, w') -> is_tool_search_error e0 = false).
           { intros f Hp. apply bind_raise in Hp. destruct Hp as [Hp | (rv & w3 & _ & Hp)].
             - exact (random_rand_raises _ _ Hp).
             - exact (request_raises _ _ _ Hp). }
           destruct qe as [[|x v]|]; [exact (Hprobe _ H) | | exact (Hprobe _ H)].
           exact (request_raises _ _ _ H).
        -- rewrite lift_respond in H. injection H as H _. exact (respond_raises _ _ _ H).
Qed.
End Queries.

(** ** Toolkits: what is fetched and what is deleted *)

Section ToolkitMembers.
Context {rt : PyRuntime} {sv : Services}.
Variable self : ToolSearchProvider.

Lemma lift_ok {A} (r : result A) (w w' : world) (a : A) :
  lift r w = (Ok a, w') -> r = Ok a /\ w' = w.
Proof. unfold lift. intros H. injection H as -> <-. split; reflexivity. Qed.

Definition toolkit_filter (toolkit_id_ : Z) : dict :=
  _build_pinecone_filter [("toolkit_id", PInt toolkit_id_)].

(** When [get_toolkit_tools] returns, the tools are none, or are decoded
    from the answer to one query for at most 100 matches. *)
Lemma get_toolkit_tools_ok (toolkit_id_ : Z) (namespace : string) (w w' : world)
  (tools_ : list Tool) :
  get_toolkit_tools self toolkit_id_ namespace w = (Ok tools_, w') ->
  0 < toolkit_id_
  /\ index w' = index w
  /\ (tools_ = []
      \/ exists probe k,
           k <= 100
           /\ decode_matches (query_answer (index w) namespace probe k
                                           (Some (toolkit_filter toolkit_id_))) []
              = Ok tools_).
Proof.
  intros H. unfold get_toolkit_tools in H. apply try_reraise_ok in H.
  destruct (Z.leb_spec toolkit_id_ 0) as [Hle|Hid]; [discriminate H|].
  split; [exact Hid|].
  apply bind_ok in H. destruct H as (stats & w1 & Hstats & H).
  unfold describe_index_stats, request in Hstats.
  destruct (fault _); [discriminate Hstats|]. injection Hstats as <- <-.
  apply bind_ok in H. destruct H as (namespaces & w2 & H2 & H).
  apply lift_ok in H2. destruct H2 as [_ ->].
  apply bind_ok in H. destruct H as (namespace_stats & w3 & H3 & H).
  apply lift_ok in H3. destruct H3 as [_ ->].
  apply bind_ok in H. destruct H as (vector_count_ & w4 & H4 & H).
  apply lift_ok in H4. destruct H4 as [_ ->].
  apply bind_ok in H. destruct H as (vector_count & w5 & H5 & H).
  apply lift_ok in H5. destruct H5 as [_ ->].
  destruct (vector_count =? 0).
  - injection H as <- <-. split; [reflexivity | left; reflexivity].
  - apply bind_ok in H. destruct H as (probe & w6 & Hrv & H).
    apply random_rand_ok in Hrv. destruct Hrv as [Hi Hl].
    apply bind_ok in H. destruct H as (matches & w7 & Hq & H).
    apply index_query_ok in Hq. destruct Hq as [-> ->].
    apply lift_ok in H. destruct H as [H ->].
    split; [exact Hi|]. right. exists probe, (Z.min 100 vector_count).
    split; [lia|]. rewrite Hi in H. exact H.
Qed.

Lemma decode_matches_forall (P : Tool -> Prop) (ms : list scored_match) :
  Forall (fun m => forall t, metadata_to_tool (match_metadata m) = Ok t -> P t) ms ->
  forall acc ts, decode_matches ms acc = Ok ts -> Forall P acc -> Forall P ts.
Proof.
  induction 1 as [|m ms Hm _ IH]; simpl; intros acc ts H Hacc.
  - injection H as <-. exact Hacc.
  - destruct (metadata_to_tool (match_metadata m)) as [t|e] eqn:E; [|discriminate H].
    apply (IH _ _ H). apply Forall_app. split; [exact Hacc|]. constructor; [|constructor].
    now apply Hm.
Qed.

Lemma toolkit_filter_clause (toolkit_id_ : Z) :
  0 < toolkit_id_ ->
  toolkit_filter toolkit_id_ = [("toolkit_id", PDict [("$in", PList [PInt toolkit_id_])])].
Proof.
  intros H. unfold toolkit_filter, _build_pinecone_filter, add_membership, add_required_params.
  cbn. destruct (Z.eqb_spec toolkit_id_ 0); [lia | reflexivity].
Qed.

Lemma passes_toolkit_filter (toolkit_id_ : Z) (t : Tool) (v : stored_vector) :
  0 < toolkit_id_ ->
  vec_metadata v = build_tool_metadata t ->
  passes (Some (toolkit_filter toolkit_id_)) v = true ->
  toolkit_id t = toolkit_id_.
Proof.
  intros Hid Hv. rewrite (toolkit_filter_clause Hid). unfold passes. rewrite Hv.
  cbn. rewrite !orb_false_r, andb_true_r. apply Z.eqb_eq.
Qed.

(** X19.  With records written by [build_tool_metadata] and an index that returns
    stored records, every tool [get_toolkit_tools] returns is stored in the
    namespace and belongs to the toolkit asked for. *)
Theorem get_toolkit_tools_only_members (toolkit_id_ : Z) (namespace : string)
  (w w' : world) (tools_ : list Tool) :
  rank_returns_candidates ->
  holds_encoded_tools w namespace ->
  get_toolkit_tools self toolkit_id_ namespace w = (Ok tools_, w') ->
  Forall (fun t => toolkit_id t = toolkit_id_
                   /\ In (build_tool_metadata t)
                         (map vec_metadata (namespace_vectors (index w) namespace)))
         tools_.
Proof.
  intros Hrank Henc H.
  destruct (get_toolkit_tools_ok _ _ _ H) as (Hid & _ & [-> | (probe & k & _ & Hd)]);
    [constructor|].
  eapply decode_matches_forall; [|exact Hd | constructor].
  apply Forall_forall. intros m Hin t Ht.
  unfold query_answer in Hin. apply in_map_iff in Hin. destruct Hin as (u & <- & Hu).
  apply in_firstn, Hrank, filter_In in Hu. destruct Hu as [Hu Hpass].
  unfold holds_encoded_tools in Henc. rewrite Forall_forall in Henc.
  destruct (Henc u Hu) as [t' Ht']. cbn [match_metadata] in Ht.
  rewrite Ht', decode_encoded_metadata in Ht. injection Ht as <-.
  split; [exact (passes_toolkit_filter _ Hid Ht' Hpass)|].
  rewrite <- Ht'. now apply in_map.
Qed.

Lemma index_delete_ok (ids : list string) (namespace : string) (w w' : world) :
  index_delete ids namespace w = (Ok tt, w') -> w' = after_delete ids namespace w.
Proof.
  unfold index_delete, request. destruct (fault _); [discriminate|].
  intros H. injection H as <-. reflexivity.
Qed.

(** X20.  When [delete_toolkit] returns a count, it is the number of tools
    [get_toolkit_tools] returned, which is at most 100 however many tools the
    toolkit has; one delete request for their ids was made, and none when no
    tool was returned. *)
Theorem delete_toolkit_at_most_100 (toolkit_id_ : Z) (namespace : string) (w w' : world)
  (n : Z) :
  delete_toolkit self toolkit_id_ namespace w = (Ok n, w') ->
  exists tools_ w1,
    get_toolkit_tools self toolkit_id_ namespace w = (Ok tools_, w1)
    /\ n = Z.of_nat (List.length tools_)
    /\ 0 <= n <= 100
    /\ w' = match tools_ with
            | [] => w1
            | _ => after_delete (map str_of_int (map action_id tools_)) namespace w1
            end.
Proof.
  intros H. unfold delete_toolkit in H. apply try_wrap_ok in H.
  apply bind_ok in H. destruct H as (tools_ & w1 & Hget & H).
  exists tools_, w1. split; [exact Hget|].
  assert (Hlen : (List.length tools_ <= 100)%nat).
  { destruct (get_toolkit_tools_ok _ _ _ Hget) as (_ & _ & [-> | (probe & k & Hk & Hd)]);
      [simpl; lia|].
    rewrite (decode_matches_length _ _ Hd). simpl.
    etransitivity; [apply query_answer_length | lia]. }
  destruct tools_ as [|t l].
  - injection H as <- <-. split; [reflexivity|]. split; [lia | reflexivity].
  - apply bind_ok in H. destruct H as (ids & w2 & Hdel & H).
    injection H as <- <-. split; [now rewrite length_map|].
    split; [rewrite length_map, Zpos_P_of_succ_nat; cbn [List.length] in Hlen; lia|].
    unfold delete_tools in Hdel. apply try_wrap_ok in Hdel.
    apply bind_ok in Hdel. destruct Hdel as ([] & w3 & Hdel & Hret).
    injection Hret as _ <-. now apply index_delete_ok.
Qed.
End ToolkitMembers.

(** ** Health report *)

Section Health.
Context {sv : Services}.
Variable self : ToolSearchProvider.

(** X21.  [health_check] never raises and never changes the index.  It reports
    [healthy] exactly when the statistics request and the embedding of the
    probe text are both answered; the dimension it reports is the length of
    the embedding received.  When the statistics request fails the embedding
    is not probed and the report carries the [STATS_ERROR] message; when the
    embedding fails it carries the text of that failure. *)
Theorem health_check_never_raises (now : Z) (w : world) :
  exists report w',
    health_check self now w = (Ok report, w')
    /\ index w' = index w
    /\ py_get report "timestamp" = PInt now
    /\ match fault (List.length (log w)), fault (S (List.length (log w))) with
       | None, None =>
           report = [("status", PStr "healthy");
                     ("index_name", PStr (index_name self));
                     ("index_stats", index_stats (index w));
                     ("embedding_dimension", PInt (Z.of_nat (List.length (embed "test"))));
                     ("embedding_model", PStr (embedding_model self));
                     ("timestamp", PInt now)]
           /\ log w' = (log w ++ [DescribeIndexStats; EmbedQuery "test"])%list
       | None, Some text =>
           report = [("status", PStr "unhealthy"); ("error", PStr text);
                     ("timestamp", PInt now)]
           /\ log w' = (log w ++ [DescribeIndexStats; EmbedQuery "test"])%list
       | Some text, _ =>
           report = [("status", PStr "unhealthy");
                     ("error", PStr ("Failed to get tool index stats: " ++ text));
                     ("timestamp", PInt now)]
           /\ log w' = (log w ++ [DescribeIndexStats])%list
       end.
Proof.
  unfold health_check, get_tool_index_stats, try_except, bind, describe_index_stats,
    embed_query, request, wrap_all, raise, ret.
  destruct (fault (List.length (log w))) as [text|] eqn:E0.
  - do 2 eexists. repeat split.
  - cbn [log record_call]. rewrite length_log_call.
    destruct (fault (S (List.length (log w)))) as [text|] eqn:E1.
    + do 2 eexists. split; [reflexivity|]. cbn [index log record_call exn_str].
      rewrite <- app_assoc. repeat split.
    + do 2 eexists. split; [reflexivity|]. cbn [index log record_call].
      rewrite <- app_assoc. repeat split.
Qed.
End Health.

(** ** Requests within bounds *)

Section RequestBounds.
Context {rt : PyRuntime} {sv : Services}.
Variable self : ToolSearchProvider.

(** X22.  A request that was constructed has [top_k] between 1 and 50, 5 when none
    was given; a query with it returns at most 50 entries. *)
Theorem constructed_request_bounds (query_ : pyval) (top_k_ filters_ : option pyval)
  (req : ToolSearchRequest) :
  new_ToolSearchRequest query_ top_k_ filters_ = Ok req ->
  1 <= top_k req <= 50
  /\ (top_k_ = None -> top_k req = 5)
  /\ forall namespace w results w',
       query_tools self req namespace w = (Ok results, w') ->
       (List.length results <= 50)%nat.
Proof.
  intros H.
  assert (Hk : 1 <= top_k req <= 50 /\ (top_k_ = None -> top_k req = 5)).
  { unfold new_ToolSearchRequest in H. destruct (validate_str query_); [|discriminate H].
    destruct top_k_ as [v|].
    - destruct (validate_int v) as [k|]; [|discriminate H].
      destruct ((1 <=? k) && (k <=? 50))%bool eqn:E; [|discriminate H].
      apply andb_prop in E. destruct E as [E1 E2].
      apply Z.leb_le in E1, E2.
      destruct (match filters_ with
                | None | Some PNone => Some None
                | Some (PDict d) => Some (Some d)
                | Some _ => None
                end); [|discriminate H].
      injection H as <-. cbn [top_k]. split; [lia | discriminate].
    - destruct (match filters_ with
                | None | Some PNone => Some None
                | Some (PDict d) => Some (Some d)
                | Some _ => None
                end); [|discriminate H].
      injection H as <-. cbn [top_k]. split; [lia | reflexivity]. }
  destruct Hk as [Hk Hd]. split; [exact Hk|]. split; [exact Hd|].
  intros namespace w results w' Hrun.
  destruct (query_tools_ok _ _ _ _ Hrun) as (semantic & v & f & Hr & _).
  destruct (respond_bounds _ _ _ Hr) as [Hlen _].
  etransitivity; [exact Hlen|]. etransitivity; [apply query_answer_length | lia].
Qed.
End RequestBounds.

(** ** Loading *)

Section Loading.
Context {rt : PyRuntime}.
Variable read_text : string -> result string.

(** [tool.model_dump()] *)
Definition tool_dump (t : Tool) : pyval :=
  PDict [("action_id", PInt (action_id t));
         ("toolkit_id", PInt (toolkit_id t));
         ("tool_name", PStr (tool_name t));
         ("description", PStr (description t));
         ("parameters", PList (map model_dump (parameters t)));
         ("toolkit", PStr (toolkit t))].

Lemma load_parameters_model_dumps (ps acc : list ToolParameter) :
  load_parameters (map model_dump ps) acc = Ok (acc ++ ps)%list.
Proof.
  revert acc. induction ps as [|p ps IH]; intros acc; cbn [map load_parameters].
  - now rewrite app_nil_r.
  - rewrite new_ToolParameter_model_dump. cbn [rbind]. rewrite IH, <- app_assoc. reflexivity.
Qed.

Lemma load_tool_dump (t : Tool) : load_tool (tool_dump t) (tool_dump t) "toolkit" = Ok t.
Proof.
  destruct t as [a k n d ps tk]. unfold load_tool, tool_dump.
  cbn [pyval_get py_get_default Dict.get String.eqb Ascii.eqb Bool.eqb rbind py_iter
       action_id toolkit_id tool_name description parameters toolkit].
  rewrite load_parameters_model_dumps. reflexivity.
Qed.

Lemma load_tool_entries_dumps (ts acc : list Tool) :
  load_tool_entries (map tool_dump ts) (fun tool_data => tool_data) "toolkit" acc
  = Ok (acc ++ ts)%list.
Proof.
  revert acc. induction ts as [|t ts IH]; intros acc; cbn [map load_tool_entries].
  - now rewrite app_nil_r.
  - rewrite load_tool_dump. cbn [rbind]. rewrite IH, <- app_assoc. reflexivity.
Qed.

(** X23.  [load_tools_from_json] raises nothing but [FILE_LOAD_ERROR], whatever
    fails: the read, the JSON, an entry that is no object, a field of the
    wrong type.  On a file whose JSON is the list of the dumps of tools, it
    returns those tools, in order. *)
Theorem load_tools_from_json_outcomes (file_path : string) :
  (forall e, load_tools_from_json read_text file_path = Raise e ->
     exists message,
       e = ToolSearchError ("Failed to load tools from JSON: " ++ message) FILE_LOAD_ERROR)
  /\ (forall text tools_,
        read_text file_path = Ok text ->
        JsonDecoder.loads text = Ok (PList (map tool_dump tools_)) ->
        load_tools_from_json read_text file_path = Ok tools_).
Proof.
  split.
  - intros e. unfold load_tools_from_json, wrap_result.
    destruct (rbind (json_load read_text file_path) _) as [a|e0]; [discriminate|].
    intros H. injection H as <-. eexists. reflexivity.
  - intros text tools_ Hread Hjson. unfold load_tools_from_json, json_load.
    rewrite Hread. cbn [rbind]. rewrite Hjson. cbn [rbind py_iter].
    rewrite load_tool_entries_dumps. reflexivity.
Qed.

Lemma load_tool_owner (tool_data owner : pyval) (d : dict) (t : Tool) :
  owner = PDict d ->
  load_tool tool_data owner "name" = Ok t ->
  validate_int (py_get_default d "toolkit_id" (PInt 0)) = Some (toolkit_id t)
  /\ validate_str (py_get_default d "name" (PStr "")) = Some (toolkit t).
Proof.
  intros ->. unfold load_tool.
  destruct (pyval_get tool_data "parameters" (PList [])) as [params|]; [|discriminate].
  cbn [rbind]. destruct (py_iter params) as [items|]; [|discriminate].
  cbn [rbind]. destruct (load_parameters items []) as [ps|]; [|discriminate].
  cbn [rbind]. destruct (pyval_get tool_data "action_id" (PInt 0)); [|discriminate].
  cbn [rbind pyval_get].
  destruct (pyval_get tool_data "tool_name" (PStr "")); [|discriminate].
  cbn [rbind]. destruct (pyval_get tool_data "description" (PStr "")); [|discriminate].
  cbn [rbind]. unfold new_Tool.
  destruct (validate_int a); [|discriminate].
  destruct (validate_int (py_get_default d "toolkit_id" (PInt 0))); [|discriminate].
  destruct (validate_str a0); [|discriminate].
  destruct (validate_str a1); [|discriminate].
  destruct (validate_str (py_get_default d "name" (PStr ""))); [|discriminate].
  intros H. injection H as <-. split; reflexivity.
Qed.

Lemma load_tool_entries_owner (entries : list pyval) (d : dict) (P : Tool -> Prop) :
  (forall tool_data t, load_tool tool_data (PDict d) "name" = Ok t -> P t) ->
  forall acc ts,
    load_tool_entries entries (fun _ => PDict d) "name" acc = Ok ts ->
    Forall P acc -> Forall P ts.
Proof.
  intros HP. induction entries as [|x entries IH]; simpl; intros acc ts H Hacc.
  - injection H as <-. exact Hacc.
  - destruct (load_tool x (PDict d) "name") as [t|] eqn:E; [|discriminate H].
    cbn [rbind] in H. apply (IH _ _ H). apply Forall_app. split; [exact Hacc|].
    constructor; [|constructor]. exact (HP _ _ E).
Qed.

(** X24.  [load_toolkit_from_json] raises nothing but [FILE_LOAD_ERROR].  In the
    toolkit it returns, every tool carries the id and the name of the
    toolkit, whatever the entry of the tool says. *)
Theorem load_toolkit_from_json_outcomes (file_path : string) :
  (forall e, load_toolkit_from_json read_text file_path = Raise e ->
     exists message,
       e = ToolSearchError ("Failed to load toolkit from JSON: " ++ message) FILE_LOAD_ERROR)
  /\ (forall tk,
        load_toolkit_from_json read_text file_path = Ok tk ->
        Forall (fun t => toolkit_id t = tk_toolkit_id tk /\ toolkit t = tk_name tk)
               (tools tk)).
Proof.
  split.
  - intros e. unfold load_toolkit_from_json, wrap_result.
    destruct (rbind (json_load read_text file_path) _) as [a|e0]; [discriminate|].
    intros H. injection H as <-. eexists. reflexivity.
  - intros tk. unfold load_toolkit_from_json, wrap_result.
    destruct (json_load read_text file_path) as [data|]; [|discriminate].
    cbn [rbind]. destruct data as [| | | | | |d]; try discriminate.
    cbn [pyval_get rbind].
    destruct (py_iter (py_get_default d "tools" (PList []))) as [entries|]; [|discriminate].
    cbn [rbind].
    destruct (load_tool_entries entries (fun _ => PDict d) "name" []) as [ts|] eqn:E;
      [|discriminate].
    cbn [rbind]. unfold new_Toolkit.
    destruct (validate_int (py_get_default d "toolkit_id" (PInt 0))) as [k|] eqn:Ek;
      [|discriminate].
    destruct (validate_str (py_get_default d "name" (PStr ""))) as [n|] eqn:En;
      [|discriminate].
    destruct (validate_str (py_get_default d "description" (PStr ""))); [|discriminate].
    intros H. injection H as <-. cbn [tools tk_toolkit_id tk_name].
    eapply load_tool_entries_owner; [|exact E | constructor].
    intros tool_data t Ht.
    destruct (@load_tool_owner tool_data (PDict d) d t eq_refl Ht) as [H1 H2].
    split; congruence.
Qed.
End Loading.

(** ** Toolkits of at most 100 tools *)

Section SmallToolkits.
Context {rt : PyRuntime} {sv : Services}.
Variable self : ToolSearchProvider.

(** The index ranks all the candidates: it returns each of them, and no
    more records than there are candidates. *)
Definition rank_keeps_candidates : Prop :=
  forall (v : vector) (l : list stored_vector),
    List.length (rank v l) = List.length l /\ forall x, In x l -> In x (rank v l).

(** The records of the namespace were written for tools: under the id of the
    tool, with its metadata. *)
Definition holds_tool_records (w : world) (namespace : string) : Prop :=
  Forall (fun v => exists t, vec_id v = str_of_int (action_id t)
                             /\ vec_metadata v = build_tool_metadata t)
         (namespace_vectors (index w) namespace).

(** The records of the namespace that belong to a toolkit. *)
Definition toolkit_records (w : world) (namespace : string) (toolkit_id_ : Z) :
  list stored_vector :=
  filter (passes (Some (toolkit_filter toolkit_id_))) (namespace_vectors (index w) namespace).

Lemma holds_tool_records_encoded (w : world) (namespace : string) :
  holds_tool_records w namespace -> holds_encoded_tools w namespace.
Proof.
  unfold holds_tool_records, holds_encoded_tools. apply Forall_impl.
  intros v (t & _ & Ht). eauto.
Qed.

Lemma decode_matches_records (us : list stored_vector) (score_of : stored_vector -> float) :
  Forall (fun u => exists t, vec_metadata u = build_tool_metadata t) us ->
  forall acc,
    exists ts,
      decode_matches (map (fun u => {| match_metadata := vec_metadata u;
                                       match_score := score_of u |}) us) acc
      = Ok (acc ++ ts)%list
      /\ Forall2 (fun u t => vec_metadata u = build_tool_metadata t) us ts.
Proof.
  induction 1 as [|u us [t Ht] _ IH]; intros acc; cbn [map decode_matches match_metadata].
  - exists []. rewrite app_nil_r. split; [reflexivity | constructor].
  - rewrite Ht, decode_encoded_metadata.
    destruct (IH (acc ++ [t])%list) as (ts & Hrun & Hts).
    exists (t :: ts). rewrite Hrun, <- app_assoc. split; [reflexivity|].
    constructor; assumption.
Qed.

Lemma firstn_covers {A} (n : nat) (l : list A) :
  (List.length l <= n)%nat -> firstn n l = l.
Proof. apply firstn_all2. Qed.

(** [get_toolkit_tools] when every request is answered, for a toolkit of at
    most 100 records written by [build_tool_metadata]: the tools of the
    records of the toolkit, in the order the index ranks them. *)
Lemma get_toolkit_tools_answered (toolkit_id_ : Z) (namespace : string) (w : world) :
  0 < toolkit_id_ ->
  0 <= embedding_dimension self ->
  (forall k, (List.length (log w) <= k)%nat -> fault k = None) ->
  rank_keeps_candidates ->
  rank_returns_candidates ->
  holds_encoded_tools w namespace ->
  (List.length (toolkit_records w namespace toolkit_id_) <= 100)%nat ->
  exists probe tools_ w1,
    get_toolkit_tools self toolkit_id_ namespace w = (Ok tools_, w1)
    /\ index w1 = index w
    /\ (List.length (log w) <= List.length (log w1))%nat
    /\ Forall2 (fun u t => vec_metadata u = build_tool_metadata t)
               (rank probe (toolkit_records w namespace toolkit_id_)) tools_.
Proof.
  intros Hid Hdim Hf Hkeeps Hreturns Henc Hsmall.
  rewrite get_toolkit_tools_after_stats; [|exact Hid | apply Hf; lia].
  unfold toolkit_records in *.
  set (vs := namespace_vectors (index w) namespace) in *.
  set (candidates := filter (passes (Some (toolkit_filter toolkit_id_))) vs) in *.
  destruct (Z.eqb_spec (Z.of_nat (List.length vs)) 0) as [E|E].
  - assert (Hvs : vs = []) by (destruct vs; [reflexivity | discriminate E]).
    exists [], [], (record_call DescribeIndexStats w). split; [reflexivity|].
    split; [reflexivity|]. split; [cbn [log record_call]; rewrite length_app; lia|].
    unfold candidates. rewrite Hvs. cbn [filter].
    destruct (rank [] []) as [|x l] eqn:Er; [constructor|].
    exfalso. apply (Hreturns [] [] x). rewrite Er. now left.
  - unfold try_except, bind at 1, random_rand.
    assert (Hd : (embedding_dimension self <? 0) = false) by (apply Z.ltb_ge; lia).
    rewrite Hd.
    set (probe := map random (seq (drawn (record_call DescribeIndexStats w))
                                 (Z.to_nat (embedding_dimension self)))).
    unfold bind, index_query, request. cbn [log index record_call].
    rewrite length_app. cbn [List.length].
    rewrite (Hf (List.length (log w) + 1)%nat) by lia.
    cbn [lift]. unfold query_answer. fold vs. fold (toolkit_filter toolkit_id_).
    fold candidates.
    destruct (Hkeeps probe candidates) as [Hlen _].
    assert (Hcount : (List.length candidates <= List.length vs)%nat)
      by apply filter_length_le.
    rewrite firstn_covers by lia.
    assert (Hall : Forall (fun u => exists t, vec_metadata u = build_tool_metadata t)
                          (rank probe candidates)).
    { apply Forall_forall. intros u Hu. apply Hreturns, filter_In in Hu. fold vs in Henc.
      unfold holds_encoded_tools in Henc. rewrite Forall_forall in Henc.
      apply Henc. exact (proj1 Hu). }
    destruct (decode_matches_records (fun u => similarity probe (vec_values u)) Hall [])
      as (ts & Hrun & Hts).
    rewrite Hrun. exists probe, ts. eexists. split; [reflexivity|].
    cbn [index log record_call]. split; [reflexivity|].
    split; [rewrite !length_app; lia | exact Hts].
Qed.

(** X25.  With every request answered, an index that ranks all candidates,
    and records written by [build_tool_metadata]: for a toolkit of at most
    100 stored tools, [get_toolkit_tools] returns as many tools as the
    toolkit has records, and the tool of each of these records is among
    them. *)
Theorem get_toolkit_tools_complete (toolkit_id_ : Z) (namespace : string) (w : world) :
  0 < toolkit_id_ ->
  0 <= embedding_dimension self ->
  (forall k, (List.length (log w) <= k)%nat -> fault k = None) ->
  rank_keeps_candidates ->
  rank_returns_candidates ->
  holds_encoded_tools w namespace ->
  (List.length (toolkit_records w namespace toolkit_id_) <= 100)%nat ->
  exists tools_ w1,
    get_toolkit_tools self toolkit_id_ namespace w = (Ok tools_, w1)
    /\ List.length tools_ = List.length (toolkit_records w namespace toolkit_id_)
    /\ forall t v,
         In v (namespace_vectors (index w) namespace) ->
         vec_metadata v = build_tool_metadata t ->
         toolkit_id t = toolkit_id_ ->
         In t tools_.
Proof.
  intros Hid Hdim Hf Hkeeps Hreturns Henc Hsmall.
  destruct (get_toolkit_tools_answered Hid Hdim Hf Hkeeps Hreturns Henc Hsmall)
    as (probe & tools_ & w1 & Hrun & _ & _ & Hts).
  exists tools_, w1. split; [exact Hrun|].
  destruct (Hkeeps probe (toolkit_records w namespace toolkit_id_)) as [Hlen Hin].
  split; [rewrite <- (Forall2_length Hts); exact Hlen|].
  intros t v Hv Hmeta Htk.
  assert (Hpass : passes (Some (toolkit_filter toolkit_id_)) v = true).
  { rewrite (toolkit_filter_clause Hid). unfold passes. rewrite Hmeta.
    cbn. rewrite !orb_false_r, andb_true_r. now apply Z.eqb_eq. }
  assert (Hcand : In v (rank probe (toolkit_records w namespace toolkit_id_))).
  { apply Hin. apply filter_In. split; assumption. }
  clear -Hts Hcand Hmeta. induction Hts as [|u t' us ts Hut _ IH]; [contradiction|].
  destruct Hcand as [->|Hcand]; [|right; exact (IH Hcand)].
  left. rewrite Hmeta in Hut.
  assert (E : metadata_to_tool (build_tool_metadata t)
              = metadata_to_tool (build_tool_metadata t')) by (now rewrite Hut).
  rewrite !decode_encoded_metadata in E. now injection E.
Qed.

Lemma unique_ids_same (vs : list stored_vector) (u v : stored_vector) :
  NoDup (map vec_id vs) -> In u vs -> In v vs -> vec_id u = vec_id v -> u = v.
Proof.
  induction vs as [|x vs IH]; simpl; intros Hn Hu Hv E; [contradiction|].
  inversion Hn as [|? ? Hx Hvs]; subst.
  destruct Hu as [->|Hu], Hv as [->|Hv]; auto.
  - exfalso. apply Hx. rewrite E. now apply in_map.
  - exfalso. apply Hx. rewrite <- E. now apply in_map.
Qed.

Lemma build_tool_metadata_injective (t t' : Tool) :
  build_tool_metadata t = build_tool_metadata t' -> t = t'.
Proof.
  intros H.
  assert (E : metadata_to_tool (build_tool_metadata t)
              = metadata_to_tool (build_tool_metadata t')) by (now rewrite H).
  rewrite !decode_encoded_metadata in E. now injection E.
Qed.

(** X26.  With every request answered, an index that ranks all candidates,
    distinct ids and records written for tools: for a toolkit of at most 100
    stored tools, [delete_toolkit] returns the number of its records and
    leaves in the namespace exactly the records of the other toolkits, in
    their order. *)
Theorem delete_toolkit_removes_toolkit (toolkit_id_ : Z) (namespace : string) (w : world) :
  0 < toolkit_id_ ->
  0 <= embedding_dimension self ->
  (forall k, (List.length (log w) <= k)%nat -> fault k = None) ->
  rank_keeps_candidates ->
  rank_returns_candidates ->
  holds_tool_records w namespace ->
  unique_ids (index w) namespace ->
  (List.length (toolkit_records w namespace toolkit_id_) <= 100)%nat ->
  exists w',
    delete_toolkit self toolkit_id_ namespace w
    = (Ok (Z.of_nat (List.length (toolkit_records w namespace toolkit_id_))), w')
    /\ namespace_vectors (index w') namespace
       = filter (fun v => negb (passes (Some (toolkit_filter toolkit_id_)) v))
                (namespace_vectors (index w) namespace)
    /\ toolkit_records w' namespace toolkit_id_ = [].
Proof.
  intros Hid Hdim Hf Hkeeps Hreturns Hrec Hu Hsmall.
  destruct (get_toolkit_tools_answered Hid Hdim Hf Hkeeps Hreturns
              (holds_tool_records_encoded Hrec) Hsmall)
    as (probe & tools_ & w1 & Hrun & Hidx & Hlog & Hts).
  destruct (Hkeeps probe (toolkit_records w namespace toolkit_id_)) as [Hlen Hin].
  assert (Hn : List.length tools_ = List.length (toolkit_records w namespace toolkit_id_)).
  { rewrite <- (Forall2_length Hts). exact Hlen. }
  set (vs := namespace_vectors (index w) namespace) in *.
  set (ids := map str_of_int (map action_id tools_)).
  assert (Hdeleted : forall v, In v vs ->
            existsb (String.eqb (vec_id v)) ids
            = passes (Some (toolkit_filter toolkit_id_)) v).
  { intros v Hv. unfold holds_tool_records in Hrec. fold vs in Hrec.
    rewrite Forall_forall in Hrec.
    destruct (passes (Some (toolkit_filter toolkit_id_)) v) eqn:Hpass.
    - apply existsb_eqb_in.
      assert (Hcand : In v (rank probe (toolkit_records w namespace toolkit_id_))).
      { apply Hin. apply filter_In. split; assumption. }
      destruct (Hrec v Hv) as (t & Hvid & Hvmeta).
      assert (Ht : In t tools_).
      { clear -Hts Hcand Hvmeta. induction Hts as [|u t' us ts Hut _ IH]; [contradiction|].
        destruct Hcand as [->|Hcand]; [|right; exact (IH Hcand)].
        left. rewrite Hvmeta in Hut. symmetry. now apply build_tool_metadata_injective. }
      unfold ids. rewrite map_map, Hvid. apply in_map_iff. exists t. split; [reflexivity|exact Ht].
    - destruct (existsb (String.eqb (vec_id v)) ids) eqn:Eex; [|reflexivity].
      exfalso. apply existsb_eqb_in in Eex. unfold ids in Eex. rewrite map_map in Eex.
      apply in_map_iff in Eex. destruct Eex as (t & Htid & Ht).
      assert (Hu' : exists u, In u (rank probe (toolkit_records w namespace toolkit_id_))
                              /\ vec_metadata u = build_tool_metadata t).
      { clear -Hts Ht. induction Hts as [|u t' us ts Hut _ IH]; [contradiction|].
        destruct Ht as [->|Ht].
        - exists u. split; [now left | exact Hut].
        - destruct (IH Ht) as (u' & Hu' & Hm). exists u'. split; [now right | exact Hm]. }
      destruct Hu' as (u & Hucand & Humeta).
      apply Hreturns, filter_In in Hucand. destruct Hucand as [Huvs Hupass]. fold vs in Huvs.
      destruct (Hrec u Huvs) as (t' & Huid & Humeta').
      rewrite Humeta in Humeta'. apply build_tool_metadata_injective in Humeta'. subst t'.
      assert (u = v).
      { apply (@unique_ids_same vs u v Hu Huvs Hv). now rewrite Huid. }
      subst u. congruence. }
  assert (Hfilter : filter (fun v => negb (existsb (String.eqb (vec_id v)) ids)) vs
                    = filter (fun v => negb (passes (Some (toolkit_filter toolkit_id_)) v)) vs).
  { apply filter_ext_in. intros v Hv. now rewrite Hdeleted. }
  assert (Hnone : filter (passes (Some (toolkit_filter toolkit_id_)))
                    (filter (fun v => negb (passes (Some (toolkit_filter toolkit_id_)) v)) vs)
                  = []).
  { clear. induction vs as [|v vs IH]; [reflexivity|]. cbn [filter].
    destruct (passes (Some (toolkit_filter toolkit_id_)) v) eqn:E; cbn [negb filter];
      [exact IH | rewrite E; exact IH]. }
  unfold delete_toolkit, try_except. unfold bind at 1. rewrite Hrun.
  destruct tools_ as [|t l] eqn:Et.
  - exists w1. cbn [List.length] in Hn. rewrite <- Hn. split; [reflexivity|].
    assert (Hvs1 : namespace_vectors (index w1) namespace = vs) by (unfold vs; now rewrite Hidx).
    assert (Hkeep : filter (fun v => negb (passes (Some (toolkit_filter toolkit_id_)) v)) vs
                    = vs).
    { rewrite <- Hfilter. unfold ids. cbn [map existsb negb].
      clear. induction vs as [|v vs IH]; [reflexivity|]. cbn [filter]. now rewrite IH. }
    split; [now rewrite Hvs1, Hkeep|].
    unfold toolkit_records. rewrite Hvs1, <- Hkeep. exact Hnone.
  - rewrite <- Et in *. unfold bind at 1, delete_tools, try_except. unfold bind at 1.
    rewrite index_delete_answered by (apply Hf; lia).
    exists (after_delete ids namespace w1). split.
    + unfold ret. rewrite length_map, Hn. rewrite Et. reflexivity.
    + assert (Hvs' : namespace_vectors (index (after_delete ids namespace w1)) namespace
                     = filter (fun v => negb (passes (Some (toolkit_filter toolkit_id_)) v)) vs).
      { rewrite after_delete_vectors, Hidx. fold vs. exact Hfilter. }
      split; [exact Hvs'|]. unfold toolkit_records. rewrite Hvs'. exact Hnone.
Qed.
End SmallToolkits.

(** ** Filters are enforced on the results *)

Section FiltersEnforced.
Context {rt : PyRuntime} {sv : Services}.
Variable self : ToolSearchProvider.

(** The values a filter entry admits: the elements of a list, or the value
    itself. *)
Definition admitted (v : pyval) : list pyval :=
  match v with PList l => l | _ => [v] end.

(** The matches [query_tools] builds its results from, and the filter the
    index applied to them. *)
Lemma query_tools_matches (req : ToolSearchRequest) (namespace : string) (w w' : world)
  (results : list ToolSearchResponse) :
  query_tools self req namespace w = (Ok results, w') ->
  exists semantic v f,
    respond semantic (filters_or_empty req)
            (query_answer (index w) namespace v (top_k req) f) = Ok results
    /\ (f = Some (_build_pinecone_filter (filters_or_empty req))
        \/ f = filter_argument (_build_pinecone_filter (filters_or_empty req))).
Proof.
  intros H. unfold query_tools in H. apply try_reraise_ok in H.
  destruct (negb (truthy (PStr (query req))) && _)%bool; [discriminate H|].
  apply bind_ok in H. destruct H as (qe & w1 & Hqe & H).
  apply bind_ok in H. destruct H as (matches & w2 & Hm & H).
  rewrite lift_respond in H. injection H as H <-.
  assert (Hprobe : forall w0,
            index w0 = index w ->
            bind (random_rand (embedding_dimension self))
                 (fun rv => index_query rv (top_k req)
                              (Some (_build_pinecone_filter (filters_or_empty req)))
                              namespace) w0
            = (Ok matches, w2) ->
            exists v,
              matches = query_answer (index w) namespace v (top_k req)
                          (Some (_build_pinecone_filter (filters_or_empty req)))).
  { intros w0 Hw0 Hp. apply bind_ok in Hp. destruct Hp as (rv & w3 & Hrv & Hp).
    apply random_rand_ok in Hrv. destruct Hrv as [Hi _].
    apply index_query_ok in Hp. destruct Hp as [-> _].
    exists rv. now rewrite Hi, Hw0. }
  assert (Hw1 : index w1 = index w).
  { destruct (truthy (PStr (query req))).
    - apply bind_ok in Hqe. destruct Hqe as (v & w3 & Hv & Hret). injection Hret as _ <-.
      unfold embed_query, request in Hv. destruct (fault _); [discriminate Hv|].
      injection Hv as _ <-. reflexivity.
    - injection Hqe as _ <-. reflexivity. }
  destruct qe as [[|x v]|].
  - destruct (Hprobe w1 Hw1 Hm) as [rv ->]. do 3 eexists. split; [exact H|]. now left.
  - apply index_query_ok in Hm. destruct Hm as [-> _]. rewrite Hw1 in H.
    do 3 eexists. split; [exact H|]. now right.
  - destruct (Hprobe w1 Hw1 Hm) as [rv ->]. do 3 eexists. split; [exact H|]. now left.
Qed.

Lemma eval_filter_entry (entries : list (string * pyval)) (metadata : dict) (k : string)
  (c : pyval) :
  eval_filter (PDict entries) metadata = true ->
  In (k, c) entries ->
  k <> "$and" ->
  field_in metadata k c = true.
Proof.
  intros H Hin Hk. induction entries as [|[k0 c0] entries IH]; [contradiction|].
  cbn [eval_filter] in H. apply andb_prop in H. destruct H as [H0 H].
  destruct Hin as [E|Hin].
  - injection E as -> ->. apply String.eqb_neq in Hk. rewrite Hk in H0. exact H0.
  - apply IH; assumption.
Qed.

Lemma get_in (d : dict) (k : string) (v : pyval) : Dict.get d k = Some v -> In (k, v) d.
Proof.
  induction d as [|[k0 v0] d IH]; simpl; [discriminate|].
  destruct (String.eqb k k0) eqn:E.
  - apply String.eqb_eq in E. intros H. injection H as ->. subst. now left.
  - intros H. right. exact (IH H).
Qed.

Lemma build_response_fields (semantic : bool) (t : Tool) (m : scored_match)
  (r : ToolSearchResponse) :
  match_metadata m = build_tool_metadata t ->
  build_response semantic m = Ok r ->
  resp_tool_name r = tool_name t /\ resp_action_id r = action_id t
  /\ resp_toolkit_id r = toolkit_id t /\ resp_description r = description t.
Proof.
  intros Hm. unfold build_response. rewrite Hm.
  destruct (parse_tool_parameters _) as [parsed|]; cbn [rbind]; [|discriminate].
  destruct t as [ta tk tn td tps ttk]. intros H. cbn in H. injection H as <-.
  repeat split.
Qed.

(** X1.  When [required_params] is not a list of several elements, a record
    that passes the translated filter satisfies the membership clause of
    every key given with a truthy value: its field (for [toolkit], the field
    [toolkit_name]) holds one of the values the filter admits. *)
Theorem build_filter_enforces_each_key (filters metadata : dict) (src dst : string) :
  single_required_param filters ->
  In (src, dst) (("required_params", "required_params") :: membership_keys) ->
  truthy (py_get filters src) = true ->
  eval_filter (PDict (_build_pinecone_filter filters)) metadata = true ->
  field_in metadata dst (PDict [("$in", PList (admitted (py_get filters src)))]) = true.
Proof.
  intros Hsingle Hin Htruthy Hpass.
  pose proof (@build_filter_keeps_membership_clauses filters src dst Hsingle Hin Htruthy)
    as Hclause.
  assert (Hdst : dst <> "$and").
  { unfold membership_keys in Hin.
    destruct Hin as [E|[E|[E|[E|[E|[]]]]]]; injection E as <- <-; discriminate. }
  pose proof (@eval_filter_entry _ _ _ _ Hpass (@get_in _ _ _ Hclause) Hdst) as H.
  unfold admitted. destruct (py_get filters src); exact H.
Qed.

Lemma field_in_absent (metadata : dict) (k : string) (c : pyval) :
  Dict.get metadata k = None -> field_in metadata k c = false.
Proof.
  intros H. unfold field_in. rewrite H.
  repeat match goal with
         | |- context [match ?x with _ => _ end] => destruct x
         end; reflexivity.
Qed.

(** What every step of the loop over [required_params] leaves: a clause on
    [required_params], at the top or in both operands of a conjunction. *)
Definition requires_a_parameter (pf : dict) : Prop :=
  (exists c, In ("required_params", c) pf)
  \/ (exists x y, pf = [("$and", PList [PDict [("required_params", x)];
                                        PDict [("required_params", y)]])]).

Lemma set_in (d : dict) (k : string) (v : pyval) : exists v', In (k, v') (Dict.set d k v).
Proof.
  induction d as [|[k0 v0] d IH]; simpl; [eauto|].
  destruct (String.eqb k k0) eqn:E.
  - apply String.eqb_eq in E. subst. eexists. left. reflexivity.
  - destruct IH as [v' H]. exists v'. now right.
Qed.

Lemma add_required_param_requires (pf : dict) (param : pyval) :
  requires_a_parameter (add_required_param pf param).
Proof.
  unfold add_required_param. destruct (negb (Dict.mem pf "required_params")).
  - left. apply set_in.
  - right. eauto.
Qed.

Lemma required_params_translation (filters : dict) :
  truthy (py_get filters "required_params") = true ->
  requires_a_parameter (_build_pinecone_filter filters).
Proof.
  intros H. destruct filters as [|kv rest]; [discriminate H|].
  unfold _build_pinecone_filter, add_required_params. rewrite H.
  destruct (py_get (kv :: rest) "required_params") as [| | | | |params|] eqn:E;
    try (left; apply set_in).
  destruct params as [|p params] using rev_ind; [discriminate H|].
  rewrite fold_left_app. cbn [fold_left]. apply add_required_param_requires.
Qed.

Lemma requires_a_parameter_rejects (pf : dict) (t : Tool) :
  requires_a_parameter pf -> eval_filter (PDict pf) (build_tool_metadata t) = false.
Proof.
  intros [[c Hc] | (x & y & ->)].
  - destruct (eval_filter (PDict pf) (build_tool_metadata t)) eqn:E; [|reflexivity].
    pose proof (@eval_filter_entry _ _ _ _ E Hc ltac:(discriminate)) as H.
    rewrite field_in_absent in H by reflexivity. discriminate H.
  - cbn [eval_filter String.eqb Ascii.eqb Bool.eqb].
    rewrite (@field_in_absent (build_tool_metadata t) "required_params" x) by reflexivity.
    reflexivity.
Qed.

(** X29.  No record written by [build_tool_metadata] has a field
    [required_params]: with such records and an index that returns stored
    records, a request whose filters give [required_params] gets no entry
    from [query_tools]. *)
Theorem required_params_filter_matches_nothing (req : ToolSearchRequest)
  (namespace : string) (w w' : world) (results : list ToolSearchResponse) :
  truthy (py_get (filters_or_empty req) "required_params") = true ->
  rank_returns_candidates ->
  holds_encoded_tools w namespace ->
  query_tools self req namespace w = (Ok results, w') ->
  results = [].
Proof.
  intros Htruthy Hrank Henc H.
  destruct (query_tools_matches _ _ _ H) as (semantic & v & f & Hr & Hf).
  pose proof (required_params_translation _ Htruthy) as Hreq.
  set (pf := _build_pinecone_filter (filters_or_empty req)) in *.
  assert (Hsome : f = Some pf).
  { destruct Hf as [->| ->]; [reflexivity|]. unfold filter_argument.
    destruct pf; [|reflexivity].
    destruct Hreq as [[c []] | (x & y & E)]. discriminate E. }
  subst f.
  assert (Hnone : filter (passes (Some pf)) (namespace_vectors (index w) namespace) = []).
  { unfold holds_encoded_tools in Henc. induction Henc as [|u us [t Ht] _ IH]; [reflexivity|].
    cbn [filter passes]. rewrite Ht, (requires_a_parameter_rejects t Hreq). exact IH. }
  assert (Hanswer : query_answer (index w) namespace v (top_k req) (Some pf) = []).
  { unfold query_answer. rewrite Hnone.
    destruct (rank v []) as [|x l] eqn:Er; [now rewrite firstn_nil|].
    exfalso. apply (Hrank v [] x). rewrite Er. now left. }
  rewrite Hanswer in Hr. unfold respond, _apply_post_filters in Hr.
  destruct (filters_or_empty req); cbn in Hr; now injection Hr.
Qed.

(** X27.  With records written by [build_tool_metadata] and an index that
    returns stored records: when the filters of a request give [toolkit_id]
    and [required_params] is not a list of several elements, every entry
    [query_tools] returns has a [toolkit_id] the filter admits. *)
Theorem query_tools_enforces_toolkit_filter (req : ToolSearchRequest) (namespace : string)
  (w w' : world) (results : list ToolSearchResponse) :
  single_required_param (filters_or_empty req) ->
  truthy (py_get (filters_or_empty req) "toolkit_id") = true ->
  rank_returns_candidates ->
  holds_encoded_tools w namespace ->
  query_tools self req namespace w = (Ok results, w') ->
  Forall (fun r => In (PInt (resp_toolkit_id r))
                      (admitted (py_get (filters_or_empty req) "toolkit_id")))
         results.
Proof.
  intros Hsingle Htruthy Hrank Henc H.
  destruct (query_tools_matches _ _ _ H) as (semantic & v & f & Hr & Hf).
  set (pf := _build_pinecone_filter (filters_or_empty req)) in *.
  assert (Hclause : Dict.get pf "toolkit_id"
                    = Some (PDict [("$in", PList (admitted
                                      (py_get (filters_or_empty req) "toolkit_id")))])).
  { unfold pf.
    rewrite (@build_filter_keeps_membership_clauses (filters_or_empty req)
               "toolkit_id" "toolkit_id" Hsingle); [|simpl; tauto | exact Htruthy].
    unfold admitted. destruct (py_get (filters_or_empty req) "toolkit_id"); reflexivity. }
  assert (Hsome : f = Some pf).
  { destruct Hf as [->| ->]; [reflexivity|]. unfold filter_argument.
    destruct pf; [discriminate Hclause | reflexivity]. }
  subst f. destruct (respond_ok _ _ _ Hr) as [keep Hrs].
  assert (Hms : Forall (fun m => exists t,
                          match_metadata m = build_tool_metadata t
                          /\ In (PInt (toolkit_id t))
                                (admitted (py_get (filters_or_empty req) "toolkit_id")))
                       (filter keep (query_answer (index w) namespace v (top_k req) (Some pf)))).
  { apply Forall_forall. intros m Hm. apply filter_In in Hm. destruct Hm as [Hm _].
    unfold query_answer in Hm. apply in_map_iff in Hm. destruct Hm as (u & <- & Hu).
    apply in_firstn, Hrank, filter_In in Hu. destruct Hu as [Hu Hpass].
    unfold holds_encoded_tools in Henc. rewrite Forall_forall in Henc.
    destruct (Henc u Hu) as [t Ht]. exists t. split; [exact Ht|].
    unfold passes in Hpass.
    pose proof (@eval_filter_entry _ _ _ _ Hpass (@get_in _ _ _ Hclause) ltac:(discriminate)) as Hin.
    rewrite Ht in Hin. cbn in Hin.
    apply existsb_exists in Hin. destruct Hin as (x & Hx & E).
    destruct x; try discriminate E. cbn in E. apply Z.eqb_eq in E. now subst. }
  revert Hrs Hms. generalize (filter keep (query_answer (index w) namespace v (top_k req)
                                                        (Some pf))).
  clear. intros l Hrs. induction Hrs as [|m r ms rs Hmr _ IH]; intros Hms; constructor.
  - inversion Hms as [|? ? (t & Ht & Hin) _]; subst.
    destruct (@build_response_fields semantic t m r Ht Hmr) as (_ & _ & -> & _). exact Hin.
  - apply IH. now inversion Hms.
Qed.

(** X28.  When the filters of a request give a non-empty text as
    [name_prefix], the [tool_name] of every entry [query_tools] returns
    starts with it. *)
Theorem query_tools_enforces_name_prefix (req : ToolSearchRequest) (namespace : string)
  (w w' : world) (results : list ToolSearchResponse) (p : string) :
  py_get (filters_or_empty req) "name_prefix" = PStr p ->
  p <> "" ->
  query_tools self req namespace w = (Ok results, w') ->
  Forall (fun r => startswith (resp_tool_name r) p = true) results.
Proof.
  intros Hp Hne H.
  destruct (query_tools_matches _ _ _ H) as (semantic & v & f & Hr & _).
  unfold respond in Hr.
  destruct (_apply_post_filters (query_answer (index w) namespace v (top_k req) f)
                                (filters_or_empty req)) as [kept|] eqn:Ek; [|discriminate Hr].
  cbn [rbind] in Hr. apply build_responses_forall2 in Hr. destruct Hr as (rs & -> & Hrs).
  cbn [app].
  assert (Hkept : Forall (fun m => post_filter_keeps (filters_or_empty req) (match_metadata m)
                                   = Ok true) kept).
  { unfold _apply_post_filters in Ek.
    destruct (filters_or_empty req) as [|kv d] eqn:Ef; [discriminate Hp|].
    apply post_filter_loop_filter in Ek. cbn [app] in Ek. subst kept.
    apply Forall_forall. intros m Hm. apply filter_In in Hm. destruct Hm as [_ Hm].
    unfold post_keep in Hm.
    destruct (post_filter_keeps (kv :: d) (match_metadata m)) as [[|]|];
      [reflexivity | discriminate Hm | discriminate Hm]. }
  clear Ek H. induction Hrs as [|m r ms rs' Hmr _ IH]; constructor.
  - inversion Hkept as [|? ? Hm _]; subst. unfold post_filter_keeps in Hm. rewrite Hp in Hm.
    assert (Ht : truthy (PStr p) = true).
    { cbn. destruct (String.eqb_spec p ""); [contradiction | reflexivity]. }
    rewrite Ht in Hm.
    destruct (py_get_default (match_metadata m) "tool_name" (PStr "")) as [| | | |n| |] eqn:En;
      try discriminate Hm.
    injection Hm as Hm.
    unfold build_response in Hmr.
    destruct (parse_tool_parameters _); cbn [rbind] in Hmr; [|discriminate Hmr].
    rewrite En in Hmr. unfold new_ToolSearchResponse in Hmr. cbn [validate_str] in Hmr.
    destruct (validate_int _); [|discriminate Hmr].
    destruct (validate_int _); [|discriminate Hmr].
    destruct (validate_str _); [|discriminate Hmr].
    injection Hmr as <-. exact Hm.
  - apply IH. now inversion Hkept.
Qed.
End FiltersEnforced.

(** ** The further statements at concrete inputs *)

(** A filter map with no key the translator reads. *)
Definition post_only_filters : dict := [("name_prefix", PStr "get_"); ("limit", PInt 3)].

Lemma build_filter_ignores_other_keys_witness :
  _build_pinecone_filter post_only_filters = [].
Proof.
  apply build_filter_ignores_other_keys.
  intros k Hin. simpl in Hin.
  destruct Hin as [<-|[<-|[<-|[<-|[<-|[]]]]]]; reflexivity.
Defined.

(** Four required parameters: the first two are dropped. *)
Lemma build_filter_required_params_keeps_last_witness :
  _build_pinecone_filter four_required_filters
  = [requires_both (PStr "c") (PStr "d")].
Proof.
  apply (proj1 (@build_filter_required_params_keeps_last four_required_filters
                  [PStr "a"; PStr "b"] (PStr "c") (PStr "d") eq_refl)).
  reflexivity.
Defined.

(** A record with an id and a name only. *)
Definition sparse_metadata : dict := [("action_id", PInt 7); ("tool_name", PStr "swap")].

Lemma metadata_to_tool_defaults_witness :
  @metadata_to_tool strict_runtime (sparse_metadata ++ [("description", PStr "")])%list
  = @metadata_to_tool strict_runtime sparse_metadata
  /\ @metadata_to_tool strict_runtime sparse_metadata
     = Ok {| action_id := 7; toolkit_id := 0; tool_name := "swap"; description := "";
             parameters := []; toolkit := "" |}.
Proof.
  split; [|reflexivity].
  apply (@metadata_to_tool_defaults strict_runtime sparse_metadata "description" (PStr "")).
  - simpl. tauto.
  - reflexivity.
Defined.

Lemma steady_services_answer (n : nat) :
  forall k, (n <= k)%nat -> @fault steady_services k = None.
Proof. intros k _. reflexivity. Qed.

Lemma empty_world_unique_ids (namespace : string) : unique_ids (index empty_world) namespace.
Proof. unfold unique_ids. constructor. Qed.

(** Tool 1 written into the empty index and read back. *)
Lemma upsert_tool_then_get_witness :
  exists w1,
    @upsert_tool strict_runtime steady_services (sample_tool 1) "test" empty_world
    = (Ok "1", w1)
    /\ fst (@get_tool_by_id strict_runtime steady_services 1 "test" w1)
       = Ok (Some (sample_tool 1)).
Proof.
  destruct (@upsert_tool_then_get strict_runtime steady_services (sample_tool 1) "test"
              empty_world) as (w1 & Hrun & Hread & _).
  - reflexivity.
  - apply empty_world_unique_ids.
  - apply steady_services_answer.
  - exists w1. split; [exact Hrun | exact Hread].
Defined.

(** The write of tool 1 fails with a text that mentions the embedding. *)
Lemma upsert_tool_failure_kind_witness :
  exists message w1,
    @upsert_tool strict_runtime (failing_at 1 "no room for the embedding")
                 (sample_tool 1) "test" empty_world
    = (Raise (ToolSearchError message EMBEDDING_ERROR), w1)
    /\ index w1 = [].
Proof.
  apply (@upsert_tool_failure_kind strict_runtime (failing_at 1 "no room for the embedding")
           (sample_tool 1) "test" empty_world "no room for the embedding").
  - reflexivity.
  - right. split; reflexivity.
Defined.

Definition three_tools : list Tool := [sample_tool 1; sample_tool 2; sample_tool 3].

Lemma three_tools_valid : Forall (fun t => 0 < action_id t) three_tools.
Proof. repeat constructor. Qed.

(** Three tools in batches of two: the ids in order, the three records. *)
Lemma upsert_tools_any_batch_size_witness :
  exists w',
    @upsert_tools strict_runtime steady_services three_tools "test" 2 empty_world
    = (Ok ["1"; "2"; "3"], w')
    /\ namespace_vectors (index w') "test"
       = @batch_vectors strict_runtime steady_services three_tools.
Proof.
  destruct (@upsert_tools_any_batch_size strict_runtime steady_services three_tools "test" 2
              empty_world) as (w' & Hrun & Hvs & _).
  - exact three_tools_valid.
  - reflexivity.
  - apply steady_services_answer.
  - exists w'. split; [exact Hrun | exact Hvs].
Defined.

(** Batch sizes 0 and -5. *)
Lemma upsert_tools_nonpositive_batch_size_witness :
  @upsert_tools strict_runtime steady_services three_tools "test" 0 empty_world
  = (Raise (ToolSearchError "Failed to upsert tools: range() arg 3 must not be zero"
                            BATCH_UPSERT_ERROR), empty_world)
  /\ @upsert_tools strict_runtime steady_services three_tools "test" (-5) empty_world
     = (Ok [], empty_world).
Proof.
  destruct (@upsert_tools_nonpositive_batch_size strict_runtime steady_services three_tools
              "test" empty_world) as [H0 Hneg].
  - discriminate.
  - exact three_tools_valid.
  - split; [exact H0 | apply Hneg; reflexivity].
Defined.

(** Tool 2 read back after the three tools were written in batches of two. *)
Lemma upsert_tools_then_get_witness :
  exists ids w',
    @upsert_tools strict_runtime steady_services three_tools "test" 2 empty_world
    = (Ok ids, w')
    /\ fst (@get_tool_by_id strict_runtime steady_services 2 "test" w')
       = Ok (Some (sample_tool 2)).
Proof.
  destruct (@upsert_tools_then_get strict_runtime steady_services three_tools "test" 2
              empty_world) as (ids & w' & Hrun & Hread & _).
  - exact three_tools_valid.
  - reflexivity.
  - apply empty_world_unique_ids.
  - apply steady_services_answer.
  - exists ids, w'. split; [exact Hrun|]. apply Hread. reflexivity.
Defined.

Definition sample_toolkit : Toolkit :=
  {| tk_toolkit_id := 79; tk_name := "Pendle"; tk_description := "sample";
     tools := three_tools |}.

(** The toolkit of the three tools written, and tool 3 read back. *)
Lemma upsert_toolkit_then_get_witness :
  exists w',
    @upsert_toolkit strict_runtime steady_services sample_toolkit "test" empty_world
    = (Ok ["1"; "2"; "3"], w')
    /\ fst (@get_tool_by_id strict_runtime steady_services 3 "test" w')
       = Ok (Some (sample_tool 3)).
Proof.
  destruct (@upsert_toolkit_then_get strict_runtime steady_services sample_toolkit "test"
              empty_world) as (w' & Hrun & Hread).
  - discriminate.
  - exact three_tools_valid.
  - apply empty_world_unique_ids.
  - apply steady_services_answer.
  - exists w'. split; [exact Hrun|]. apply Hread. reflexivity.
Defined.

(** An id that is not stored. *)
Lemma get_tool_by_id_outcomes_witness :
  @get_tool_by_id strict_runtime steady_services 5 "test" empty_world
  = (Ok None, record_call (IndexFetch "test" ["5"]) empty_world).
Proof.
  destruct (@get_tool_by_id_outcomes strict_runtime steady_services 5 "test" empty_world)
    as (outcome & Hrun & Hnone & _).
  - reflexivity.
  - apply empty_world_unique_ids.
  - rewrite (Hnone eq_refl eq_refl) in Hrun. exact Hrun.
Defined.

Lemma two_tool_world_unique_ids : unique_ids (index two_tool_world) "test".
Proof.
  unfold unique_ids.
  change (map vec_id (namespace_vectors (index two_tool_world) "test")) with ["1001"; "1002"].
  repeat constructor; simpl; intros H; repeat destruct H as [H|H]; try discriminate H;
    exact H.
Qed.

(** Tool 1001 deleted from the index of the tools 1001 and 1002. *)
Lemma delete_tool_then_get_witness :
  exists w1,
    @delete_tool steady_services 1001 "test" two_tool_world = (Ok true, w1)
    /\ fst (@get_tool_by_id strict_runtime steady_services 1001 "test" w1) = Ok None
    /\ fst (@get_tool_by_id strict_runtime steady_services 1002 "test" w1)
       = Ok (Some (sample_tool 1002)).
Proof.
  destruct (@delete_tool_then_get strict_runtime steady_services 1001 "test" two_tool_world)
    as (w1 & Hrun & _ & Hgone & Hkept).
  - exact two_tool_world_unique_ids.
  - apply steady_services_answer.
  - exists w1. split; [exact Hrun|]. split; [apply Hgone; reflexivity|].
    rewrite Hkept; [reflexivity | reflexivity | discriminate].
Defined.

(** The ids 1001 and 7 deleted from that index: 7 was not stored. *)
Lemma delete_tools_then_get_witness :
  exists w1,
    @delete_tools steady_services [1001; 7] "test" two_tool_world = (Ok ["1001"; "7"], w1)
    /\ fst (@get_tool_by_id strict_runtime steady_services 1001 "test" w1) = Ok None
    /\ fst (@get_tool_by_id strict_runtime steady_services 1002 "test" w1)
       = Ok (Some (sample_tool 1002)).
Proof.
  destruct (@delete_tools_then_get strict_runtime steady_services [1001; 7] "test"
              two_tool_world) as (w1 & Hrun & Hgone & Hkept & _).
  - exact two_tool_world_unique_ids.
  - apply steady_services_answer.
  - exists w1. split; [exact Hrun|]. split.
    + apply Hgone; [reflexivity | simpl; tauto].
    + rewrite Hkept; [reflexivity | reflexivity|].
      simpl. intros [H|[H|[]]]; discriminate H.
Defined.

(** A query with text for one result, on the index of two tools. *)
Definition text_request : ToolSearchRequest :=
  {| query := "swap"; top_k := 1; filters := None |}.

Definition text_query_run : result (list ToolSearchResponse) * world :=
  @query_tools strict_runtime steady_services default_provider text_request "test"
               two_tool_world.

Lemma text_query_returns : exists results w', text_query_run = (Ok results, w').
Proof. vm_compute. do 2 eexists. reflexivity. Qed.

Lemma query_tools_result_bounds_witness :
  exists results w',
    text_query_run = (Ok results, w')
    /\ (List.length results <= 1)%nat
    /\ Forall (fun r => in_unit_interval (score r) = true) results
    /\ index w' = index two_tool_world.
Proof.
  destruct text_query_returns as (results & w' & Hrun).
  exists results, w'. split; [exact Hrun|].
  exact (@query_tools_result_bounds strict_runtime steady_services default_provider
           text_request "test" two_tool_world w' results Hrun).
Defined.

Lemma semantic_query_requests_witness :
  exists results w',
    text_query_run = (Ok results, w')
    /\ log w'
       = (log two_tool_world
            ++ [EmbedQuery "swap";
                IndexQuery "test" [0%float; 0%float; 0%float] 1 None])%list.
Proof.
  destruct text_query_returns as (results & w' & Hrun).
  exists results, w'. split; [exact Hrun|].
  destruct (@semantic_query_requests strict_runtime steady_services default_provider
              text_request "test" two_tool_world w' results) as [Hlog _].
  - discriminate.
  - discriminate.
  - exact Hrun.
  - exact Hlog.
Defined.

Definition large_toolkit_fetch : result (list Tool) * world :=
  @get_toolkit_tools strict_runtime steady_services default_provider 79 "test"
                     large_toolkit_world.

Lemma large_toolkit_fetch_returns : exists tools_ w', large_toolkit_fetch = (Ok tools_, w').
Proof. vm_compute. do 2 eexists. reflexivity. Qed.

(** The tools fetched for toolkit 79 from the index of its 150 tools. *)
Lemma get_toolkit_tools_only_members_witness :
  exists tools_ w',
    large_toolkit_fetch = (Ok tools_, w')
    /\ Forall (fun t => toolkit_id t = 79) tools_.
Proof.
  destruct large_toolkit_fetch_returns as (tools_ & w' & Hrun).
  exists tools_, w'. split; [exact Hrun|].
  assert (H := @get_toolkit_tools_only_members strict_runtime steady_services
                 default_provider 79 "test" large_toolkit_world w' tools_
                 (fun v l x Hin => Hin) large_toolkit_world_encoded Hrun).
  apply Forall_forall. intros t Hin. rewrite Forall_forall in H. exact (proj1 (H t Hin)).
Defined.

Definition large_toolkit_delete : result Z * world :=
  @delete_toolkit strict_runtime steady_services default_provider 79 "test"
                  large_toolkit_world.

Lemma large_toolkit_delete_returns :
  exists w', large_toolkit_delete = (Ok 100, w')
             /\ List.length (namespace_vectors (index w') "test") = 50%nat.
Proof. vm_compute. eexists. split; reflexivity. Qed.

(** Deleting toolkit 79, which has 150 tools, deletes 100 of them. *)
Lemma delete_toolkit_at_most_100_witness :
  exists w' tools_ w1,
    large_toolkit_delete = (Ok 100, w')
    /\ List.length (namespace_vectors (index w') "test") = 50%nat
    /\ large_toolkit_fetch = (Ok tools_, w1)
    /\ 100 = Z.of_nat (List.length tools_).
Proof.
  destruct large_toolkit_delete_returns as (w' & Hrun & Hleft).
  destruct (@delete_toolkit_at_most_100 strict_runtime steady_services default_provider
              79 "test" large_toolkit_world w' 100 Hrun)
    as (tools_ & w1 & Hget & Hn & _).
  exists w', tools_, w1. repeat split; assumption.
Defined.

(** A request for three results; 51 is refused. *)
Lemma constructed_request_bounds_witness :
  (exists req,
      @new_ToolSearchRequest strict_runtime (PStr "swap") (Some (PInt 3)) None = Ok req
      /\ 1 <= top_k req <= 50)
  /\ @new_ToolSearchRequest strict_runtime (PStr "swap") (Some (PInt 51)) None
     = Raise (PyError KValidationError "validation error for ToolSearchRequest").
Proof.
  split; [|reflexivity].
  eexists. split; [reflexivity|].
  apply (@constructed_request_bounds strict_runtime steady_services default_provider
           (PStr "swap") (Some (PInt 3)) None _ eq_refl).
Defined.

(** A tool of another toolkit. *)
Definition other_tool : Tool :=
  {| action_id := 5; toolkit_id := 80; tool_name := "quote"; description := "sample";
     parameters := []; toolkit := "Other" |}.

Definition mixed_tools : list Tool := [sample_tool 1; other_tool; sample_tool 2].

(** The index after two tools of toolkit 79 and one of toolkit 80 were
    written. *)
Definition mixed_world : world :=
  snd (@upsert_tools strict_runtime steady_services mixed_tools "test" 100 empty_world).

Lemma mixed_world_vectors :
  namespace_vectors (index mixed_world) "test"
  = @batch_vectors strict_runtime steady_services mixed_tools.
Proof. vm_compute. reflexivity. Qed.

Lemma mixed_world_records : @holds_tool_records strict_runtime mixed_world "test".
Proof.
  unfold holds_tool_records. rewrite mixed_world_vectors. unfold batch_vectors.
  apply Forall_forall. intros v Hin. apply in_map_iff in Hin.
  destruct Hin as (t & <- & _). exists t. split; reflexivity.
Qed.

Lemma mixed_world_unique_ids : unique_ids (index mixed_world) "test".
Proof.
  unfold unique_ids. rewrite mixed_world_vectors.
  change (map vec_id (@batch_vectors strict_runtime steady_services mixed_tools))
    with ["1"; "5"; "2"].
  repeat constructor; simpl; intros H; repeat destruct H as [H|H]; try discriminate H;
    exact H.
Qed.

Lemma steady_rank_keeps_candidates : @rank_keeps_candidates steady_services.
Proof. intros v l. split; [reflexivity | auto]. Qed.

Lemma steady_rank_returns_candidates : @rank_returns_candidates steady_services.
Proof. intros v l x H. exact H. Qed.

(** The tools of toolkit 79 fetched from that index: both of them. *)
Lemma get_toolkit_tools_complete_witness :
  exists tools_ w1,
    @get_toolkit_tools strict_runtime steady_services default_provider 79 "test" mixed_world
    = (Ok tools_, w1)
    /\ List.length tools_ = 2%nat
    /\ In (sample_tool 2) tools_.
Proof.
  destruct (@get_toolkit_tools_complete strict_runtime steady_services default_provider
              79 "test" mixed_world) as (tools_ & w1 & Hrun & Hlen & Hall).
  - reflexivity.
  - discriminate.
  - apply steady_services_answer.
  - exact steady_rank_keeps_candidates.
  - exact steady_rank_returns_candidates.
  - apply holds_tool_records_encoded, mixed_world_records.
  - vm_compute. lia.
  - exists tools_, w1. split; [exact Hrun|]. split; [exact Hlen|].
    apply (Hall (sample_tool 2)
                (@tool_record strict_runtime steady_services (sample_tool 2))).
    + rewrite mixed_world_vectors. simpl. tauto.
    + reflexivity.
    + reflexivity.
Defined.

(** Toolkit 79 deleted from that index: two records deleted, the tool of
    toolkit 80 left. *)
Lemma delete_toolkit_removes_toolkit_witness :
  exists w',
    @delete_toolkit strict_runtime steady_services default_provider 79 "test" mixed_world
    = (Ok 2, w')
    /\ namespace_vectors (index w') "test"
       = [@tool_record strict_runtime steady_services other_tool].
Proof.
  destruct (@delete_toolkit_removes_toolkit strict_runtime steady_services default_provider
              79 "test" mixed_world) as (w' & Hrun & Hleft & _).
  - reflexivity.
  - discriminate.
  - apply steady_services_answer.
  - exact steady_rank_keeps_candidates.
  - exact steady_rank_returns_candidates.
  - exact mixed_world_records.
  - exact mixed_world_unique_ids.
  - vm_compute. lia.
  - exists w'. split; [exact Hrun|]. rewrite Hleft, mixed_world_vectors. reflexivity.
Defined.

(** A filter map with a toolkit name and a toolkit id. *)
Definition toolkit_filters : dict := [("toolkit", PStr "Pendle"); ("toolkit_id", PInt 79)].

Lemma build_filter_enforces_each_key_witness :
  field_in (@build_tool_metadata strict_runtime (sample_tool 1)) "toolkit_name"
           (PDict [("$in", PList [PStr "Pendle"])]) = true.
Proof.
  apply (@build_filter_enforces_each_key toolkit_filters
           (@build_tool_metadata strict_runtime (sample_tool 1)) "toolkit" "toolkit_name").
  - exact I.
  - simpl. tauto.
  - reflexivity.
  - reflexivity.
Defined.

(** A request for the tools that require the parameter [address], which
    both tools of the index have. *)
Definition address_request : ToolSearchRequest :=
  {| query := "swap"; top_k := 5; filters := Some [("required_params", PStr "address")] |}.

Definition address_run : result (list ToolSearchResponse) * world :=
  @query_tools strict_runtime steady_services default_provider address_request "test"
               two_tool_world.

Lemma address_run_returns : exists results w', address_run = (Ok results, w').
Proof. vm_compute. do 2 eexists. reflexivity. Qed.

Lemma two_tool_world_encoded : @holds_encoded_tools strict_runtime two_tool_world "test".
Proof.
  unfold holds_encoded_tools.
  change (namespace_vectors (index two_tool_world) "test")
    with (@batch_vectors strict_runtime steady_services [sample_tool 1001; sample_tool 1002]).
  unfold batch_vectors. apply Forall_forall. intros v Hin. apply in_map_iff in Hin.
  destruct Hin as (t & <- & _). exists t. reflexivity.
Qed.

Lemma required_params_filter_matches_nothing_witness :
  exists w', address_run = (Ok [], w').
Proof.
  destruct address_run_returns as (results & w' & Hrun).
  exists w'. rewrite Hrun.
  rewrite (@required_params_filter_matches_nothing strict_runtime steady_services
             default_provider address_request "test" two_tool_world w' results eq_refl
             steady_rank_returns_candidates two_tool_world_encoded Hrun).
  reflexivity.
Defined.

(** A request for the tools of toolkit 80 whose names start with [qu]. *)
Definition toolkit_80_request : ToolSearchRequest :=
  {| query := "price";
     top_k := 5;
     filters := Some [("toolkit_id", PInt 80); ("name_prefix", PStr "qu")] |}.

Definition toolkit_80_run : result (list ToolSearchResponse) * world :=
  @query_tools strict_runtime steady_services default_provider toolkit_80_request "test"
               mixed_world.

Lemma toolkit_80_run_returns :
  exists r w', toolkit_80_run = (Ok [r], w') /\ resp_action_id r = 5.
Proof. vm_compute. do 2 eexists. split; reflexivity. Qed.

Lemma query_tools_enforces_toolkit_filter_witness :
  exists r w',
    toolkit_80_run = (Ok [r], w') /\ resp_action_id r = 5 /\ resp_toolkit_id r = 80.
Proof.
  destruct toolkit_80_run_returns as (r & w' & Hrun & Hid).
  exists r, w'. split; [exact Hrun|]. split; [exact Hid|].
  assert (H := @query_tools_enforces_toolkit_filter strict_runtime steady_services
                 default_provider toolkit_80_request "test" mixed_world w' [r] I eq_refl
                 steady_rank_returns_candidates
                 (holds_tool_records_encoded mixed_world_records) Hrun).
  inversion H as [|? ? [E|[]] _]. now injection E.
Defined.

Lemma query_tools_enforces_name_prefix_witness :
  exists r w',
    toolkit_80_run = (Ok [r], w') /\ startswith (resp_tool_name r) "qu" = true.
Proof.
  destruct toolkit_80_run_returns as (r & w' & Hrun & _).
  exists r, w'. split; [exact Hrun|].
  assert (H := @query_tools_enforces_name_prefix strict_runtime steady_services
                 default_provider toolkit_80_request "test" mixed_world w' [r] "qu" eq_refl
                 ltac:(discriminate) Hrun).
  now inversion H.
Defined.

(** The text of a file that holds the dumps of two tools. *)
Definition tools_file_text : string :=
  @Json.dumps strict_runtime (PList [tool_dump (sample_tool 1); tool_dump other_tool]).

(** A file system in which every path holds [text]. *)
Definition file_with (text : string) : string -> result string := fun _ => Ok text.

Lemma load_tools_from_json_outcomes_witness :
  @load_tools_from_json strict_runtime (file_with tools_file_text) "tools.json"
  = Ok [sample_tool 1; other_tool].
Proof.
  apply (proj2 (@load_tools_from_json_outcomes strict_runtime (file_with tools_file_text)
                  "tools.json") tools_file_text [sample_tool 1; other_tool]).
  - reflexivity.
  - vm_compute. reflexivity.
Defined.

(** The text of a file that holds toolkit 79 with the same two tools, the
    second of which names toolkit 80 in its own entry. *)
Definition toolkit_file_text : string :=
  @Json.dumps strict_runtime
    (PDict [("toolkit_id", PInt 79); ("name", PStr "Pendle"); ("description", PStr "sample");
            ("tools", PList [tool_dump (sample_tool 1); tool_dump other_tool])]).

Definition loaded_toolkit : result Toolkit :=
  @load_toolkit_from_json strict_runtime (file_with toolkit_file_text) "toolkit.json".

Lemma loaded_toolkit_returns :
  exists tk, loaded_toolkit = Ok tk /\ tk_toolkit_id tk = 79 /\ tk_name tk = "Pendle"
             /\ map action_id (tools tk) = [1; 5].
Proof. vm_compute. eexists. repeat split. Qed.

Lemma load_toolkit_from_json_outcomes_witness :
  exists tk,
    loaded_toolkit = Ok tk
    /\ map action_id (tools tk) = [1; 5]
    /\ Forall (fun t => toolkit_id t = 79 /\ toolkit t = "Pendle") (tools tk).
Proof.
  destruct loaded_toolkit_returns as (tk & Hrun & Hid & Hname & Htools).
  exists tk. split; [exact Hrun|]. split; [exact Htools|].
  rewrite <- Hid, <- Hname.
  exact (proj2 (@load_toolkit_from_json_outcomes strict_runtime (file_with toolkit_file_text)
                  "toolkit.json") tk Hrun).
Defined.
